(** * Trading-Bot: order validation, exchange gateway and TWAP scheduler

    A shallow embedding of [trading_bot.py] (the command line bot) and of the
    utility functions of [trading_bot_ui.py] (the desktop variant), with the
    properties of the written specification stated and settled on it.

    Layout: the Python values the program works with (strings, exceptions,
    [decimal.Decimal] under the default context), then the two modules of the
    program, then the theorems. *)

From Stdlib Require Import ZArith NArith QArith Qpower List String Ascii Bool Lia.
From Stdlib Require Import Qabs DecimalString.
Import ListNotations.

Set Implicit Arguments.

Local Open Scope string_scope.
Local Open Scope Z_scope.

(* ================================================================== *)
(** ** Python strings

    A [str] is modelled by [string]; the model is the ASCII fragment of
    Python's [str] (code points below 128), where [str.strip] and
    [str.upper] are as defined here.  Characters from 128 up are left
    alone by every function below. *)

Module PyStr.

(** [str.isspace] on one ASCII character: TAB, LF, VT, FF, CR, the four
    separators FS GS RS US, and the space. *)
Definition isspace (c : ascii) : bool :=
  let n := N_of_ascii c in
  (((9 <=? n) && (n <=? 13)) || ((28 <=? n) && (n <=? 32)))%N.

Fixpoint lstrip (s : string) : string :=
  match s with
  | EmptyString => EmptyString
  | String c s' => if isspace c then lstrip s' else s
  end.

Fixpoint rstrip (s : string) : string :=
  match s with
  | EmptyString => EmptyString
  | String c s' =>
      match rstrip s' with
      | EmptyString => if isspace c then EmptyString else String c EmptyString
      | r => String c r
      end
  end.

(** [s.strip()] *)
Definition strip (s : string) : string := rstrip (lstrip s).


Definition is_lower (c : ascii) : bool :=
  let n := N_of_ascii c in ((97 <=? n) && (n <=? 122))%N.

Definition is_upper (c : ascii) : bool :=
  let n := N_of_ascii c in ((65 <=? n) && (n <=? 90))%N.

Definition upper_char (c : ascii) : ascii :=
  if is_lower c then ascii_of_N (N_of_ascii c - 32) else c.

Definition lower_char (c : ascii) : ascii :=
  if is_upper c then ascii_of_N (N_of_ascii c + 32) else c.

Fixpoint map_chars (f : ascii -> ascii) (s : string) : string :=
  match s with
  | EmptyString => EmptyString
  | String c s' => String (f c) (map_chars f s')
  end.

(** [s.upper()] and [s.lower()] *)
Definition upper (s : string) : string := map_chars upper_char s.
Definition lower (s : string) : string := map_chars lower_char s.



(** [s.replace(c, "")] for a one-character [c]. *)
Fixpoint remove_char (c : ascii) (s : string) : string :=
  match s with
  | EmptyString => EmptyString
  | String a s' =>
      if Ascii.eqb a c then remove_char c s' else String a (remove_char c s')
  end.

End PyStr.

(* ================================================================== *)
(** ** Python exceptions and results *)

(** The exceptions the program can meet.  [ClientError] stands for any
    [Exception] raised inside the exchange client library (API error,
    request error, network fault); it carries [str(e)].  [SystemExit] is
    the one class here that derives from [BaseException] only. *)
Inductive exn : Type :=
| ArgumentTypeError (msg : string)
| InvalidOperation (condition : string)
| DivisionByZero
| Overflow
| ValueError (msg : string)
| KeyError (key : string)
| OverflowError (msg : string)
| TypeError (msg : string)
| ClientError (descr : string)
| SystemExit (code : Z).

(** [isinstance(e, Exception)] *)
Definition is_Exception (e : exn) : bool :=
  match e with
  | SystemExit _ => false
  | _ => true
  end.

(** [str(e)] *)
Definition str_exn (e : exn) : string :=
  match e with
  | ArgumentTypeError msg => msg
  | InvalidOperation c => "[<class 'decimal." ++ c ++ "'>]"
  | DivisionByZero => "[<class 'decimal.DivisionByZero'>]"
  | Overflow => "[<class 'decimal.Overflow'>]"
  | ValueError msg => msg
  | KeyError k => "'" ++ k ++ "'"
  | OverflowError msg => msg
  | TypeError msg => msg
  | ClientError d => d
  | SystemExit c => NilZero.string_of_int (Z.to_int c)
  end.

(** The outcome of evaluating a Python expression. *)
Inductive result (A : Type) : Type :=
| Return (a : A)
| Raise (e : exn).

Arguments Return {A} a.
Arguments Raise {A} e.

(** Evaluate [r], then [k] on its value; an exception passes through. *)
Definition result_bind {A B} (r : result A) (k : A -> result B) : result B :=
  match r with
  | Return a => k a
  | Raise e => Raise e
  end.

(* ================================================================== *)
(** ** decimal.Decimal under the default context

    [Context(prec=28, rounding=ROUND_HALF_EVEN, Emin=-999999, Emax=999999,
    clamp=0, traps=[InvalidOperation, DivisionByZero, Overflow])].  The
    operations follow the decimal module of the standard library
    ([Decimal.__truediv__], [__floordiv__], [__mul__], [_fix], ...). *)

Module PyDecimal.

(** A finite number is [(-1)^sign * coeff * 10^exp]. *)
Inductive Decimal : Type :=
| Fin (sign : bool) (coeff : N) (exp : Z)
| Inf (sign : bool)
| NaN (sign : bool) (signaling : bool) (payload : N).

Definition prec : Z := 28.
Definition Emax : Z := 999999.
Definition Emin : Z := -999999.
Definition Etiny : Z := Emin - prec + 1.
Definition Etop : Z := Emax - prec + 1.

(** [10**k] for [k >= 0] *)
Definition pow10 (k : Z) : N := (10 ^ Z.to_N k)%N.

Fixpoint ndigits_aux (fuel : nat) (n : N) : Z :=
  match fuel with
  | O => 1
  | S f => if (n <? 10)%N then 1 else 1 + ndigits_aux f (n / 10)%N
  end.

(** [len(str(n))]: the number of decimal digits, 1 for 0. *)
Definition ndigits (n : N) : Z := ndigits_aux (N.to_nat (N.size n)) n.

(** [self.adjusted()] of a finite number *)
Definition adjusted (coeff : N) (exp : Z) : Z := exp + ndigits coeff - 1.

(** Drop the last [drop] digits of [c], rounding half to even. *)
Definition round_half_even (c : N) (drop : Z) : N :=
  let p := pow10 drop in
  let q := (c / p)%N in
  let r := (c mod p)%N in
  if ((p <? 2 * r) || ((2 * r =? p) && N.odd q))%N then (q + 1)%N else q.

(** [_fix_nan]: keep the last [prec] digits of the payload. *)
Definition _fix_nan (sign signaling : bool) (payload : N) : Decimal :=
  NaN sign signaling (payload mod pow10 prec)%N.

(** [_fix] on a finite triple: round to [prec] digits, keep the exponent
    in range. *)
Definition _fix_finite (sign : bool) (coeff : N) (exp : Z) : result Decimal :=
  if (coeff =? 0)%N then
    Return (Fin sign 0 (Z.min (Z.max exp Etiny) Emax))
  else
    let exp_min := ndigits coeff + exp - prec in
    if Etop <? exp_min then Raise Overflow
    else
      let exp_min := if exp_min <? Etiny then Etiny else exp_min in
      if exp <? exp_min then
        let digits := ndigits coeff + exp - exp_min in
        let '(c1, e1) :=
          if digits <? 0 then (1%N, exp_min - 1) else (coeff, exp) in
        let rounded := round_half_even c1 (exp_min - e1) in
        let '(c2, exp_min2) :=
          if prec <? ndigits rounded then ((rounded / 10)%N, exp_min + 1)
          else (rounded, exp_min) in
        if Etop <? exp_min2 then Raise Overflow
        else Return (Fin sign c2 exp_min2)
      else Return (Fin sign coeff exp).

Definition _fix (d : Decimal) : result Decimal :=
  match d with
  | Fin s c e => _fix_finite s c e
  | Inf _ => Return d
  | NaN s g p => Return (_fix_nan s g p)
  end.

(** [_check_nans]: a signaling NaN operand raises, a quiet one is the
    answer. *)
Definition _check_nans (a b : Decimal) : option (result Decimal) :=
  match a, b with
  | NaN _ true _, _ => Some (Raise (InvalidOperation "InvalidOperation"))
  | _, NaN _ true _ => Some (Raise (InvalidOperation "InvalidOperation"))
  | NaN s false p, _ => Some (Return (_fix_nan s false p))
  | _, NaN s false p => Some (Return (_fix_nan s false p))
  | _, _ => None
  end.

(** The loop [while exp < ideal_exp and coeff % 10 == 0] of an exact
    division; [fuel] is [ideal_exp - exp]. *)
Fixpoint strip_zeros (fuel : nat) (coeff : N) (exp : Z) : N * Z :=
  match fuel with
  | O => (coeff, exp)
  | S f =>
      if (coeff mod 10 =? 0)%N then strip_zeros f (coeff / 10)%N (exp + 1)
      else (coeff, exp)
  end.

(** [self / other] *)
Definition truediv (a b : Decimal) : result Decimal :=
  match _check_nans a b with
  | Some r => r
  | None =>
      match a, b with
      | Inf _, Inf _ => Raise (InvalidOperation "InvalidOperation")
      | Inf sa, Fin sb _ _ => Return (Inf (xorb sa sb))
      | Fin sa _ _, Inf sb => Return (Fin (xorb sa sb) 0 Etiny)
      | Fin sa ca ea, Fin sb cb eb =>
          let sign := xorb sa sb in
          if (cb =? 0)%N then
            if (ca =? 0)%N then Raise (InvalidOperation "DivisionUndefined")
            else Raise DivisionByZero
          else if (ca =? 0)%N then _fix_finite sign 0 (ea - eb)
          else
            let shift := ndigits cb - ndigits ca + prec + 1 in
            let exp := ea - eb - shift in
            let '(coeff, remainder) :=
              if 0 <=? shift then N.div_eucl (ca * pow10 shift) cb
              else N.div_eucl ca (cb * pow10 (- shift)) in
            if (remainder =? 0)%N then
              let '(coeff', exp') :=
                strip_zeros (Z.to_nat (ea - eb - exp)) coeff exp in
              _fix_finite sign coeff' exp'
            else
              _fix_finite sign
                (if (coeff mod 5 =? 0)%N then coeff + 1 else coeff)%N exp
      | _, _ => Raise (InvalidOperation "InvalidOperation")
      end
  end.

(** [_divide(...)[0]]: the integer part of the quotient, truncated towards
    zero. *)
Definition _divide (sa : bool) (ca : N) (ea : Z) (sb : bool) (cb : N) (eb : Z)
  : result Decimal :=
  let sign := xorb sa sb in
  let expdiff := adjusted ca ea - adjusted cb eb in
  if (ca =? 0)%N || (expdiff <=? -2) then Return (Fin sign 0 0)
  else if expdiff <=? prec then
    let '(i1, i2) :=
      if eb <=? ea then ((ca * pow10 (ea - eb))%N, cb)
      else (ca, (cb * pow10 (eb - ea))%N) in
    let q := (i1 / i2)%N in
    if (q <? pow10 prec)%N then Return (Fin sign q 0)
    else Raise (InvalidOperation "DivisionImpossible")
  else Raise (InvalidOperation "DivisionImpossible").

(** [self // other] *)
Definition floordiv (a b : Decimal) : result Decimal :=
  match _check_nans a b with
  | Some r => r
  | None =>
      match a, b with
      | Inf _, Inf _ => Raise (InvalidOperation "InvalidOperation")
      | Inf sa, Fin sb _ _ => Return (Inf (xorb sa sb))
      | Fin sa _ _, Inf sb => Return (Fin (xorb sa sb) 0 0)
      | Fin sa ca ea, Fin sb cb eb =>
          if (cb =? 0)%N then
            if (ca =? 0)%N then Raise (InvalidOperation "DivisionUndefined")
            else Raise DivisionByZero
          else _divide sa ca ea sb cb eb
      | _, _ => Raise (InvalidOperation "InvalidOperation")
      end
  end.

(** [self * other] *)
Definition mul (a b : Decimal) : result Decimal :=
  match _check_nans a b with
  | Some r => r
  | None =>
      match a, b with
      | Inf sa, Inf sb => Return (Inf (xorb sa sb))
      | Inf sa, Fin sb cb _ =>
          if (cb =? 0)%N then Raise (InvalidOperation "InvalidOperation")
          else Return (Inf (xorb sa sb))
      | Fin sa ca _, Inf sb =>
          if (ca =? 0)%N then Raise (InvalidOperation "InvalidOperation")
          else Return (Inf (xorb sa sb))
      | Fin sa ca ea, Fin sb cb eb =>
          _fix_finite (xorb sa sb) (ca * cb)%N (ea + eb)
      | _, _ => Raise (InvalidOperation "InvalidOperation")
      end
  end.

(** [Decimal(n)] for an [int] *)
Definition of_int (n : Z) : Decimal := Fin (n <? 0) (Z.abs_N n) 0.

(** [d <= 0]: an ordering comparison with the integer 0; any NaN
    signals InvalidOperation, which the default context traps. *)
Definition le_zero (d : Decimal) : result bool :=
  match d with
  | NaN _ _ _ => Raise (InvalidOperation "InvalidOperation")
  | Inf s => Return s
  | Fin s c _ => Return ((c =? 0)%N || s)
  end.

(** *** The constructor from a string

    [Decimal(value)] for a [str]: surrounding whitespace and underscores
    are dropped, then the text must be a sign, and a number with an
    optional fraction and exponent, [Inf], [Infinity], or [NaN] / [sNaN]
    with an optional payload, in any letter case.  [None] stands for
    [InvalidOperation] (ConversionSyntax). *)

Definition is_digit (c : ascii) : bool :=
  let n := N_of_ascii c in ((48 <=? n) && (n <=? 57))%N.

Definition digit_val (c : ascii) : N := (N_of_ascii c - 48)%N.

(** The longest prefix of digits: its value on top of [acc], its length
    on top of [len], and the rest of the text. *)
Fixpoint take_digits (s : string) (acc : N) (len : Z) : N * Z * string :=
  match s with
  | EmptyString => (acc, len, s)
  | String c s' =>
      if is_digit c then take_digits s' (10 * acc + digit_val c)%N (len + 1)
      else (acc, len, s)
  end.

Definition take_sign (s : string) : bool * string :=
  match s with
  | String "-" s' => (true, s')
  | String "+" s' => (false, s')
  | _ => (false, s)
  end.

(** The text after the exponent indicator: an optional sign and at least
    one digit, up to the end. *)
Definition parse_exponent (s : string) : option Z :=
  let '(neg, s1) := take_sign s in
  let '(v, n, rest) := take_digits s1 0 0 in
  match rest with
  | EmptyString =>
      if 0 <? n then Some (if neg then - Z.of_N v else Z.of_N v) else None
  | _ => None
  end.

Definition parse_number (sign : bool) (s : string) : option Decimal :=
  let '(ci, ni, r1) := take_digits s 0 0 in
  let '(c, nf, r2) :=
    match r1 with
    | String "." r => take_digits r ci 0
    | _ => (ci, 0, r1)
    end in
  if ni + nf =? 0 then None
  else
    match r2 with
    | EmptyString => Some (Fin sign c (- nf))
    | String e r3 =>
        if Ascii.eqb (PyStr.lower_char e) "e" then
          match parse_exponent r3 with
          | Some x => Some (Fin sign c (x - nf))
          | None => None
          end
        else None
    end.

(** A NaN payload: digits up to the end. *)
Definition parse_payload (s : string) : option N :=
  let '(v, _, rest) := take_digits s 0 0 in
  match rest with
  | EmptyString => Some v
  | _ => None
  end.

Definition of_string (value : string) : option Decimal :=
  let '(sign, s) := take_sign (PyStr.remove_char "_" (PyStr.strip value)) in
  let l := PyStr.lower s in
  if String.eqb l "inf" || String.eqb l "infinity" then Some (Inf sign)
  else
    match l with
    | String "n" (String "a" (String "n" diag)) =>
        option_map (NaN sign false) (parse_payload diag)
    | String "s" (String "n" (String "a" (String "n" diag))) =>
        option_map (NaN sign true) (parse_payload diag)
    | _ => parse_number sign s
    end.

Definition is_snan (d : Decimal) : bool :=
  match d with
  | NaN _ true _ => true
  | _ => false
  end.

(** The rational number a finite Decimal denotes. *)
Definition Qval (sign : bool) (coeff : N) (exp : Z) : Q :=
  ((if sign then -1 else 1) * inject_Z (Z.of_N coeff) * (10 # 1) ^ exp)%Q.

Definition value (d : Decimal) : option Q :=
  match d with
  | Fin s c e => Some (Qval s c e)
  | _ => None
  end.

End PyDecimal.

(* ================================================================== *)
(** ** trading_bot.py: the command line bot *)

Module TradingBot.
Import PyStr PyDecimal.

(** [float(qty)] as passed to the client.  The conversion is not
    computed: [float_of d] stands for the float that [float(d)] returns
    and keeps the Decimal it was converted from.  The float itself is
    the binary number nearest to [d], so 0.0 for a positive [d] below
    the floats and inf for one above them; what is stated of [d] is
    stated of the Decimal handed to [float], not of that number. *)
Inductive PyFloat : Type := float_of (d : Decimal).

(** [float(d)]: a signaling NaN cannot be converted. *)
Definition float_ (d : Decimal) : result PyFloat :=
  if is_snan d then Raise (ValueError "cannot convert signaling NaN to float")
  else Return (float_of d).

(** [str(price)], kept as the Decimal it prints. *)
Inductive DecimalStr : Type := str_of (d : Decimal).

(** The keyword arguments of [client.futures_create_order]. *)
Record OrderArgs : Type := {
  symbol : string;
  side : string;
  type : string;
  timeInForce : option string;
  quantity : PyFloat;
  price : option DecimalStr
}.

(** What one call of the exchange client does: it returns the
    acknowledgment, or raises an [Exception] [e] with [str(e) = descr]. *)
Inductive reply (Resp : Type) : Type :=
| Acknowledged (resp : Resp)
| Failed (descr : string).

Arguments Acknowledged {Resp} resp.
Arguments Failed {Resp} descr.

(** An order's outcome as the bot returns it: the acknowledgment, or
    [{"error": str(e)}]. *)
Inductive OrderResult (Resp : Type) : Type :=
| Ack (resp : Resp)
| Error (message : string).

Arguments Ack {Resp} resp.
Arguments Error {Resp} message.

(** [{"twap_results": results}] *)
Record TwapOutcome (Resp : Type) : Type := {
  twap_results : list (OrderResult Resp)
}.

Inductive level : Type := INFO | ERROR.

(** The records the logger is given, before formatting. *)
Inductive log_record (Resp : Type) : Type :=
| LogInitialized (base_url : string)
| LogMarket (side : string) (qty : Decimal) (symbol : string) (resp : Resp)
| LogMarketFailed (e : string)
| LogLimit (side : string) (qty price : Decimal) (symbol : string) (resp : Resp)
| LogLimitFailed (e : string).

Arguments LogInitialized {Resp} base_url.
Arguments LogMarket {Resp} side qty symbol resp.
Arguments LogMarketFailed {Resp} e.
Arguments LogLimit {Resp} side qty price symbol resp.
Arguments LogLimitFailed {Resp} e.

(** What [main] prints: [json.dumps] of a result or of a TWAP outcome. *)
Inductive output (Resp : Type) : Type :=
| OutResult (r : OrderResult Resp)
| OutTwap (o : TwapOutcome Resp).

Arguments OutResult {Resp} r.
Arguments OutTwap {Resp} o.

(** The effects of the program, in the order they happen. *)
Inductive event (Resp : Type) : Type :=
| EvOrder (args : OrderArgs)
| EvLog (lvl : level) (r : log_record Resp)
| EvSleep (seconds : Z)
| EvPrint (o : output Resp).

Arguments EvOrder {Resp} args.
Arguments EvLog {Resp} lvl r.
Arguments EvSleep {Resp} seconds.
Arguments EvPrint {Resp} o.

(** The command line after argparse split it: the sub-command and its
    options, those with a [type=] function of this file still raw, those
    with [type=int] already integers (with their defaults).  argparse
    converts the options in the order they stand on the command line;
    [Argv] holds the command lines that give [--side], [--quantity] and
    [--price] in this order, which is the order of [parse_args] below.
    In another order the same conversions run, and when two of them
    raise, the first on the command line decides: the properties of
    [main] below are stated so that they hold in every order. *)
Inductive Argv : Type :=
| ArgvMarket (symbol side quantity : string)
| ArgvLimit (symbol side quantity price : string)
| ArgvTwap (symbol side quantity : string) (parts interval : Z).

(** [args] as [parser.parse_args()] returns it. *)
Inductive Namespace : Type :=
| NsMarket (symbol side : string) (quantity : Decimal)
| NsLimit (symbol side : string) (quantity price : Decimal)
| NsTwap (symbol side : string) (quantity : Decimal) (parts interval : Z).

(** [range(n)] *)
Definition range (n : Z) : list Z := map Z.of_nat (seq 0 (Z.to_nat n)).

Section Bot.

(** [Decimal(value)] on a [str]; [None] is [InvalidOperation]. *)
Variable Decimal_new : string -> option Decimal.

(** The exchange and the network behind the client, the
    acknowledgments it sends, and the client's two operations. *)
Variable World : Type.
Variable Resp : Type.
Variable Client_new : World -> option string * World.
Variable futures_create_order : OrderArgs -> World -> reply Resp * World.

(** The longest interval [time.sleep] accepts on the platform. *)
Variable sleep_max : Z.

(** *** Validators *)

Definition parse_decimal (value : string) : result Decimal :=
  match Decimal_new value with
  | None => Raise (ArgumentTypeError ("Invalid number: " ++ value))
  | Some d =>
      match le_zero d with
      | Raise e => Raise e
      | Return true => Raise (ArgumentTypeError "Value must be positive")
      | Return false => Return d
      end
  end.

Definition validate_side (s : string) : result string :=
  let s2 := upper (strip s) in
  if negb (String.eqb s2 "BUY" || String.eqb s2 "SELL") then
    Raise (ArgumentTypeError "Side must be BUY or SELL")
  else Return s2.

(** *** Effects: the state of the world, the trace, exceptions *)

Record State : Type := { world : World; trace : list (event Resp) }.

Definition M (A : Type) : Type := State -> result A * State.

Definition ret {A} (a : A) : M A := fun st => (Return a, st).

Definition raise {A} (e : exn) : M A := fun st => (Raise e, st).

Definition bind {A B} (m : M A) (k : A -> M B) : M B :=
  fun st =>
    match m st with
    | (Return a, st') => k a st'
    | (Raise e, st') => (Raise e, st')
    end.

Definition lift {A} (r : result A) : M A := fun st => (r, st).

(** [try: body except Exception as e: handler(e)] *)
Definition try_except {A} (body : M A) (handler : exn -> M A) : M A :=
  fun st =>
    match body st with
    | (Raise e, st') =>
        if is_Exception e then handler e st' else (Raise e, st')
    | r => r
    end.

Definition emit (ev : event Resp) : M unit :=
  fun st => (Return tt, {| world := world st; trace := (trace st ++ [ev])%list |}).

Definition logger_info (r : log_record Resp) : M unit := emit (EvLog INFO r).
Definition logger_error (r : log_record Resp) : M unit := emit (EvLog ERROR r).

(** [time.sleep(seconds)].  A negative interval raises ValueError.  An
    interval above [sleep_max] is refused as well, and which exception
    CPython raises there depends on the interval: OverflowError above
    the range of its timestamps, OSError (errno 22) in a band below it.
    The OverflowError raised here stands for either; the properties
    below rely only on an [Exception] being raised. *)
Definition sleep (seconds : Z) : M unit :=
  if seconds <? 0 then raise (ValueError "sleep length must be non-negative")
  else if sleep_max <? seconds then
    raise (OverflowError "timestamp too large to convert to C _PyTime_t")
  else emit (EvSleep seconds).

(** [self.client.futures_create_order] applied to the keyword arguments *)
Definition client_futures_create_order (args : OrderArgs) : M Resp :=
  fun st =>
    let '(r, w) := futures_create_order args (world st) in
    let st' := {| world := w; trace := (trace st ++ [EvOrder args])%list |} in
    match r with
    | Acknowledged resp => (Return resp, st')
    | Failed descr => (Raise (ClientError descr), st')
    end.

(** [Client(api_key, api_secret, testnet=True)] *)
Definition new_Client : M unit :=
  fun st =>
    let '(r, w) := Client_new (world st) in
    let st' := {| world := w; trace := trace st |} in
    match r with
    | None => (Return tt, st')
    | Some descr => (Raise (ClientError descr), st')
    end.

Declare Scope bot_scope.
Delimit Scope bot_scope with bot.
Notation "x <- m ;; k" := (bind m (fun x => k))
  (at level 100, m at next level, right associativity) : bot_scope.
Notation "m ;; k" := (bind m (fun _ => k))
  (at level 100, right associativity) : bot_scope.
Local Open Scope bot_scope.

(** *** class FuturesBot *)

(** [base_url] is [None] when neither the option nor the environment
    gives it; [None + "/fapi"] is a TypeError. *)
Definition FuturesBot_init (base_url : option string) : M unit :=
  new_Client ;;
  match base_url with
  | None =>
      raise (TypeError
               "unsupported operand type(s) for +: 'NoneType' and 'str'")
  | Some url => logger_info (LogInitialized url)
  end.

Definition market (symbol side : string) (qty : Decimal)
  : M (OrderResult Resp) :=
  try_except
    (q <- lift (float_ qty) ;;
     resp <- client_futures_create_order
               {| symbol := upper symbol; side := side; type := "MARKET";
                  timeInForce := None; quantity := q; price := None |} ;;
     logger_info (LogMarket side qty symbol resp) ;;
     ret (Ack resp))
    (fun e =>
       logger_error (LogMarketFailed (str_exn e)) ;;
       ret (Error (str_exn e))).

Definition limit (symbol side : string) (qty price : Decimal)
  : M (OrderResult Resp) :=
  try_except
    (q <- lift (float_ qty) ;;
     resp <- client_futures_create_order
               {| symbol := upper symbol; side := side; type := "LIMIT";
                  timeInForce := Some "GTC"; quantity := q;
                  price := Some (str_of price) |} ;;
     logger_info (LogLimit side qty price symbol resp) ;;
     ret (Ack resp))
    (fun e =>
       logger_error (LogLimitFailed (str_exn e)) ;;
       ret (Error (str_exn e))).

(** The [for i in range(parts)] loop of [twap], over the indices still
    to come, with the results collected so far. *)
Fixpoint twap_loop (symbol side : string) (piece : Decimal)
    (parts interval : Z) (indices : list Z)
    (results : list (OrderResult Resp)) : M (list (OrderResult Resp)) :=
  match indices with
  | [] => ret results
  | i :: rest =>
      resp <- market symbol side piece ;;
      let results := (results ++ [resp])%list in
      (if i <? parts - 1 then sleep interval else ret tt) ;;
      twap_loop symbol side piece parts interval rest results
  end.

Definition twap (symbol side : string) (total_qty : Decimal)
    (parts interval : Z) : M (TwapOutcome Resp) :=
  piece <- lift (truediv total_qty (of_int parts)) ;;
  results <- twap_loop symbol side piece parts interval (range parts) [] ;;
  ret {| twap_results := results |}.

(** *** CLI *)

(** A [type=] function applied by argparse: an ArgumentTypeError
    becomes [parser.error], which exits with status 2; any other
    exception passes through. *)
Definition argparse_type {A} (r : result A) : result A :=
  match r with
  | Raise (ArgumentTypeError _) => Raise (SystemExit 2)
  | _ => r
  end.

(** [parser.parse_args()] *)
Definition parse_args (argv : Argv) : result Namespace :=
  match argv with
  | ArgvMarket symbol side quantity =>
      result_bind (argparse_type (validate_side side)) (fun s =>
      result_bind (argparse_type (parse_decimal quantity)) (fun q =>
      Return (NsMarket symbol s q)))
  | ArgvLimit symbol side quantity price =>
      result_bind (argparse_type (validate_side side)) (fun s =>
      result_bind (argparse_type (parse_decimal quantity)) (fun q =>
      result_bind (argparse_type (parse_decimal price)) (fun p =>
      Return (NsLimit symbol s q p))))
  | ArgvTwap symbol side quantity parts interval =>
      result_bind (argparse_type (validate_side side)) (fun s =>
      result_bind (argparse_type (parse_decimal quantity)) (fun q =>
      Return (NsTwap symbol s q parts interval)))
  end.

Definition print (o : output Resp) : M unit := emit (EvPrint o).

Definition main (base_url : option string) (argv : Argv) : M unit :=
  args <- lift (parse_args argv) ;;
  FuturesBot_init base_url ;;
  match args with
  | NsMarket symbol side quantity =>
      r <- market symbol side quantity ;;
      print (OutResult r)
  | NsLimit symbol side quantity price =>
      r <- limit symbol side quantity price ;;
      print (OutResult r)
  | NsTwap symbol side quantity parts interval =>
      o <- twap symbol side quantity parts interval ;;
      print (OutTwap o)
  end.

End Bot.

End TradingBot.

(* ================================================================== *)
(** ** trading_bot_ui.py: the utility functions of the desktop variant *)

Module TradingBotUI.
Import PyStr PyDecimal.

(** A filter of the exchange's symbol info, a dict from strings to
    strings such as [{"filterType": "LOT_SIZE", "stepSize": "0.001"}]. *)
Definition Filter : Type := list (string * string).

(** [d[key]] *)
Fixpoint getitem (d : Filter) (key : string) : result string :=
  match d with
  | [] => Raise (KeyError key)
  | (k, v) :: d' => if String.eqb k key then Return v else getitem d' key
  end.

Section UI.

Variable Decimal_new : string -> option Decimal.

(** [Decimal(value)] *)
Definition Decimal_ (value : string) : result Decimal :=
  match Decimal_new value with
  | None => Raise (InvalidOperation "ConversionSyntax")
  | Some d => Return d
  end.

Definition parse_decimal (value : string) : result Decimal :=
  match Decimal_new value with
  | None => Raise (ValueError "Invalid number")
  | Some d => Return d
  end.

Definition adjust_quantity (qty : Decimal) (lot_size : Filter)
  : result Decimal :=
  result_bind (getitem lot_size "stepSize") (fun v =>
  result_bind (Decimal_ v) (fun step =>
  result_bind (floordiv qty step) (fun q =>
  mul q step))).

Definition adjust_price (price : Decimal) (price_filter : Filter)
  : result Decimal :=
  result_bind (getitem price_filter "tickSize") (fun v =>
  result_bind (Decimal_ v) (fun tick =>
  result_bind (floordiv price tick) (fun q =>
  mul q tick))).

End UI.

End TradingBotUI.

(* ================================================================== *)
(** ** Vocabulary of the specification

    What the properties below speak about: the sign of a Decimal as a
    number, what a trace shows, the exchange's replies to a series of
    submissions, and the multiples of a step. *)

Module Spec.
Import PyStr PyDecimal TradingBot.

(** [d <= 0] and [d > 0] read on the number [d] denotes; a NaN is
    neither. *)
Definition nonpositive (d : Decimal) : Prop :=
  match d with
  | Fin s c e => (Qval s c e <= 0)%Q
  | Inf s => s = true
  | NaN _ _ _ => False
  end.

Definition positive (d : Decimal) : Prop :=
  match d with
  | Fin s c e => (0 < Qval s c e)%Q
  | Inf s => s = false
  | NaN _ _ _ => False
  end.

(** The quantities whose quotient by a positive integer the context can
    hold: a finite number is zero or has an adjusted exponent below
    [Emax] (it is below 1E+999999 in magnitude), an infinity, a quiet
    NaN. *)
Definition within_context (d : Decimal) : Prop :=
  match d with
  | Fin _ c e => c = 0%N \/ adjusted c e < Emax
  | Inf _ => True
  | NaN _ signaling _ => signaling = false
  end.

(** The Decimal behind a submitted quantity. *)
Definition piece_of (args : OrderArgs) : Decimal :=
  match quantity args with
  | float_of d => d
  end.

(** The sum of the numbers a list of finite Decimals denotes. *)
Fixpoint Qsum (l : list Decimal) : Q :=
  match l with
  | [] => 0
  | Fin s c e :: l' => Qval s c e + Qsum l'
  | _ :: l' => Qsum l'
  end.

(** [m] is a multiple of the step [s], and no multiple of [s] is nearer
    to [x]. *)
Definition nearest_multiple (s x m : Q) : Prop :=
  (exists k : Z, m == inject_Z k * s)%Q /\
  (forall k : Z, Qabs (x - m) <= Qabs (x - inject_Z k * s))%Q.

(** [m] is the largest multiple of the step [s] that does not exceed [x]:
    [m = k * s] with [k * s <= x < (k + 1) * s]. *)
Definition floor_multiple (s x m : Q) : Prop :=
  (exists k : Z, m == inject_Z k * s /\
                 inject_Z k * s <= x /\ x < inject_Z (k + 1) * s)%Q.

Section Trace.

Variable Resp : Type.

(** The orders submitted to the exchange, in order. *)
Fixpoint orders_of (tr : list (event Resp)) : list OrderArgs :=
  match tr with
  | [] => []
  | EvOrder args :: tr' => args :: orders_of tr'
  | _ :: tr' => orders_of tr'
  end.

(** The pauses taken, in order. *)
Fixpoint sleeps_of (tr : list (event Resp)) : list Z :=
  match tr with
  | [] => []
  | EvSleep t :: tr' => t :: sleeps_of tr'
  | _ :: tr' => sleeps_of tr'
  end.

(** The timeline of a trace: its submissions and pauses only. *)
Inductive tick : Type := Submit | Pause.

Fixpoint timeline (tr : list (event Resp)) : list tick :=
  match tr with
  | [] => []
  | EvOrder _ :: tr' => Submit :: timeline tr'
  | EvSleep _ :: tr' => Pause :: timeline tr'
  | _ :: tr' => timeline tr'
  end.

(** [n] submissions with one pause between each two. *)
Fixpoint alternating (n : nat) : list tick :=
  match n with
  | O => []
  | S O => [Submit]
  | S k => Submit :: Pause :: alternating k
  end.

(** The result the bot makes of a reply of the exchange. *)
Definition result_of (r : reply Resp) : OrderResult Resp :=
  match r with
  | Acknowledged resp => Ack resp
  | Failed descr => Error descr
  end.

(** What [market] logs for a reply of the exchange. *)
Definition market_log (side : string) (qty : Decimal) (symbol : string)
    (r : reply Resp) : event Resp :=
  match r with
  | Acknowledged resp => EvLog INFO (LogMarket side qty symbol resp)
  | Failed descr => EvLog ERROR (LogMarketFailed descr)
  end.

Definition limit_log (side : string) (qty price : Decimal)
    (symbol : string) (r : reply Resp) : event Resp :=
  match r with
  | Acknowledged resp => EvLog INFO (LogLimit side qty price symbol resp)
  | Failed descr => EvLog ERROR (LogLimitFailed descr)
  end.

(** The events of a series of submissions of [order] with the replies
    [rs]: each is submitted and logged, with a pause of [interval]
    before the next one, if there is a next one. *)
Fixpoint run_events (order : OrderArgs) (log : reply Resp -> event Resp)
    (interval : Z) (rs : list (reply Resp)) : list (event Resp) :=
  match rs with
  | [] => []
  | r :: rs' =>
      EvOrder order :: log r ::
        match rs' with
        | [] => []
        | _ => EvSleep interval :: run_events order log interval rs'
        end
  end.

Variable World : Type.
Variable futures_create_order : OrderArgs -> World -> reply Resp * World.

(** The replies of the exchange to [n] successive submissions of
    [args], and the world after them. *)
Fixpoint submit_all (args : OrderArgs) (n : nat) (w : World)
  : list (reply Resp) * World :=
  match n with
  | O => ([], w)
  | S k =>
      let '(r, w1) := futures_create_order args w in
      let '(rs, w2) := submit_all args k w1 in
      (r :: rs, w2)
  end.

End Trace.

(** The order [market] submits for a quantity. *)
Definition market_order (symbol side : string) (qty : Decimal) : OrderArgs :=
  {| symbol := upper symbol; side := side; type := "MARKET";
     timeInForce := None; quantity := float_of qty; price := None |}.

Definition limit_order (symbol side : string) (qty price : Decimal)
  : OrderArgs :=
  {| symbol := upper symbol; side := side; type := "LIMIT";
     timeInForce := Some "GTC"; quantity := float_of qty;
     price := Some (str_of price) |}.

(** An exchange for examples: the world counts the submissions, an
    order is acknowledged with its number, except the [k]-th ones for
    [k] in [failing], which fail. *)
Definition stub_exchange (failing : list nat) (args : OrderArgs) (w : nat)
  : reply nat * nat :=
  if existsb (Nat.eqb (S w)) failing then (Failed "rejected", S w)
  else (Acknowledged (S w), S w).

Definition stub_Client_new (w : nat) : option string * nat := (None, w).

(** A bound for the examples, one that [time.sleep] accepts: a year, in
    seconds. *)
Definition stub_sleep_max : Z := 31536000.

(** The state before anything happened. *)
Definition start : State nat nat := {| world := O; trace := [] |}.

End Spec.

(* ================================================================== *)
(** ** More vocabulary: what the orders and the log of a run show *)

Module Observed.
Import PyStr PyDecimal TradingBot Spec.

(** An order as the command line lets it out: the side is normalized, the
    symbol is in upper case, the type is one of the two the bot places. *)
Definition normalized_order (args : OrderArgs) : Prop :=
  (side args = "BUY" \/ side args = "SELL")
  /\ upper (symbol args) = symbol args
  /\ (type args = "MARKET" \/ type args = "LIMIT").

(** The exceptions of the decimal module that the context traps. *)
Definition decimal_signal (x : exn) : Prop :=
  (exists c, x = InvalidOperation c) \/ x = DivisionByZero \/ x = Overflow.

Section Logs.

Variable Resp : Type.

(** The levels of the records logged, in order. *)
Fixpoint logs_of (tr : list (event Resp)) : list level :=
  match tr with
  | [] => []
  | EvLog lvl _ :: tr' => lvl :: logs_of tr'
  | _ :: tr' => logs_of tr'
  end.

(** The level at which the outcome of an order is logged. *)
Definition level_of (r : OrderResult Resp) : level :=
  match r with
  | Ack _ => INFO
  | Error _ => ERROR
  end.

End Logs.

End Observed.

(* ================================================================== *)
(** ** trading_bot_ui.py: the order functions of the desktop variant *)

Module TradingBotGUI.
Import PyStr PyDecimal TradingBotUI.

(** The exceptions of this file: those of the command line bot, and the
    [StopIteration] of [next] on an exhausted generator. *)
Inductive gui_exn : Type :=
| Py (e : exn)
| StopIteration.

(** [isinstance(e, Exception)] *)
Definition is_Exception_gui (e : gui_exn) : bool :=
  match e with
  | Py e => is_Exception e
  | StopIteration => true
  end.

(** [str(e)] *)
Definition str_gui_exn (e : gui_exn) : string :=
  match e with
  | Py e => str_exn e
  | StopIteration => ""
  end.

Inductive outcome (A : Type) : Type :=
| Done (a : A)
| Thrown (e : gui_exn).

Arguments Done {A} a.
Arguments Thrown {A} e.

Definition of_result {A} (r : result A) : outcome A :=
  match r with
  | Return a => Done a
  | Raise e => Thrown (Py e)
  end.

(** The text variables of the window, as [get()] reads them. *)
Record Form : Type := {
  symbol_var : string;
  side_var : string;
  qty_var : string;
  price_var : string;
  parts_var : string;
  interval_var : string
}.

(** What is written to the output box, before formatting: an order under
    its label, a TWAP step under its number, the completion line. *)
Inductive shown (Resp : Type) : Type :=
| ShownOrder (label : string) (order : Resp)
| ShownStep (step : Z) (order : Resp)
| ShownCompleted.

Arguments ShownOrder {Resp} label order.
Arguments ShownStep {Resp} step order.
Arguments ShownCompleted {Resp}.

(** What [logging.info] is given. *)
Inductive logged (Resp : Type) : Type :=
| LoggedOrder (label : string) (order : Resp)
| LoggedStep (step : Z) (order : Resp).

Arguments LoggedOrder {Resp} label order.
Arguments LoggedStep {Resp} step order.

(** The effects of the order functions, in the order they happen. *)
Inductive gui_event (Resp : Type) : Type :=
| GetSymbolInfo (symbol : string)
| CreateOrder (args : TradingBot.OrderArgs)
| OutputDelete
| OutputInsert (text : shown Resp)
| LoggingInfo (r : logged Resp)
| ShowError (message : string)
| RootUpdate
| Sleep (seconds : Z).

Arguments GetSymbolInfo {Resp} symbol.
Arguments CreateOrder {Resp} args.
Arguments OutputDelete {Resp}.
Arguments OutputInsert {Resp} text.
Arguments LoggingInfo {Resp} r.
Arguments ShowError {Resp} message.
Arguments RootUpdate {Resp}.
Arguments Sleep {Resp} seconds.

(** [next(f for f in filters if f['filterType'] == ty)] *)
Fixpoint next_filter (filters : list Filter) (ty : string) : outcome Filter :=
  match filters with
  | [] => Thrown StopIteration
  | f :: rest =>
      match getitem f "filterType" with
      | Raise e => Thrown (Py e)
      | Return t => if String.eqb t ty then Done f else next_filter rest ty
      end
  end.

Section App.

(** [Decimal(value)] on a [str] ([None] when the text is refused), and
    [int(value)] on a [str]: the integer, or the message of the
    [ValueError] raised. *)
Variable Decimal_new : string -> option Decimal.
Variable int_new : string -> Z + string.

(** The exchange behind the global [client], the orders it acknowledges,
    and the client's two operations; [get_symbol_info] answers [None] for
    a symbol it has no information on, and the info otherwise, given here
    by its ['filters'] entry. *)
Variable World : Type.
Variable Resp : Type.
Variable client_get_symbol_info :
  string -> World -> TradingBot.reply (option (list Filter)) * World.
Variable client_create_order :
  TradingBot.OrderArgs -> World -> TradingBot.reply Resp * World.

(** What the pending events that [root.update()] lets run do to the
    world (the trace below records the effects of the one order function
    that is followed, not theirs), and the longest interval [time.sleep]
    accepts. *)
Variable root_update : World -> World.
Variable sleep_max : Z.

Record State : Type := { world : World; trace : list (gui_event Resp) }.

Definition M (A : Type) : Type := State -> outcome A * State.

Definition ret {A} (a : A) : M A := fun st => (Done a, st).

Definition raise {A} (e : gui_exn) : M A := fun st => (Thrown e, st).

Definition bind {A B} (m : M A) (k : A -> M B) : M B :=
  fun st =>
    match m st with
    | (Done a, st') => k a st'
    | (Thrown e, st') => (Thrown e, st')
    end.

Definition lift {A} (r : result A) : M A := fun st => (of_result r, st).

(** [try: body except Exception as e: handler(e)] *)
Definition try_except {A} (body : M A) (handler : gui_exn -> M A) : M A :=
  fun st =>
    match body st with
    | (Thrown e, st') =>
        if is_Exception_gui e then handler e st' else (Thrown e, st')
    | r => r
    end.

Definition emit (ev : gui_event Resp) : M unit :=
  fun st =>
    (Done tt, {| world := world st; trace := (trace st ++ [ev])%list |}).

(** [int(value)] *)
Definition int_ (value : string) : result Z :=
  match int_new value with
  | inl n => Return n
  | inr msg => Raise (ValueError msg)
  end.

(** [client.get_symbol_info(symbol)] *)
Definition call_get_symbol_info (symbol : string)
  : M (option (list Filter)) :=
  fun st =>
    let '(r, w) := client_get_symbol_info symbol (world st) in
    let st' := {| world := w;
                  trace := (trace st ++ [GetSymbolInfo symbol])%list |} in
    match r with
    | TradingBot.Acknowledged info => (Done info, st')
    | TradingBot.Failed descr => (Thrown (Py (ClientError descr)), st')
    end.

(** [client.create_order] applied to the keyword arguments *)
Definition call_create_order (args : TradingBot.OrderArgs) : M Resp :=
  fun st =>
    let '(r, w) := client_create_order args (world st) in
    let st' := {| world := w;
                  trace := (trace st ++ [CreateOrder args])%list |} in
    match r with
    | TradingBot.Acknowledged order => (Done order, st')
    | TradingBot.Failed descr => (Thrown (Py (ClientError descr)), st')
    end.

(** [root.update()] *)
Definition update : M unit :=
  fun st => (Done tt, {| world := root_update (world st);
                         trace := (trace st ++ [RootUpdate])%list |}).

(** [time.sleep(seconds)], as in the command line bot: the exception
    raised above [sleep_max] stands for the OverflowError or the OSError
    of CPython. *)
Definition sleep (seconds : Z) : M unit :=
  if seconds <? 0 then
    raise (Py (ValueError "sleep length must be non-negative"))
  else if sleep_max <? seconds then
    raise (Py (OverflowError "timestamp too large to convert to C _PyTime_t"))
  else emit (Sleep seconds).

(** [messagebox.showerror("Error", message)] *)
Definition showerror (message : string) : M unit := emit (ShowError message).

Declare Scope gui_scope.
Delimit Scope gui_scope with gui.
Notation "x <- m ;; k" := (bind m (fun x => k))
  (at level 100, m at next level, right associativity) : gui_scope.
Notation "m ;; k" := (bind m (fun _ => k))
  (at level 100, right associativity) : gui_scope.
Local Open Scope gui_scope.

(** *** Utility functions *)

Definition get_symbol_info (symbol : string) : M (Filter * Filter) :=
  info <- call_get_symbol_info (upper symbol) ;;
  match info with
  | None => raise (Py (ValueError ("Symbol " ++ symbol ++ " not found")))
  | Some filters =>
      lot_size <- (fun st => (next_filter filters "LOT_SIZE", st)) ;;
      price_filter <- (fun st => (next_filter filters "PRICE_FILTER", st)) ;;
      ret (lot_size, price_filter)
  end.

Definition log_and_display (order : Resp) (label : string) : M unit :=
  emit OutputDelete ;;
  emit (OutputInsert (ShownOrder label order)) ;;
  emit (LoggingInfo (LoggedOrder label order)).

(** *** Order functions *)

Definition place_market (form : Form) : M unit :=
  let symbol := upper (symbol_var form) in
  let side := upper (side_var form) in
  let qty := qty_var form in
  try_except
    (qty <- lift (parse_decimal Decimal_new qty) ;;
     filters <- get_symbol_info symbol ;;
     let lot_size := fst filters in
     qty_adj <- lift (adjust_quantity Decimal_new qty lot_size) ;;
     q <- lift (TradingBot.float_ qty_adj) ;;
     order <- call_create_order
                {| TradingBot.symbol := symbol; TradingBot.side := side;
                   TradingBot.type := "MARKET";
                   TradingBot.timeInForce := None;
                   TradingBot.quantity := q; TradingBot.price := None |} ;;
     log_and_display order "Market Order")
    (fun e => showerror (str_gui_exn e)).

Definition place_limit (form : Form) : M unit :=
  let symbol := upper (symbol_var form) in
  let side := upper (side_var form) in
  let qty := qty_var form in
  let price := price_var form in
  try_except
    (qty <- lift (parse_decimal Decimal_new qty) ;;
     price <- lift (parse_decimal Decimal_new price) ;;
     filters <- get_symbol_info symbol ;;
     let '(lot_size, price_filter) := filters in
     qty_adj <- lift (adjust_quantity Decimal_new qty lot_size) ;;
     price_adj <- lift (adjust_price Decimal_new price price_filter) ;;
     q <- lift (TradingBot.float_ qty_adj) ;;
     order <- call_create_order
                {| TradingBot.symbol := symbol; TradingBot.side := side;
                   TradingBot.type := "LIMIT";
                   TradingBot.timeInForce := Some "GTC";
                   TradingBot.quantity := q;
                   TradingBot.price := Some (TradingBot.str_of price_adj) |} ;;
     log_and_display order "Limit Order")
    (fun e => showerror (str_gui_exn e)).

(** The [for i in range(parts)] loop of [place_twap], over the indices
    still to come, with the orders collected so far. *)
Fixpoint place_twap_loop (symbol side : string) (piece : Decimal)
    (parts interval : Z) (indices : list Z) (results : list Resp)
  : M (list Resp) :=
  match indices with
  | [] => ret results
  | i :: rest =>
      q <- lift (TradingBot.float_ piece) ;;
      order <- call_create_order
                 {| TradingBot.symbol := symbol; TradingBot.side := side;
                    TradingBot.type := "MARKET";
                    TradingBot.timeInForce := None;
                    TradingBot.quantity := q; TradingBot.price := None |} ;;
      let results := (results ++ [order])%list in
      emit (OutputInsert (ShownStep (i + 1) order)) ;;
      emit (LoggingInfo (LoggedStep (i + 1) order)) ;;
      (if i <? parts - 1 then update ;; sleep interval else ret tt) ;;
      place_twap_loop symbol side piece parts interval rest results
  end.

Definition place_twap (form : Form) : M unit :=
  let symbol := upper (symbol_var form) in
  let side := upper (side_var form) in
  let qty := qty_var form in
  let parts := parts_var form in
  let interval := interval_var form in
  try_except
    (qty <- lift (parse_decimal Decimal_new qty) ;;
     parts <- lift (int_ parts) ;;
     interval <- lift (int_ interval) ;;
     filters <- get_symbol_info symbol ;;
     let lot_size := fst filters in
     share <- lift (truediv qty (of_int parts)) ;;
     piece <- lift (adjust_quantity Decimal_new share lot_size) ;;
     emit OutputDelete ;;
     results <- place_twap_loop symbol side piece parts interval
                  (TradingBot.range parts) [] ;;
     emit (OutputInsert ShownCompleted))
    (fun e => showerror (str_gui_exn e)).

End App.

End TradingBotGUI.

(* ================================================================== *)
(** ** More vocabulary: what a trace of the desktop variant shows *)

Module ObservedGUI.
Import PyStr PyDecimal TradingBotUI TradingBotGUI.

(** [f] is the first filter of type [ty] in [filters]: every filter
    before it has another type. *)
Definition first_of_type (filters : list Filter) (ty : string) (f : Filter)
  : Prop :=
  exists before after,
    filters = (before ++ f :: after)%list
    /\ getitem f "filterType" = Return ty
    /\ forall g, In g before ->
                 exists t, getitem g "filterType" = Return t /\ t <> ty.

(** The order the desktop variant sends for a form. *)
Definition spot_market_order (form : Form) (qty : Decimal)
  : TradingBot.OrderArgs :=
  {| TradingBot.symbol := upper (symbol_var form);
     TradingBot.side := upper (side_var form);
     TradingBot.type := "MARKET";
     TradingBot.timeInForce := None;
     TradingBot.quantity := TradingBot.float_of qty;
     TradingBot.price := None |}.

Definition spot_limit_order (form : Form) (qty price : Decimal)
  : TradingBot.OrderArgs :=
  {| TradingBot.symbol := upper (symbol_var form);
     TradingBot.side := upper (side_var form);
     TradingBot.type := "LIMIT";
     TradingBot.timeInForce := Some "GTC";
     TradingBot.quantity := TradingBot.float_of qty;
     TradingBot.price := Some (TradingBot.str_of price) |}.

(** A quantity that is no number: an infinity, or a quiet NaN whose
    payload fits the precision. *)
Definition special (qty : Decimal) : Prop :=
  match qty with
  | Inf _ => True
  | NaN _ false payload => (payload < pow10 prec)%N
  | _ => False
  end.

Section Trace.

Variable Resp : Type.

(** The orders sent to the exchange, in order. *)
Fixpoint orders_sent (tr : list (gui_event Resp))
  : list TradingBot.OrderArgs :=
  match tr with
  | [] => []
  | CreateOrder args :: tr' => args :: orders_sent tr'
  | _ :: tr' => orders_sent tr'
  end.

(** The messages of the error dialogs, in order. *)
Fixpoint errors_shown (tr : list (gui_event Resp)) : list string :=
  match tr with
  | [] => []
  | ShowError msg :: tr' => msg :: errors_shown tr'
  | _ :: tr' => errors_shown tr'
  end.

(** What was written to the output box, in order. *)
Fixpoint texts_shown (tr : list (gui_event Resp)) : list (shown Resp) :=
  match tr with
  | [] => []
  | OutputInsert text :: tr' => text :: texts_shown tr'
  | _ :: tr' => texts_shown tr'
  end.

(** The steps [first], [first + 1], ... shown for the orders [orders]. *)
Fixpoint steps_from (first : Z) (orders : list Resp) : list (shown Resp) :=
  match orders with
  | [] => []
  | order :: rest => ShownStep first order :: steps_from (first + 1) rest
  end.

(** The events of the loop of [place_twap] from the step [first] on, for
    the orders acknowledged and the failure that ended it, if one did:
    each order is sent, shown and logged, with an update and a pause
    before the next step; the order that failed was sent. *)
Fixpoint twap_events (args : TradingBot.OrderArgs) (parts interval : Z)
    (first : Z) (orders : list Resp) (failure : option string)
  : list (gui_event Resp) :=
  match orders with
  | [] =>
      match failure with
      | Some _ => [CreateOrder args]
      | None => []
      end
  | order :: rest =>
      ([CreateOrder args; OutputInsert (ShownStep first order);
        LoggingInfo (LoggedStep first order)]
       ++ (if first <? parts then [RootUpdate; Sleep interval] else [])
       ++ twap_events args parts interval (first + 1) rest failure)%list
  end.

(** What a single order leaves in the window: the order under its
    label, after one submission, or one error dialog and nothing in the
    output box, after one submission at most. *)
Definition reported (label : string) (tr : list (gui_event Resp)) : Prop :=
  (exists order,
      texts_shown tr = [ShownOrder label order]
      /\ errors_shown tr = []
      /\ List.length (orders_sent tr) = 1%nat)
  \/ (exists message,
        texts_shown tr = []
        /\ errors_shown tr = [message]
        /\ (List.length (orders_sent tr) <= 1)%nat).

(** What a TWAP order leaves in the window: the steps of the orders
    acknowledged, then either the completion line, or one error dialog
    after at most one more submission. *)
Definition twap_reported (tr : list (gui_event Resp)) : Prop :=
  exists orders,
    (texts_shown tr = (steps_from 1 orders ++ [ShownCompleted])%list
     /\ errors_shown tr = []
     /\ List.length (orders_sent tr) = List.length orders)
    \/ (exists message,
          texts_shown tr = steps_from 1 orders
          /\ errors_shown tr = [message]
          /\ (List.length orders <= List.length (orders_sent tr)
              <= List.length orders + 1)%nat).

Variable World : Type.

Variable client_create_order :
  TradingBot.OrderArgs -> World -> TradingBot.reply Resp * World.
Variable root_update : World -> World.

(** The course of [n] submissions of [args] that stop at the first
    failure: the orders acknowledged, the failure if there is one, and the
    world at the end.  Between two submissions the window is updated. *)
Fixpoint submit_until_failure (args : TradingBot.OrderArgs) (n : nat)
    (w : World) : list Resp * option string * World :=
  match n with
  | O => ([], None, w)
  | S k =>
      match client_create_order args w with
      | (TradingBot.Acknowledged order, w1) =>
          match k with
          | O => ([order], None, w1)
          | S _ =>
              let '(orders, failure, w2) :=
                submit_until_failure args k (root_update w1) in
              (order :: orders, failure, w2)
          end
      | (TradingBot.Failed descr, w1) => ([], Some descr, w1)
      end
  end.

End Trace.

(** An exchange for examples: it knows every symbol with a lot step of
    0.001 and a tick of 0.01, counts the submissions and fails those whose
    number is in [failing]. *)
Definition stub_price_filter : Filter :=
  [("filterType", "PRICE_FILTER"); ("tickSize", "0.01")].

Definition stub_lot_size : Filter :=
  [("filterType", "LOT_SIZE"); ("stepSize", "0.001")].

Definition stub_filters : list Filter := [stub_price_filter; stub_lot_size].

Definition stub_get_symbol_info (symbol : string) (w : nat)
  : TradingBot.reply (option (list Filter)) * nat :=
  (TradingBot.Acknowledged (Some stub_filters), w).

Definition stub_create_order (failing : list nat)
    (args : TradingBot.OrderArgs) (w : nat) : TradingBot.reply nat * nat :=
  if existsb (Nat.eqb (S w)) failing then (TradingBot.Failed "rejected", S w)
  else (TradingBot.Acknowledged (S w), S w).

(** [int] on the texts the examples use: a sign and plain digits, with
    whitespace around. *)
Definition stub_int (value : string) : Z + string :=
  match parse_exponent (strip value) with
  | Some n => inl n
  | None => inr ("invalid literal for int() with base 10: '" ++ value ++ "'")
  end.

Definition stub_form (qty price parts interval : string) : Form :=
  {| symbol_var := "btcusdt"; side_var := "buy"; qty_var := qty;
     price_var := price; parts_var := parts; interval_var := interval |}.

Definition stub_update (w : nat) : nat := w.

Definition gui_start : State nat nat := {| world := O; trace := [] |}.

(** The state once the filters of BTCUSDT were asked for. *)
Definition asked : State nat nat :=
  {| world := O; trace := [GetSymbolInfo "BTCUSDT"] |}.

End ObservedGUI.

Unset Implicit Arguments.

(* ================================================================== *)
(** ** Facts about strings *)

Module PyStrFacts.
Import PyStr.





End PyStrFacts.

(* ================================================================== *)
(** ** Facts about Decimal *)

Module PyDecimalFacts.
Import PyDecimal Spec.

Lemma ten_pow_pos (e : Z) : (0 < (10 # 1) ^ e)%Q.
Proof. apply Qpower_0_lt. reflexivity. Qed.

Lemma Qval_zero (s : bool) (e : Z) : (Qval s 0 e == 0)%Q.
Proof. unfold Qval. destruct s; simpl; ring. Qed.

Lemma Qval_false_pos (c : N) (e : Z) : c <> 0%N -> (0 < Qval false c e)%Q.
Proof.
  intros Hc. unfold Qval.
  apply Qmult_lt_0_compat; [|apply ten_pow_pos].
  rewrite Qmult_1_l. change 0%Q with (inject_Z 0).
  rewrite <- Zlt_Qlt. lia.
Qed.

Lemma Qval_true_opp (c : N) (e : Z) : (Qval true c e == - Qval false c e)%Q.
Proof. unfold Qval. ring. Qed.

Lemma Qval_true_neg (c : N) (e : Z) : c <> 0%N -> (Qval true c e < 0)%Q.
Proof.
  intros Hc. rewrite Qval_true_opp.
  apply Qval_false_pos with (e := e) in Hc.
  apply Qopp_lt_compat in Hc. exact Hc.
Qed.

(** The comparison [d <= 0] of the validator decides the sign of the
    number. *)
Lemma le_zero_nonpositive (d : Decimal) :
  nonpositive d -> le_zero d = Return true.
Proof.
  destruct d as [s c e | s | s g p]; simpl.
  - intros H. destruct (N.eqb_spec c 0) as [->|Hc]; [reflexivity|].
    destruct s; [reflexivity|].
    exfalso. apply (Qlt_not_le _ _ (Qval_false_pos c e Hc)). exact H.
  - intros ->. reflexivity.
  - intros [].
Qed.

Lemma le_zero_positive (d : Decimal) :
  positive d -> le_zero d = Return false.
Proof.
  destruct d as [s c e | s | s g p]; simpl.
  - intros H. destruct (N.eqb_spec c 0) as [->|Hc].
    + exfalso. rewrite Qval_zero in H. revert H. apply Qlt_irrefl.
    + destruct s; [|reflexivity].
      exfalso. apply (Qlt_irrefl 0).
      apply Qlt_trans with (Qval true c e); [exact H|].
      apply Qval_true_neg; exact Hc.
  - intros ->. reflexivity.
  - intros [].
Qed.

Lemma le_zero_false_positive (d : Decimal) :
  le_zero d = Return false -> positive d.
Proof.
  destruct d as [s c e | s | s g p]; simpl; try discriminate.
  - destruct (N.eqb_spec c 0) as [->|Hc]; [discriminate|].
    destruct s; [discriminate|]. intros _. apply Qval_false_pos; exact Hc.
  - intros H. congruence.
Qed.

(** A division never yields a signaling NaN. *)
Lemma _fix_finite_not_snan (s : bool) (c : N) (e : Z) (d : Decimal) :
  _fix_finite s c e = Return d -> is_snan d = false.
Proof.
  unfold _fix_finite.
  destruct (c =? 0)%N; [intros [= <-]; reflexivity|].
  destruct (Etop <? _); [discriminate|].
  destruct (e <? _); [|intros [= <-]; reflexivity].
  destruct (if _ <? 0 then _ else _) as [c1 e1].
  destruct (if prec <? _ then _ else _) as [c2 e2].
  destruct (Etop <? e2); [discriminate|].
  intros [= <-]. reflexivity.
Qed.

Lemma truediv_not_snan (a b d : Decimal) :
  truediv a b = Return d -> is_snan d = false.
Proof.
  unfold truediv.
  destruct a as [sa ca ea | sa | sa [] pa], b as [sb cb eb | sb | sb [] pb];
    cbv beta iota delta [_check_nans];
    try discriminate;
    try (intros [= <-]; reflexivity).
  destruct (cb =? 0)%N; [destruct (ca =? 0)%N; discriminate|].
  destruct (ca =? 0)%N; [apply _fix_finite_not_snan|].
  destruct (if 0 <=? _ then _ else _) as [coeff rem].
  destruct (rem =? 0)%N; [|apply _fix_finite_not_snan].
  destruct (strip_zeros _ _ _) as [c' e']. apply _fix_finite_not_snan.
Qed.

(** *** Digits, scaling and the floor of a quotient *)

Lemma pow10_Z (k : Z) : 0 <= k -> Z.of_N (pow10 k) = 10 ^ k.
Proof.
  intros Hk. unfold pow10. rewrite N2Z.inj_pow, Z2N.id by exact Hk. reflexivity.
Qed.

Lemma pow10_pos (k : Z) : (0 < pow10 k)%N.
Proof.
  unfold pow10. apply N.neq_0_lt_0, N.pow_nonzero. discriminate.
Qed.

Lemma ndigits_aux_bounds (fuel : nat) :
  forall n : N,
    (n <> 0)%N -> (n < 2 ^ N.of_nat fuel)%N ->
    1 <= ndigits_aux fuel n
    /\ 10 ^ (ndigits_aux fuel n - 1) <= Z.of_N n < 10 ^ ndigits_aux fuel n.
Proof.
  induction fuel as [|fuel IH]; intros n Hn Hlt.
  - simpl in Hlt. lia.
  - cbn [ndigits_aux]. destruct (N.ltb_spec n 10) as [H10|H10].
    + simpl. lia.
    + assert (Hq : (n / 10 <> 0)%N).
      { intros H0. apply N.div_small_iff in H0; lia. }
      assert (Hqlt : (n / 10 < 2 ^ N.of_nat fuel)%N).
      { rewrite Nat2N.inj_succ, N.pow_succ_r' in Hlt.
        apply N.Div0.div_lt_upper_bound. lia. }
      destruct (IH _ Hq Hqlt) as (Hd & Hlo & Hhi).
      set (d := ndigits_aux fuel (n / 10)) in *.
      assert (E1 : 10 ^ d = 10 * 10 ^ (d - 1)).
      { rewrite <- Z.pow_succ_r by lia. f_equal. lia. }
      assert (E2 : 10 ^ (1 + d) = 10 * 10 ^ d).
      { rewrite <- Z.pow_succ_r by lia. f_equal. lia. }
      replace (1 + d - 1) with d by lia.
      rewrite N2Z.inj_div in Hlo, Hhi. change (Z.of_N 10) with 10 in *.
      pose proof (Z.mul_div_le (Z.of_N n) 10).
      pose proof (Z.mul_succ_div_gt (Z.of_N n) 10).
      lia.
Qed.

Lemma ndigits_bounds (n : N) :
  (n <> 0)%N ->
  1 <= ndigits n /\ 10 ^ (ndigits n - 1) <= Z.of_N n < 10 ^ ndigits n.
Proof.
  intros Hn. unfold ndigits. apply ndigits_aux_bounds; [exact Hn|].
  rewrite N2Nat.id. apply N.size_gt.
Qed.

(** A number below [10^d] has at most [d] digits. *)
Lemma ndigits_le (n : N) (d : Z) :
  (n <> 0)%N -> Z.of_N n < 10 ^ d -> ndigits n <= d.
Proof.
  intros Hn Hlt. destruct (ndigits_bounds n Hn) as (H1 & Hlo & _).
  destruct (Z_le_gt_dec (ndigits n) d) as [|Hgt]; [assumption|exfalso].
  assert (0 <= d).
  { destruct (Z_le_gt_dec 0 d); [assumption|].
    rewrite Z.pow_neg_r in Hlt by lia. lia. }
  assert (10 ^ d <= 10 ^ (ndigits n - 1)) by (apply Z.pow_le_mono_r; lia).
  lia.
Qed.

Lemma scaled_bounds (c : N) (e m : Z) :
  (c <> 0)%N -> m <= e ->
  10 ^ (ndigits c - 1 + (e - m)) <= Z.of_N (c * pow10 (e - m))
  /\ Z.of_N (c * pow10 (e - m)) < 10 ^ (ndigits c + (e - m)).
Proof.
  intros Hc Hm. destruct (ndigits_bounds c Hc) as (H1 & Hlo & Hhi).
  rewrite N2Z.inj_mul, pow10_Z by lia.
  rewrite !Z.pow_add_r by lia.
  assert (0 < 10 ^ (e - m)) by (apply Z.pow_pos_nonneg; lia).
  split; nia.
Qed.

Lemma Qval_scaled (c : N) (e m : Z) :
  m <= e ->
  (Qval false c e == inject_Z (Z.of_N (c * pow10 (e - m))) * (10 # 1) ^ m)%Q.
Proof.
  intros Hm. unfold Qval.
  rewrite N2Z.inj_mul, pow10_Z, inject_Z_mult, Zpower_Qpower by lia.
  change (inject_Z 10) with (10 # 1).
  replace e with ((e - m) + m) at 1 by lia.
  rewrite Qpower_plus by discriminate. ring.
Qed.

(** The floor property of [k] on the numbers is the one of the Euclidean
    quotient on the coefficients brought to a common exponent. *)
Lemma floor_scaled (cq cs : N) (eq es m : Z) (k : N) :
  m <= eq -> m <= es ->
  (inject_Z (Z.of_N k) * Qval false cs es <= Qval false cq eq)%Q ->
  (Qval false cq eq < inject_Z (Z.of_N k + 1) * Qval false cs es)%Q ->
  (k * (cs * pow10 (es - m)) <= cq * pow10 (eq - m)
   /\ cq * pow10 (eq - m) < (k + 1) * (cs * pow10 (es - m)))%N.
Proof.
  intros Hq Hs Hle Hlt.
  rewrite (Qval_scaled cq eq m Hq), (Qval_scaled cs es m Hs) in Hle, Hlt.
  rewrite Qmult_assoc in Hle, Hlt.
  apply Qmult_le_r in Hle; [|apply ten_pow_pos].
  apply Qmult_lt_r in Hlt; [|apply ten_pow_pos].
  rewrite <- inject_Z_mult in Hle, Hlt.
  rewrite <- Zle_Qle in Hle. rewrite <- Zlt_Qlt in Hlt.
  lia.
Qed.

Lemma mul_fits (k cs : N) (es : Z) :
  (k * cs < pow10 prec)%N ->
  Etiny <= es <= Etop ->
  mul (Fin false k 0) (Fin false cs es) = Return (Fin false (k * cs) es).
Proof.
  intros Hfit Hes. unfold mul. cbv beta iota delta [_check_nans xorb].
  unfold _fix_finite. rewrite Z.add_0_l.
  unfold Etiny, Etop, Emin, Emax, prec in *.
  destruct (N.eqb_spec (k * cs) 0) as [->|Hne].
  - f_equal. f_equal. lia.
  - assert (Hd : ndigits (k * cs) <= 28).
    { apply ndigits_le; [exact Hne|]. rewrite <- pow10_Z by lia. lia. }
    destruct (Z.ltb_spec (999999 - 28 + 1) (ndigits (k * cs) + es - 28));
      [lia|].
    destruct (Z.ltb_spec (ndigits (k * cs) + es - 28) (-999999 - 28 + 1));
      match goal with
      | |- context [es <? ?x] => destruct (Z.ltb_spec es x); [lia|reflexivity]
      end.
Qed.

Lemma floordiv_floor (cq cs : N) (eq es : Z) (k : N) :
  (cq <> 0)%N -> (cs <> 0)%N ->
  (inject_Z (Z.of_N k) * Qval false cs es <= Qval false cq eq)%Q ->
  (Qval false cq eq < inject_Z (Z.of_N k + 1) * Qval false cs es)%Q ->
  (k < pow10 prec)%N ->
  floordiv (Fin false cq eq) (Fin false cs es) = Return (Fin false k 0).
Proof.
  intros Hcq Hcs Hle Hlt Hk.
  set (m := Z.min eq es).
  assert (Hmq : m <= eq) by (unfold m; lia).
  assert (Hms : m <= es) by (unfold m; lia).
  destruct (floor_scaled cq cs eq es m k Hmq Hms Hle Hlt) as [Hlo Hhi].
  destruct (scaled_bounds cq eq m Hcq Hmq) as [Hqlo Hqhi].
  destruct (scaled_bounds cs es m Hcs Hms) as [Hslo Hshi].
  destruct (ndigits_bounds cq Hcq) as (Hdq & _ & _).
  destruct (ndigits_bounds cs Hcs) as (Hds & _ & _).
  unfold floordiv. cbv beta iota delta [_check_nans].
  destruct (N.eqb_spec cs 0) as [|_]; [contradiction|].
  unfold _divide, adjusted. cbv beta iota delta [xorb].
  destruct (N.eqb_spec cq 0) as [|_]; [contradiction|].
  cbv beta iota delta [orb].
  set (a := (cq * pow10 (eq - m))%N) in *.
  set (b := (cs * pow10 (es - m))%N) in *.
  assert (Hb : (0 < b)%N).
  { unfold b. pose proof (pow10_pos (es - m)). nia. }
  destruct (Z.leb_spec (eq + ndigits cq - 1 - (es + ndigits cs - 1)) (-2))
    as [Hsmall|Hnotsmall].
  - (* the quantity is below the step *)
    assert (10 ^ (ndigits cq + (eq - m)) <= 10 ^ (ndigits cs - 1 + (es - m)))
      by (apply Z.pow_le_mono_r; lia).
    assert (k = 0%N) by nia. subst k. reflexivity.
  - destruct (Z.leb_spec (eq + ndigits cq - 1 - (es + ndigits cs - 1)) prec)
      as [Hmid|Hbig].
    + assert (Hab : (a / b = k)%N).
      { symmetry. apply (N.div_unique a b k (a - b * k)); lia. }
      assert (Hi : (let '(i1, i2) :=
                      if es <=? eq then ((cq * pow10 (eq - es))%N, cs)
                      else (cq, (cs * pow10 (es - eq))%N) in
                    (i1 / i2)%N) = k).
      { rewrite <- Hab. unfold a, b, m.
        destruct (Z.leb_spec es eq).
        - rewrite Z.min_r by lia. rewrite Z.sub_diag.
          change (pow10 0) with 1%N. rewrite N.mul_1_r. reflexivity.
        - rewrite Z.min_l by lia. rewrite Z.sub_diag.
          change (pow10 0) with 1%N. rewrite N.mul_1_r. reflexivity. }
      revert Hi.
      destruct (if es <=? eq then _ else _) as [i1 i2]. intros ->.
      destruct (N.ltb_spec k (pow10 prec)); [reflexivity|lia].
    + (* the quotient would need more than [prec] digits *)
      exfalso. unfold prec in *.
      assert (10 ^ (28 + (ndigits cs + (es - m)))
              <= 10 ^ (ndigits cq - 1 + (eq - m)))
        by (apply Z.pow_le_mono_r; lia).
      rewrite Z.pow_add_r in H by lia.
      assert (Z.of_N (pow10 28) = 10 ^ 28) by (apply pow10_Z; lia).
      nia.
Qed.

(** *** When a division returns *)

Lemma _fix_finite_returns (s : bool) (c : N) (e : Z) :
  c = 0%N \/ adjusted c e < Emax ->
  exists d, _fix_finite s c e = Return d.
Proof.
  unfold _fix_finite, adjusted.
  destruct (N.eqb_spec c 0) as [|Hc]; [eexists; reflexivity|].
  intros [|H]; [contradiction|].
  unfold Etop, Etiny, Emin, Emax, prec in *.
  destruct (Z.ltb_spec (999999 - 28 + 1) (ndigits c + e - 28)); [lia|].
  set (exp_min := if ndigits c + e - 28 <? -999999 - 28 + 1
                  then -999999 - 28 + 1 else ndigits c + e - 28).
  assert (Hmin : exp_min < 999999 - 28 + 1).
  { unfold exp_min. destruct (Z.ltb_spec (ndigits c + e - 28) (-999999 - 28 + 1)); lia. }
  destruct (e <? exp_min); [|eexists; reflexivity].
  destruct (if ndigits c + e - exp_min <? 0 then _ else _) as [c1 e1].
  destruct (28 <? ndigits (round_half_even c1 (exp_min - e1))).
  - destruct (Z.ltb_spec (999999 - 28 + 1) (exp_min + 1)); [lia|].
    eexists; reflexivity.
  - destruct (Z.ltb_spec (999999 - 28 + 1) exp_min); [lia|].
    eexists; reflexivity.
Qed.

Lemma strip_zeros_bound (K : Z) (fuel : nat) :
  forall (coeff : N) (exp : Z),
    Z.of_N coeff < 10 ^ (K - exp) ->
    exp + Z.of_nat fuel < K ->
    Z.of_N (fst (strip_zeros fuel coeff exp))
    < 10 ^ (K - snd (strip_zeros fuel coeff exp)).
Proof.
  induction fuel as [|fuel IH]; intros coeff exp Hlt HK; [exact Hlt|].
  cbn [strip_zeros]. destruct (N.eqb_spec (coeff mod 10) 0) as [Hm|_];
    [|exact Hlt].
  apply IH; [|lia].
  replace (K - exp) with (Z.succ (K - (exp + 1))) in Hlt by lia.
  rewrite Z.pow_succ_r in Hlt by lia.
  rewrite N2Z.inj_div. change (Z.of_N 10) with 10.
  apply Z.div_lt_upper_bound; lia.
Qed.

Lemma truediv_in_context (total : Decimal) (parts : Z) :
  1 <= parts ->
  within_context total ->
  exists piece, truediv total (of_int parts) = Return piece.
Proof.
  intros Hparts Hctx.
  unfold of_int. destruct (Z.ltb_spec parts 0) as [|_]; [lia|].
  assert (Hcb : Z.abs_N parts <> 0%N) by lia.
  set (cb := Z.abs_N parts) in *.
  destruct total as [s c e | s | s g p]; cbn [within_context] in Hctx.
  - unfold truediv. cbv beta iota delta [_check_nans].
    destruct (N.eqb_spec cb 0) as [|_]; [contradiction|].
    destruct (N.eqb_spec c 0) as [|Hc].
    + apply _fix_finite_returns. now left.
    + destruct Hctx as [|Hadj]; [contradiction|]. unfold adjusted in Hadj.
      destruct (ndigits_bounds c Hc) as (Hdc & Hclo & Hchi).
      destruct (ndigits_bounds cb Hcb) as (Hdb & Hblo & Hbhi).
      rewrite Z.sub_0_r.
      set (shift := ndigits cb - ndigits c + prec + 1).
      (* the quotient and its remainder, below [10 ^ (ndigits c + shift)] *)
      assert (Hexp : 1 <= ndigits c + shift) by (unfold shift, prec; lia).
      (* the quotient is below [10 ^ (ndigits c + shift)] *)
      assert (Hq : forall coeff rem : N,
                 (if 0 <=? shift then N.div_eucl (c * pow10 shift) cb
                  else N.div_eucl c (cb * pow10 (- shift))) = (coeff, rem) ->
                 Z.of_N coeff < 10 ^ (ndigits c + shift)).
      { intros coeff rem Hdiv.
        destruct (Z.leb_spec 0 shift) as [Hs|Hs].
        - pose proof (N.div_eucl_spec (c * pow10 shift) cb) as Hspec.
          rewrite Hdiv in Hspec.
          assert (Hnum : Z.of_N (c * pow10 shift) < 10 ^ (ndigits c + shift)).
          { rewrite N2Z.inj_mul, pow10_Z, Z.pow_add_r by lia.
            assert (0 < 10 ^ shift) by (apply Z.pow_pos_nonneg; lia). nia. }
          assert (Z.of_N coeff <= Z.of_N cb * Z.of_N coeff) by nia.
          lia.
        - pose proof (N.div_eucl_spec c (cb * pow10 (- shift))) as Hspec.
          rewrite Hdiv in Hspec.
          assert (Hp : Z.of_N (pow10 (- shift)) = 10 ^ (- shift))
            by (apply pow10_Z; lia).
          assert (Hsplit : 10 ^ ndigits c
                           = 10 ^ (ndigits c + shift) * 10 ^ (- shift)).
          { rewrite <- Z.pow_add_r by lia. f_equal. lia. }
          assert (0 < 10 ^ (- shift)) by (apply Z.pow_pos_nonneg; lia).
          assert (Z.of_N coeff * 10 ^ (- shift)
                  <= Z.of_N cb * Z.of_N (pow10 (- shift)) * Z.of_N coeff)
            by nia.
          nia. }
      destruct (if 0 <=? shift then _ else _) as [coeff rem].
      pose proof (Hq coeff rem eq_refl) as Hcoeff.
      destruct (N.eqb_spec rem 0) as [_|Hr].
      * pose proof (strip_zeros_bound (e + ndigits c)
                      (Z.to_nat (e - (e - shift))) coeff (e - shift)) as Hstrip.
        destruct (strip_zeros _ coeff (e - shift)) as [c' e'].
        cbn [fst snd] in Hstrip.
        apply _fix_finite_returns.
        destruct (N.eq_dec c' 0) as [|Hc']; [now left|right].
        unfold adjusted.
        assert (Z.of_N c' < 10 ^ (e + ndigits c - e')).
        { apply Hstrip.
          - replace (e + ndigits c - (e - shift)) with (ndigits c + shift) by lia.
            exact Hcoeff.
          - unfold shift in *. unfold prec in *. lia. }
        pose proof (ndigits_le c' _ Hc' H). lia.
      * apply _fix_finite_returns. right. unfold adjusted.
        set (coeff' := (if (coeff mod 5 =? 0)%N then coeff + 1 else coeff)%N).
        assert (Hb : Z.of_N coeff' < 10 ^ (ndigits c + shift)).
        { unfold coeff'. destruct (N.eqb_spec (coeff mod 5) 0) as [H5|_];
            [|exact Hcoeff].
          replace (ndigits c + shift) with (Z.succ (ndigits c + shift - 1))
            in Hcoeff |- * by lia.
          rewrite Z.pow_succ_r in Hcoeff |- * by lia.
          pose proof (N.div_mod coeff 5 ltac:(discriminate)) as Hdm.
          rewrite H5 in Hdm. lia. }
        assert (Hne : coeff' <> 0%N).
        { unfold coeff'. destruct (N.eqb_spec (coeff mod 5) 0); [lia|].
          intros ->. auto. }
        pose proof (ndigits_le coeff' _ Hne Hb). lia.
  - exists (Inf (xorb s false)). reflexivity.
  - subst g. eexists. reflexivity.
Qed.

Lemma Qval_mul (k c : N) (e : Z) :
  (Qval false (k * c) e == inject_Z (Z.of_N k) * Qval false c e)%Q.
Proof.
  unfold Qval. rewrite N2Z.inj_mul, inject_Z_mult. ring.
Qed.

End PyDecimalFacts.

(* ================================================================== *)
(** ** Facts about the command line bot *)

Module TradingBotFacts.
Import PyStr PyDecimal TradingBot Spec PyStrFacts PyDecimalFacts.

Local Open Scope list_scope.

(** *** Traces *)

Section TraceFacts.

Variable Resp : Type.
Implicit Types tr : list (event Resp).

Lemma orders_of_app tr1 tr2 :
  orders_of (tr1 ++ tr2) = orders_of tr1 ++ orders_of tr2.
Proof.
  induction tr1 as [|[] tr1 IH]; simpl; rewrite ?IH; reflexivity.
Qed.

Lemma orders_of_run_events order (log : reply Resp -> event Resp)
    (Hlog : forall r, orders_of [log r] = []) interval rs :
  orders_of (run_events order log interval rs) = repeat order (List.length rs).
Proof.
  induction rs as [|r rs IH]; [reflexivity|].
  cbn [run_events orders_of List.length repeat].
  specialize (Hlog r). destruct (log r); try discriminate Hlog.
  all: f_equal; destruct rs; [reflexivity | exact IH].
Qed.

Lemma sleeps_of_run_events order (log : reply Resp -> event Resp)
    (Hlog : forall r, sleeps_of [log r] = []) interval rs :
  sleeps_of (run_events order log interval rs)
  = repeat interval (List.length rs - 1).
Proof.
  induction rs as [|r rs IH]; [reflexivity|].
  cbn [run_events sleeps_of List.length].
  specialize (Hlog r). destruct (log r); try discriminate Hlog.
  all: destruct rs as [|r' rs]; [reflexivity|];
    cbn [sleeps_of]; rewrite IH; cbn [List.length];
    rewrite !Nat.sub_succ, Nat.sub_0_r; reflexivity.
Qed.

Lemma timeline_run_events order (log : reply Resp -> event Resp)
    (Hlog : forall r, timeline [log r] = []) interval rs :
  timeline (run_events order log interval rs) = alternating (List.length rs).
Proof.
  induction rs as [|r rs IH]; [reflexivity|].
  cbn [run_events timeline List.length].
  specialize (Hlog r). destruct (log r); try discriminate Hlog.
  all: destruct rs as [|r' rs]; [reflexivity|];
    cbn [timeline]; rewrite IH; reflexivity.
Qed.

Lemma orders_of_step order side qty symbol (r : reply Resp) tr :
  orders_of ([EvOrder order; market_log side qty symbol r] ++ tr)
  = order :: orders_of tr.
Proof. destruct r; reflexivity. Qed.

Lemma market_log_is_log side qty symbol (r : reply Resp) :
  orders_of [market_log side qty symbol r] = []
  /\ sleeps_of [market_log side qty symbol r] = []
  /\ timeline [market_log side qty symbol r] = [].
Proof. destruct r; repeat split. Qed.

End TraceFacts.

(** *** The gateway and the scheduler *)

Section Facts.

Variable Decimal_new : string -> option Decimal.
Variable World : Type.
Variable Resp : Type.
Variable Client_new : World -> option string * World.
Variable futures_create_order : OrderArgs -> World -> reply Resp * World.
Variable sleep_max : Z.

Local Abbreviation market := (market futures_create_order).
Local Abbreviation limit := (limit futures_create_order).
Local Abbreviation twap_loop := (twap_loop futures_create_order sleep_max).
Local Abbreviation twap := (twap futures_create_order sleep_max).
Local Abbreviation submit_all := (submit_all futures_create_order).
Local Abbreviation State := (State World Resp).

Implicit Types st : State.

(** One call of [market] on a quantity that converts to a float: the
    order goes out once, the reply is logged and returned. *)
Lemma market_run symbol side qty st :
  is_snan qty = false ->
  market symbol side qty st =
    let '(r, w) :=
      futures_create_order (market_order symbol side qty) (world st) in
    (Return (result_of r),
     {| world := w;
        trace := trace st ++ [EvOrder (market_order symbol side qty);
                              market_log side qty symbol r] |}).
Proof.
  intros Hq.
  unfold TradingBot.market, try_except, bind, lift, float_,
    client_futures_create_order, logger_info, logger_error, emit, ret.
  rewrite Hq. fold (market_order symbol side qty).
  destruct (futures_create_order _ _) as [[resp|descr] w]; simpl;
    rewrite <- app_assoc; reflexivity.
Qed.

Lemma market_snan symbol side qty st :
  is_snan qty = true ->
  market symbol side qty st =
    (Return (Error "cannot convert signaling NaN to float"),
     {| world := world st;
        trace := trace st ++
          [EvLog ERROR
             (LogMarketFailed "cannot convert signaling NaN to float")] |}).
Proof.
  intros Hq.
  unfold TradingBot.market, try_except, bind, lift, float_,
    logger_error, emit, ret.
  rewrite Hq. reflexivity.
Qed.

Lemma limit_run symbol side qty price st :
  is_snan qty = false ->
  limit symbol side qty price st =
    let '(r, w) :=
      futures_create_order (limit_order symbol side qty price) (world st) in
    (Return (result_of r),
     {| world := w;
        trace := trace st ++ [EvOrder (limit_order symbol side qty price);
                              limit_log side qty price symbol r] |}).
Proof.
  intros Hq.
  unfold TradingBot.limit, try_except, bind, lift, float_,
    client_futures_create_order, logger_info, logger_error, emit, ret.
  rewrite Hq. fold (limit_order symbol side qty price).
  destruct (futures_create_order _ _) as [[resp|descr] w]; simpl;
    rewrite <- app_assoc; reflexivity.
Qed.

Lemma limit_snan symbol side qty price st :
  is_snan qty = true ->
  limit symbol side qty price st =
    (Return (Error "cannot convert signaling NaN to float"),
     {| world := world st;
        trace := trace st ++
          [EvLog ERROR
             (LogLimitFailed "cannot convert signaling NaN to float")] |}).
Proof.
  intros Hq.
  unfold TradingBot.limit, try_except, bind, lift, float_,
    logger_error, emit, ret.
  rewrite Hq. reflexivity.
Qed.

Lemma submit_all_length args n w :
  List.length (fst (submit_all args n w)) = n.
Proof.
  revert w. induction n as [|n IH]; intros w; [reflexivity|].
  simpl. destruct (futures_create_order args w) as [r w1].
  specialize (IH w1). destruct (submit_all args n w1) as [rs w2].
  simpl in *. now rewrite IH.
Qed.

(** The pause is taken whenever the interval is one [time.sleep]
    accepts. *)
Lemma sleep_run interval st :
  0 <= interval <= sleep_max ->
  sleep sleep_max interval st =
    (Return tt, {| world := world st;
                   trace := trace st ++ [EvSleep interval] |}).
Proof.
  intros [H0 H1]. unfold sleep.
  destruct (Z.ltb_spec interval 0); [lia|].
  destruct (Z.ltb_spec sleep_max interval); [lia|]. reflexivity.
Qed.

Lemma sleep_raises interval st :
  ~ (0 <= interval <= sleep_max) ->
  exists e, sleep sleep_max interval st = (Raise e, st).
Proof.
  intros H. unfold sleep.
  destruct (Z.ltb_spec interval 0); [eexists; reflexivity|].
  destruct (Z.ltb_spec sleep_max interval); [eexists; reflexivity|]. lia.
Qed.

(** The loop of [twap] from index [a] on, with [k] parts to go: the
    [k] submissions get their replies in order, each is logged, and a
    pause follows each but the last. *)
Lemma twap_loop_run symbol side piece parts interval :
  is_snan piece = false ->
  (parts <= 1 \/ 0 <= interval <= sleep_max) ->
  forall k a acc st,
    Z.of_nat (a + k) = parts ->
    twap_loop symbol side piece parts interval
      (map Z.of_nat (seq a k)) acc st =
      let '(rs, w) :=
        submit_all (market_order symbol side piece) k (world st) in
      (Return (acc ++ map (@result_of Resp) rs),
       {| world := w;
          trace := trace st ++
            run_events (market_order symbol side piece)
              (market_log side piece symbol) interval rs |}).
Proof.
  intros Hp Hi. induction k as [|k IH]; intros a acc st Hak.
  - simpl. unfold ret. rewrite !app_nil_r. destruct st; reflexivity.
  - cbn [seq map TradingBot.twap_loop submit_all]. unfold bind at 1.
    rewrite (market_run symbol side piece st Hp).
    destruct (futures_create_order _ (world st)) as [r w1].
    unfold bind at 1.
    destruct k as [|k].
    + destruct (Z.ltb_spec (Z.of_nat a) (parts - 1)); [lia|].
      cbn [seq map TradingBot.twap_loop submit_all run_events].
      unfold ret. cbn [world trace]. reflexivity.
    + destruct (Z.ltb_spec (Z.of_nat a) (parts - 1)); [|lia].
      rewrite sleep_run by lia.
      rewrite IH by lia. cbn [world trace].
      pose proof (submit_all_length (market_order symbol side piece)
                    (S k) w1) as Hlen.
      destruct (submit_all _ (S k) w1) as [rs w2].
      destruct rs as [|r' rs]; [discriminate Hlen|].
      cbn [run_events map]. rewrite <- !app_assoc. reflexivity.
Qed.

(** A run of [twap] whose piece is computed and whose pauses are accepted:
    the replies of the exchange to the [parts] submissions become the
    results, in order. *)
Lemma twap_run symbol side total parts interval piece st :
  1 <= parts ->
  (parts = 1 \/ 0 <= interval <= sleep_max) ->
  truediv total (of_int parts) = Return piece ->
  twap symbol side total parts interval st =
    let '(rs, w) :=
      submit_all (market_order symbol side piece) (Z.to_nat parts) (world st) in
    (Return {| twap_results := map (@result_of Resp) rs |},
     {| world := w;
        trace := trace st ++
          run_events (market_order symbol side piece)
            (market_log side piece symbol) interval rs |}).
Proof.
  intros Hparts Hi Hdiv.
  unfold TradingBot.twap, bind at 1, lift. rewrite Hdiv.
  unfold bind, range.
  rewrite (twap_loop_run symbol side piece parts interval
             (truediv_not_snan _ _ _ Hdiv)) by lia.
  destruct (submit_all _ _ _) as [rs w]. reflexivity.
Qed.

(** With two parts or more and an interval [time.sleep] refuses, the loop
    stops at its first pause. *)
Lemma twap_loop_bad_interval symbol side piece parts interval st :
  is_snan piece = false ->
  2 <= parts ->
  ~ (0 <= interval <= sleep_max) ->
  exists e st',
    twap_loop symbol side piece parts interval (range parts) [] st
    = (Raise e, st').
Proof.
  intros Hp Hparts Hi. unfold range.
  destruct (Z.to_nat parts) as [|n] eqn:Hn; [lia|].
  cbn [seq map TradingBot.twap_loop]. unfold bind at 1.
  rewrite (market_run symbol side piece st Hp).
  destruct (futures_create_order _ (world st)) as [r w1].
  unfold bind at 1.
  destruct (Z.ltb_spec (Z.of_nat 0) (parts - 1)); [|lia].
  match goal with
  | |- context [sleep sleep_max interval ?s] =>
      destruct (sleep_raises interval s Hi) as [e He]; rewrite He
  end.
  eauto.
Qed.

(** A run that returns has computed its piece and, with two parts or
    more, had its pauses accepted. *)
Lemma twap_returns_inv symbol side total parts interval st out st' :
  1 <= parts ->
  twap symbol side total parts interval st = (Return out, st') ->
  exists piece,
    truediv total (of_int parts) = Return piece
    /\ (parts = 1 \/ 0 <= interval <= sleep_max).
Proof.
  intros Hparts. unfold TradingBot.twap, bind at 1, lift.
  destruct (truediv total (of_int parts)) as [piece|e] eqn:Hdiv;
    [|discriminate].
  intros Hrun. exists piece. split; [reflexivity|].
  destruct (Z.eq_dec parts 1) as [|Hne]; [now left|right].
  destruct (Z_le_dec 0 interval) as [H0|H0];
    [destruct (Z_le_dec interval sleep_max) as [H1|H1]; [lia|]|];
    exfalso;
    (destruct (twap_loop_bad_interval symbol side piece parts interval st
                 (truediv_not_snan _ _ _ Hdiv)) as (e & st1 & He); [lia|lia|]);
    unfold bind in Hrun; rewrite He in Hrun; discriminate Hrun.
Qed.

(** Whatever becomes of the loop, every order it submits is the market
    order for [piece]. *)
Lemma twap_loop_orders symbol side piece parts interval :
  is_snan piece = false ->
  forall indices acc st r st',
    twap_loop symbol side piece parts interval indices acc st = (r, st') ->
    exists tr,
      trace st' = trace st ++ tr
      /\ forall args, In args (orders_of tr) ->
                      args = market_order symbol side piece.
Proof.
  intros Hp. induction indices as [|i rest IH]; intros acc st r st' Hrun.
  - inversion Hrun; subst. exists []. rewrite app_nil_r. split; [reflexivity|].
    intros args [].
  - cbn [TradingBot.twap_loop] in Hrun. unfold bind at 1 in Hrun.
    rewrite (market_run symbol side piece st Hp) in Hrun.
    destruct (futures_create_order _ (world st)) as [rep w1].
    unfold bind at 1 in Hrun.
    match type of Hrun with
    | context [(if ?b then ?m else ?n) ?s] =>
        destruct ((if b then m else n) s) as [[[]|e] st1] eqn:Hpause
    end.
    + apply IH in Hrun. destruct Hrun as (tr & Htr & Hall).
      assert (Hst1 : exists p, trace st1
                = (trace st ++ [EvOrder (market_order symbol side piece);
                                market_log side piece symbol rep]) ++ p
                /\ orders_of p = []).
      { destruct (i <? parts - 1).
        - unfold sleep in Hpause.
          destruct (interval <? 0); [discriminate|].
          destruct (sleep_max <? interval); [discriminate|].
          inversion Hpause; subst. cbn [trace]. eexists. split; reflexivity.
        - inversion Hpause; subst. cbn [trace]. exists [].
          rewrite app_nil_r. split; reflexivity. }
      destruct Hst1 as (p & Hp1 & Hp2).
      eexists. rewrite Htr, Hp1, <- !app_assoc. split; [reflexivity|].
      intros args. rewrite orders_of_step, orders_of_app, Hp2.
      intros [<-|Hin]; [reflexivity|]. now apply Hall.
    + inversion Hrun; subst.
      assert (Hst' : trace st'
                = trace st ++ [EvOrder (market_order symbol side piece);
                               market_log side piece symbol rep]).
      { destruct (i <? parts - 1).
        - unfold sleep, raise in Hpause.
          destruct (interval <? 0); [inversion Hpause; reflexivity|].
          destruct (sleep_max <? interval); [inversion Hpause; reflexivity|].
          discriminate.
        - discriminate. }
      eexists. split; [exact Hst'|].
      intros args. rewrite <- (app_nil_r [_; _]), orders_of_step.
      intros [<-|[]]. reflexivity.
Qed.

(** [validate_side] either returns or raises an ArgumentTypeError. *)
Lemma validate_side_cases (s : string) :
  (exists s2, validate_side s = Return s2)
  \/ (exists msg, validate_side s = Raise (ArgumentTypeError msg)).
Proof.
  unfold validate_side.
  destruct (negb _); [right|left]; eexists; reflexivity.
Qed.

Local Abbreviation parse_decimal := (parse_decimal Decimal_new).
Local Abbreviation parse_args := (parse_args Decimal_new).
Local Abbreviation main :=
  (main Decimal_new Client_new futures_create_order sleep_max).

(** *** The properties of the specification *)

(** C1 (amended).  For every TWAP request with [parts = N >= 1] whose
    total quantity the decimal context can divide (a finite quantity of
    adjusted exponent below [Emax], that is below 1E+999999) and whose
    interval [time.sleep] accepts, [twap] computes the piece, submits
    exactly N market orders and returns an outcome whose [twap_results] are
    the N results of these submissions, in submission order, whatever the
    exchange replies to each of them. *)
Theorem twap_submits_every_part symbol side total parts interval st :
  1 <= parts ->
  0 <= interval <= sleep_max ->
  within_context total ->
  exists piece rs w tr,
    truediv total (of_int parts) = Return piece
    /\ submit_all (market_order symbol side piece) (Z.to_nat parts) (world st)
       = (rs, w)
    /\ twap symbol side total parts interval st
       = (Return {| twap_results := map (@result_of Resp) rs |},
          {| world := w; trace := trace st ++ tr |})
    /\ List.length (map (@result_of Resp) rs) = Z.to_nat parts
    /\ orders_of tr
       = repeat (market_order symbol side piece) (Z.to_nat parts).
Proof.
  intros Hparts Hi Hctx.
  destruct (truediv_in_context total parts Hparts Hctx) as [piece Hdiv].
  exists piece.
  rewrite (twap_run symbol side total parts interval piece st) by auto.
  pose proof (submit_all_length (market_order symbol side piece)
                (Z.to_nat parts) (world st)) as Hlen.
  destruct (submit_all _ _ _) as [rs w]. cbn [fst] in Hlen.
  exists rs, w. eexists.
  split; [exact Hdiv|]. split; [reflexivity|]. split; [reflexivity|].
  split.
  - now rewrite length_map.
  - rewrite orders_of_run_events, Hlen; [reflexivity|].
    intros r. apply market_log_is_log.
Qed.

(** C2.  A failure of the exchange on one step does not stop a TWAP run:
    whatever the replies to the N submissions are, the run goes through
    its N steps, submits one order per step and no more, and each slot of
    the outcome holds the result of its own submission, the error variant
    where the exchange raised.  For 3 parts with a failure on step 2 the
    outcome is [result 1; error; result 3]. *)
Theorem twap_failed_step_does_not_abort
    symbol side total parts interval piece st rs w :
  1 <= parts ->
  0 <= interval <= sleep_max ->
  truediv total (of_int parts) = Return piece ->
  submit_all (market_order symbol side piece) (Z.to_nat parts) (world st)
  = (rs, w) ->
  exists results tr,
    twap symbol side total parts interval st
    = (Return {| twap_results := results |},
       {| world := w; trace := trace st ++ tr |})
    /\ List.length results = Z.to_nat parts
    /\ orders_of tr
       = repeat (market_order symbol side piece) (Z.to_nat parts)
    /\ (forall i r, nth_error rs i = Some r ->
                    nth_error results i = Some (result_of r))
    /\ (forall r1 descr r3,
          parts = 3 ->
          rs = [r1; Failed descr; r3] ->
          results = [result_of r1; Error descr; result_of r3]).
Proof.
  intros Hparts Hi Hdiv Hrs.
  rewrite (twap_run symbol side total parts interval piece st) by auto.
  pose proof (submit_all_length (market_order symbol side piece)
                (Z.to_nat parts) (world st)) as Hlen.
  rewrite Hrs in *. cbn [fst] in Hlen.
  do 2 eexists. split; [reflexivity|]. split; [|split; [|split]].
  - now rewrite length_map.
  - rewrite orders_of_run_events, Hlen; [reflexivity|].
    intros r. apply market_log_is_log.
  - intros i r Hr. now rewrite nth_error_map, Hr.
  - intros r1 descr r3 _ ->. reflexivity.
Qed.

(** C3.  [market] and [limit] return in every state and for every input;
    when the exchange call raises, the result is the error variant that
    carries the failure's description (and so it is when the quantity
    cannot be converted for the call). *)
Theorem gateway_never_raises symbol side qty price st :
  (exists r st', market symbol side qty st = (Return r, st'))
  /\ (exists r st', limit symbol side qty price st = (Return r, st'))
  /\ (forall descr w,
        is_snan qty = false ->
        futures_create_order (market_order symbol side qty) (world st)
        = (Failed descr, w) ->
        exists st', market symbol side qty st = (Return (Error descr), st'))
  /\ (forall descr w,
        is_snan qty = false ->
        futures_create_order (limit_order symbol side qty price) (world st)
        = (Failed descr, w) ->
        exists st',
          limit symbol side qty price st = (Return (Error descr), st'))
  /\ (is_snan qty = true ->
      exists st' st'',
        market symbol side qty st
        = (Return (Error "cannot convert signaling NaN to float"), st')
        /\ limit symbol side qty price st
           = (Return (Error "cannot convert signaling NaN to float"), st'')).
Proof.
  destruct (is_snan qty) eqn:Hq.
  - rewrite (market_snan symbol side qty st Hq), (limit_snan symbol side qty price st Hq).
    repeat split; eauto; discriminate.
  - rewrite (market_run symbol side qty st Hq), (limit_run symbol side qty price st Hq).
    destruct (futures_create_order (market_order _ _ _) _) as [rm wm].
    destruct (futures_create_order (limit_order _ _ _ _) _) as [rl wl].
    repeat split; eauto; try discriminate.
    + intros descr w _ H. inversion H; subst. eauto.
    + intros descr w _ H. inversion H; subst. eauto.
Qed.

Lemma Qsum_repeat sg c e (n : nat) :
  (Qsum (repeat (Fin sg c e) n) == inject_Z (Z.of_nat n) * Qval sg c e)%Q.
Proof.
  induction n as [|n IH].
  - simpl. ring.
  - cbn [repeat Qsum]. rewrite IH, Nat2Z.inj_succ. unfold Z.succ.
    rewrite inject_Z_plus. ring.
Qed.

(** C4.  Every quantity [twap] submits is the piece [total_qty / parts] of
    the decimal division, in every run; a run of N parts that returns has
    submitted N such pieces, whose sum is N times the piece.  The quantity
    0.009 in 3 parts gives three pieces of exactly 0.003; the quantity 1 in
    3 parts gives pieces whose sum is not 1. *)
Theorem twap_pieces_are_the_quotient symbol side total parts interval st :
  (forall r st',
      twap symbol side total parts interval st = (r, st') ->
      exists tr,
        trace st' = trace st ++ tr
        /\ forall args, In args (orders_of tr) ->
                        truediv total (of_int parts) = Return (piece_of args))
  /\ (forall out st',
        1 <= parts ->
        twap symbol side total parts interval st = (Return out, st') ->
        exists piece tr,
          truediv total (of_int parts) = Return piece
          /\ trace st' = trace st ++ tr
          /\ map piece_of (orders_of tr) = repeat piece (Z.to_nat parts)
          /\ forall sg c e,
               piece = Fin sg c e ->
               (Qsum (map piece_of (orders_of tr))
                == inject_Z parts * Qval sg c e)%Q)
  /\ (0 <= interval <= sleep_max ->
      exists out st' tr,
        twap symbol side (Fin false 9 (-3)) 3 interval st = (Return out, st')
        /\ trace st' = trace st ++ tr
        /\ map piece_of (orders_of tr)
           = [Fin false 3 (-3); Fin false 3 (-3); Fin false 3 (-3)])
  /\ (truediv (Fin false 1 0) (of_int 3)
      = Return (Fin false 3333333333333333333333333333 (-28))
      /\ ~ (inject_Z 3 * Qval false 3333333333333333333333333333 (-28)
            == Qval false 1 0)%Q).
Proof.
  split; [|split; [|split]].
  - intros r st'. unfold TradingBot.twap, bind at 1, lift.
    destruct (truediv total (of_int parts)) as [piece|e] eqn:Hdiv.
    + unfold bind.
      destruct (twap_loop symbol side piece parts interval (range parts) [] st)
        as [r1 st1] eqn:Hloop.
      apply (twap_loop_orders _ _ _ _ _ (truediv_not_snan _ _ _ Hdiv)) in Hloop.
      destruct Hloop as (tr & Htr & Hall).
      intros Hrun. exists tr.
      assert (st' = st1) as -> by (destruct r1; inversion Hrun; reflexivity).
      split; [exact Htr|].
      intros args Hin. rewrite (Hall args Hin). reflexivity.
    + intros Hrun. inversion Hrun; subst. exists [].
      rewrite app_nil_r. split; [reflexivity|]. intros args [].
  - intros out st' Hparts Hrun.
    destruct (twap_returns_inv _ _ _ _ _ _ _ _ Hparts Hrun) as (piece & Hdiv & Hi).
    rewrite (twap_run symbol side total parts interval piece st) in Hrun
      by auto.
    pose proof (submit_all_length (market_order symbol side piece)
                  (Z.to_nat parts) (world st)) as Hlen.
    destruct (submit_all _ _ _) as [rs w]. cbn [fst] in Hlen.
    inversion Hrun; subst. cbn [trace].
    exists piece. eexists. split; [exact Hdiv|]. split; [reflexivity|].
    assert (Hpieces :
      map piece_of
        (orders_of (run_events (market_order symbol side piece)
                      (market_log side piece symbol) interval rs))
      = repeat piece (Z.to_nat parts)).
    { rewrite orders_of_run_events, Hlen, map_repeat; [reflexivity|].
      intros r. apply market_log_is_log. }
    split; [exact Hpieces|].
    intros sg c e ->. rewrite Hpieces, Qsum_repeat, Z2Nat.id by lia.
    reflexivity.
  - intros Hi.
    rewrite (twap_run symbol side (Fin false 9 (-3)) 3 interval
               (Fin false 3 (-3)) st) by (auto; lia).
    pose proof (submit_all_length
                  (market_order symbol side (Fin false 3 (-3)))
                  (Z.to_nat 3) (world st)) as Hlen.
    destruct (submit_all _ _ _) as [rs w]. cbn [fst] in Hlen.
    do 3 eexists. split; [reflexivity|]. split; [reflexivity|].
    rewrite orders_of_run_events, Hlen; [reflexivity|].
    intros r. apply market_log_is_log.
  - split; [vm_compute; reflexivity|].
    intros H. vm_compute in H. discriminate H.
Qed.

(** C8 (amended).  For every TWAP request with [parts = N >= 1] whose
    total quantity the decimal context can divide (as in C1) and whose
    interval [time.sleep] accepts, the run returns and has paused exactly
    N - 1 times, each time for the configured interval, once between two
    consecutive submissions and not after the last one, whatever the
    exchange replies to each submission: twice for 3 parts, never for
    1 part. *)
Theorem twap_pauses_between_parts symbol side total parts interval st :
  1 <= parts ->
  0 <= interval <= sleep_max ->
  within_context total ->
  exists out st' tr,
    twap symbol side total parts interval st = (Return out, st')
    /\ trace st' = trace st ++ tr
    /\ sleeps_of tr = repeat interval (Z.to_nat parts - 1)
    /\ timeline tr = alternating (Z.to_nat parts)
    /\ (parts = 3 -> sleeps_of tr = [interval; interval])
    /\ (parts = 1 -> sleeps_of tr = []).
Proof.
  intros Hparts Hi Hctx.
  destruct (truediv_in_context total parts Hparts Hctx) as [piece Hdiv].
  rewrite (twap_run symbol side total parts interval piece st) by auto.
  pose proof (submit_all_length (market_order symbol side piece)
                (Z.to_nat parts) (world st)) as Hlen.
  destruct (submit_all _ _ _) as [rs w]. cbn [fst] in Hlen.
  do 3 eexists. split; [reflexivity|]. cbn [trace].
  split; [reflexivity|].
  assert (Hsleeps :
    sleeps_of (run_events (market_order symbol side piece)
                 (market_log side piece symbol) interval rs)
    = repeat interval (Z.to_nat parts - 1)).
  { rewrite sleeps_of_run_events, Hlen; [reflexivity|].
    intros r. apply market_log_is_log. }
  split; [exact Hsleeps|]. split.
  - rewrite timeline_run_events, Hlen; [reflexivity|].
    intros r. apply market_log_is_log.
  - split; intros ->; exact Hsleeps.
Qed.

(** A command line that validation refuses leaves [main] before the bot
    exists: nothing is submitted, logged or printed. *)
Lemma main_refused base_url argv e st :
  parse_args argv = Raise e -> main base_url argv st = (Raise e, st).
Proof.
  intros H. unfold TradingBot.main, bind at 1, lift. rewrite H. reflexivity.
Qed.

(** C5 (amended).  A TWAP request with [parts = 0] is not refused by
    validation: with a valid side and quantity, [parse_args] accepts it
    and [main] calls [twap] with [parts = 0].  There the division
    [total_qty / parts] is the first thing evaluated; for a finite quantity
    it raises [decimal.DivisionByZero] before any order or pause (for the
    quantity Infinity it yields Infinity and the run returns an empty list
    of results). *)
Theorem zero_parts_reach_the_division
    base_url symbol side quantity interval s q st :
  validate_side side = Return s ->
  parse_decimal quantity = Return q ->
  parse_args (ArgvTwap symbol side quantity 0 interval)
  = Return (NsTwap symbol s q 0 interval)
  /\ twap symbol s q 0 interval st
     = match q with
       | Fin _ _ _ => (Raise DivisionByZero, st)
       | _ => (Return {| twap_results := [] |}, st)
       end
  /\ forall w,
       Client_new (world st) = (None, w) ->
       main (Some base_url) (ArgvTwap symbol side quantity 0 interval) st
       = match q with
         | Fin _ _ _ =>
             (Raise DivisionByZero,
              {| world := w;
                 trace := trace st ++ [EvLog INFO (LogInitialized base_url)] |})
         | _ =>
             (Return tt,
              {| world := w;
                 trace := (trace st ++ [EvLog INFO (LogInitialized base_url)])
                          ++ [EvPrint (OutTwap {| twap_results := [] |})] |})
         end.
Proof.
  intros Hs Hq.
  assert (Hargs : parse_args (ArgvTwap symbol side quantity 0 interval)
                  = Return (NsTwap symbol s q 0 interval)).
  { unfold TradingBot.parse_args. rewrite Hs, Hq. reflexivity. }
  assert (Hpos : positive q).
  { unfold TradingBot.parse_decimal in Hq.
    destruct (Decimal_new quantity) as [d|]; [|discriminate].
    destruct (le_zero d) as [[]|] eqn:Hle; try discriminate.
    inversion Hq; subst. now apply le_zero_false_positive. }
  assert (Htwap : forall st0 : State,
             twap symbol s q 0 interval st0
             = match q with
               | Fin _ _ _ => (Raise DivisionByZero, st0)
               | _ => (Return {| twap_results := [] |}, st0)
               end).
  { intros st0. unfold TradingBot.twap, bind, lift.
    destruct q as [sg c e | sg | sg g pl]; simpl in Hpos.
    - unfold truediv, of_int. simpl.
      destruct (N.eqb_spec c 0) as [->|Hc]; [|reflexivity].
      exfalso. rewrite Qval_zero in Hpos. revert Hpos. apply Qlt_irrefl.
    - destruct sg; reflexivity.
    - destruct Hpos. }
  split; [exact Hargs|]. split; [apply Htwap|].
  intros w Hw.
  unfold TradingBot.main, bind at 1, lift. rewrite Hargs.
  unfold bind at 1, FuturesBot_init, bind at 1, new_Client. rewrite Hw.
  unfold logger_info, emit. cbn [world trace]. unfold bind at 1.
  rewrite Htwap. destruct q; reflexivity.
Qed.

(** A NaN is a decimal that is neither positive nor non-positive: the
    comparison [d <= 0] signals, outside the [try], and the validator
    lets [decimal.InvalidOperation] through. *)
Lemma parse_decimal_nan (value : string) sg signaling payload :
  Decimal_new value = Some (NaN sg signaling payload) ->
  parse_decimal value = Raise (InvalidOperation "InvalidOperation").
Proof.
  intros H. unfold TradingBot.parse_decimal. rewrite H. reflexivity.
Qed.

(** C6.  A quantity string that does not parse as a decimal, or that parses
    to a value that is zero or negative, makes [parse_decimal] raise an
    ArgumentTypeError; one that parses to a strictly positive decimal is
    returned as that decimal.  With a refused quantity [main] stops in
    [parse_args]: the state is untouched, no order goes out.  The
    commands market and twap end with exit status 2.  So does the
    command limit, unless its price is a NaN: the conversion of such a
    price raises InvalidOperation, which leaves [main] in place of the
    exit when the price stands before the quantity on the command
    line; [main] raises in either case. *)
Theorem parse_decimal_accepts_positive_only (value : string) :
  (Decimal_new value = None ->
   parse_decimal value
   = Raise (ArgumentTypeError ("Invalid number: " ++ value)%string))
  /\ (forall d, Decimal_new value = Some d -> nonpositive d ->
       parse_decimal value = Raise (ArgumentTypeError "Value must be positive"))
  /\ (forall d, Decimal_new value = Some d -> positive d ->
       parse_decimal value = Return d)
  /\ (forall msg base_url symbol side price parts interval st,
        parse_decimal value = Raise (ArgumentTypeError msg) ->
        main base_url (ArgvMarket symbol side value) st
        = (Raise (SystemExit 2), st)
        /\ main base_url (ArgvTwap symbol side value parts interval) st
           = (Raise (SystemExit 2), st)
        /\ (exists e,
              main base_url (ArgvLimit symbol side value price) st
              = (Raise e, st))
        /\ ((forall c, parse_decimal price <> Raise (InvalidOperation c)) ->
            main base_url (ArgvLimit symbol side value price) st
            = (Raise (SystemExit 2), st))).
Proof.
  split; [|split; [|split]].
  - unfold TradingBot.parse_decimal. intros ->. reflexivity.
  - intros d Hd Hn. unfold TradingBot.parse_decimal.
    rewrite Hd, (le_zero_nonpositive d Hn). reflexivity.
  - intros d Hd Hp. unfold TradingBot.parse_decimal.
    rewrite Hd, (le_zero_positive d Hp). reflexivity.
  - intros msg base_url sym sd price parts interval st H.
    assert (Hq : argparse_type (parse_decimal value) = Raise (SystemExit 2))
      by (rewrite H; reflexivity).
    assert (Hlimit : main base_url (ArgvLimit sym sd value price) st
                     = (Raise (SystemExit 2), st)).
    { apply main_refused; unfold TradingBot.parse_args.
      destruct (validate_side_cases sd) as [[s2 ->]|[m ->]];
        try reflexivity.
      cbn [argparse_type result_bind]. rewrite Hq. reflexivity. }
    split; [|split; [|split]].
    + apply main_refused; unfold TradingBot.parse_args.
      destruct (validate_side_cases sd) as [[s2 ->]|[m ->]];
        try reflexivity.
      cbn [argparse_type result_bind]. rewrite Hq. reflexivity.
    + apply main_refused; unfold TradingBot.parse_args.
      destruct (validate_side_cases sd) as [[s2 ->]|[m ->]];
        try reflexivity.
      cbn [argparse_type result_bind]. rewrite Hq. reflexivity.
    + exists (SystemExit 2). exact Hlimit.
    + intros _. exact Hlimit.
Qed.

End Facts.


(** *** The properties on concrete runs *)

(** A 3-part run of 0.009 against an exchange that fails the second
    submission. *)
Lemma twap_submits_every_part_witness :
  1 <= 3
  /\ 0 <= 5 <= stub_sleep_max
  /\ within_context (Fin false 9 (-3))
  /\ exists piece rs w tr,
       truediv (Fin false 9 (-3)) (of_int 3) = Return piece
       /\ submit_all (stub_exchange [2%nat])
            (market_order "btcusdt" "BUY" piece) (Z.to_nat 3) (world start)
          = (rs, w)
       /\ twap (stub_exchange [2%nat]) stub_sleep_max
            "btcusdt" "BUY" (Fin false 9 (-3)) 3 5 start
          = (Return {| twap_results := map (@result_of nat) rs |},
             {| world := w; trace := trace start ++ tr |})
       /\ List.length (map (@result_of nat) rs) = Z.to_nat 3
       /\ orders_of tr
          = repeat (market_order "btcusdt" "BUY" piece) (Z.to_nat 3).
Proof.
  assert (H1 : 1 <= 3) by lia.
  assert (H2 : 0 <= 5 <= stub_sleep_max) by (unfold stub_sleep_max; lia).
  assert (H3 : within_context (Fin false 9 (-3)))
    by (right; vm_compute; reflexivity).
  split; [exact H1|]. split; [exact H2|]. split; [exact H3|].
  exact (twap_submits_every_part nat nat (stub_exchange [2%nat])
           stub_sleep_max "btcusdt" "BUY" (Fin false 9 (-3)) 3 5
           start H1 H2 H3).
Defined.

(** C1, as stated, fails: the quantity 1E+9999999 is a positive decimal
    that the validator accepts, and with 3 parts the division
    [total_qty / parts] overflows the decimal context; [twap] raises
    [decimal.Overflow], submits nothing and returns no outcome. *)
Lemma twap_submits_every_part_counterexample :
  positive (Fin false 1 9999999)
  /\ ~ within_context (Fin false 1 9999999)
  /\ TradingBot.parse_decimal of_string "1e9999999"
     = Return (Fin false 1 9999999)
  /\ twap (stub_exchange []) stub_sleep_max
       "BTCUSDT" "BUY" (Fin false 1 9999999) 3 5 start
     = (Raise Overflow, start)
  /\ ~ (exists out st',
          twap (stub_exchange []) stub_sleep_max
            "BTCUSDT" "BUY" (Fin false 1 9999999) 3 5 start
          = (Return out, st')).
Proof.
  assert (Hrun : twap (stub_exchange []) stub_sleep_max
                   "BTCUSDT" "BUY" (Fin false 1 9999999) 3 5 start
                 = (Raise Overflow, start)) by (vm_compute; reflexivity).
  split; [apply Qval_false_pos; discriminate|].
  split; [intros [H|H]; [discriminate H | vm_compute in H; discriminate H]|].
  split; [vm_compute; reflexivity|].
  split; [exact Hrun|].
  intros (out & st' & H). rewrite Hrun in H. discriminate H.
Qed.

Lemma twap_failed_step_does_not_abort_witness :
  1 <= 3
  /\ 0 <= 0 <= stub_sleep_max
  /\ truediv (Fin false 9 (-3)) (of_int 3) = Return (Fin false 3 (-3))
  /\ submit_all (stub_exchange [2%nat])
       (market_order "BTCUSDT" "BUY" (Fin false 3 (-3))) (Z.to_nat 3)
       (world start)
     = ([Acknowledged 1%nat; Failed "rejected"; Acknowledged 3%nat], 3%nat)
  /\ exists tr,
       twap (stub_exchange [2%nat]) stub_sleep_max
         "BTCUSDT" "BUY" (Fin false 9 (-3)) 3 0 start
       = (Return {| twap_results :=
                      [Ack 1%nat; Error "rejected"; Ack 3%nat] |},
          {| world := 3%nat; trace := trace start ++ tr |})
       /\ orders_of tr
          = repeat (market_order "BTCUSDT" "BUY" (Fin false 3 (-3)))
              (Z.to_nat 3).
Proof.
  assert (H0 : 1 <= 3) by lia.
  assert (H1 : 0 <= 0 <= stub_sleep_max) by (unfold stub_sleep_max; lia).
  assert (H2 : truediv (Fin false 9 (-3)) (of_int 3)
               = Return (Fin false 3 (-3))) by reflexivity.
  assert (H3 : submit_all (stub_exchange [2%nat])
                 (market_order "BTCUSDT" "BUY" (Fin false 3 (-3)))
                 (Z.to_nat 3) (world start)
               = ([Acknowledged 1%nat; Failed "rejected"; Acknowledged 3%nat],
                  3%nat)) by reflexivity.
  split; [exact H0|]. split; [exact H1|]. split; [exact H2|].
  split; [exact H3|].
  destruct (twap_failed_step_does_not_abort nat nat (stub_exchange [2%nat])
              stub_sleep_max "BTCUSDT" "BUY" (Fin false 9 (-3)) 3 0
              (Fin false 3 (-3)) start _ _ H0 H1 H2 H3)
    as (results & tr & Hrun & _ & Horders & _ & H3parts).
  rewrite (H3parts _ _ _ eq_refl eq_refl) in Hrun.
  exists tr. split; [exact Hrun | exact Horders].
Defined.

(** A market and a limit order against an exchange that fails the first
    submission. *)
Lemma gateway_never_raises_witness :
  exists st' st'',
    market (stub_exchange [1%nat]) "ethusdt" "SELL" (Fin false 1 (-2)) start
    = (Return (Error "rejected"), st')
    /\ limit (stub_exchange [1%nat]) "BTCUSDT" "BUY" (Fin false 1 (-2))
         (Fin false 25000 0) start
       = (Return (Error "rejected"), st'').
Proof.
  destruct (gateway_never_raises nat nat (stub_exchange [1%nat])
              "ethusdt" "SELL" (Fin false 1 (-2)) (Fin false 25000 0) start)
    as (_ & _ & Hm & _ & _).
  destruct (gateway_never_raises nat nat (stub_exchange [1%nat])
              "BTCUSDT" "BUY" (Fin false 1 (-2)) (Fin false 25000 0) start)
    as (_ & _ & _ & Hl & _).
  destruct (Hm "rejected" 1%nat eq_refl eq_refl) as [st' Hst'].
  destruct (Hl "rejected" 1%nat eq_refl eq_refl) as [st'' Hst''].
  exists st', st''. split; assumption.
Defined.

(** The scenario of the specification: 0.009 in 3 parts with no pause,
    against an exchange that acknowledges everything. *)
Lemma twap_pieces_are_the_quotient_witness :
  1 <= 3
  /\ twap (stub_exchange []) stub_sleep_max
       "BTCUSDT" "BUY" (Fin false 9 (-3)) 3 0 start
     = (Return {| twap_results := [Ack 1%nat; Ack 2%nat; Ack 3%nat] |},
        snd (twap (stub_exchange []) stub_sleep_max
               "BTCUSDT" "BUY" (Fin false 9 (-3)) 3 0 start))
  /\ exists piece tr,
       truediv (Fin false 9 (-3)) (of_int 3) = Return piece
       /\ trace (snd (twap (stub_exchange []) stub_sleep_max
                        "BTCUSDT" "BUY" (Fin false 9 (-3)) 3 0 start))
          = trace start ++ tr
       /\ map piece_of (orders_of tr) = repeat piece (Z.to_nat 3)
       /\ forall sg c e,
            piece = Fin sg c e ->
            (Qsum (map piece_of (orders_of tr))
             == inject_Z 3 * Qval sg c e)%Q.
Proof.
  assert (H1 : 1 <= 3) by lia.
  assert (H2 : twap (stub_exchange []) stub_sleep_max
                 "BTCUSDT" "BUY" (Fin false 9 (-3)) 3 0 start
               = (Return {| twap_results := [Ack 1%nat; Ack 2%nat; Ack 3%nat] |},
                  snd (twap (stub_exchange []) stub_sleep_max
                         "BTCUSDT" "BUY" (Fin false 9 (-3)) 3 0 start)))
    by reflexivity.
  split; [exact H1|]. split; [exact H2|].
  exact (proj1 (proj2 (twap_pieces_are_the_quotient nat nat
                         (stub_exchange []) stub_sleep_max
                         "BTCUSDT" "BUY" (Fin false 9 (-3)) 3 0 start))
           _ _ H1 H2).
Defined.

(** Three parts, five seconds apart, the second submission failing: two
    pauses. *)
Lemma twap_pauses_between_parts_witness :
  1 <= 3
  /\ 0 <= 5 <= stub_sleep_max
  /\ within_context (Fin false 3 0)
  /\ exists out st' tr,
       twap (stub_exchange [2%nat]) stub_sleep_max
         "BTCUSDT" "SELL" (Fin false 3 0) 3 5 start
       = (Return out, st')
       /\ trace st' = trace start ++ tr
       /\ sleeps_of tr = repeat 5 (Z.to_nat 3 - 1)
       /\ timeline tr = alternating (Z.to_nat 3)
       /\ (3 = 3 -> sleeps_of tr = [5; 5])
       /\ (3 = 1 -> sleeps_of tr = []).
Proof.
  assert (H1 : 1 <= 3) by lia.
  assert (H2 : 0 <= 5 <= stub_sleep_max) by (unfold stub_sleep_max; lia).
  assert (H3 : within_context (Fin false 3 0))
    by (right; vm_compute; reflexivity).
  split; [exact H1|]. split; [exact H2|]. split; [exact H3|].
  exact (twap_pauses_between_parts nat nat (stub_exchange [2%nat])
           stub_sleep_max "BTCUSDT" "SELL" (Fin false 3 0) 3 5 start
           H1 H2 H3).
Defined.

(** C8, as stated, fails: with the quantity 1E+9999999, which the
    validator accepts, the run in 3 parts raises [decimal.Overflow] in
    the division, before the loop: it has not paused twice, but never. *)
Lemma twap_pauses_between_parts_counterexample :
  TradingBot.parse_decimal of_string "1e9999999"
  = Return (Fin false 1 9999999)
  /\ 0 <= 5 <= stub_sleep_max
  /\ twap (stub_exchange []) stub_sleep_max
       "BTCUSDT" "BUY" (Fin false 1 9999999) 3 5 start
     = (Raise Overflow, start)
  /\ sleeps_of (trace (snd (twap (stub_exchange []) stub_sleep_max
                              "BTCUSDT" "BUY" (Fin false 1 9999999) 3 5
                              start)))
     = []
  /\ sleeps_of (trace (snd (twap (stub_exchange []) stub_sleep_max
                              "BTCUSDT" "BUY" (Fin false 1 9999999) 3 5
                              start)))
     <> repeat 5 (Z.to_nat 3 - 1).
Proof.
  assert (Hrun : twap (stub_exchange []) stub_sleep_max
                   "BTCUSDT" "BUY" (Fin false 1 9999999) 3 5 start
                 = (Raise Overflow, start)) by (vm_compute; reflexivity).
  split; [vm_compute; reflexivity|].
  split; [unfold stub_sleep_max; lia|].
  split; [exact Hrun|].
  rewrite Hrun. split; [reflexivity | discriminate].
Qed.

Lemma zero_parts_reach_the_division_witness :
  validate_side "buy" = Return "BUY"
  /\ TradingBot.parse_decimal of_string "0.009" = Return (Fin false 9 (-3))
  /\ TradingBot.parse_args of_string (ArgvTwap "BTCUSDT" "buy" "0.009" 0 5)
     = Return (NsTwap "BTCUSDT" "BUY" (Fin false 9 (-3)) 0 5)
  /\ twap (stub_exchange []) stub_sleep_max
       "BTCUSDT" "BUY" (Fin false 9 (-3)) 0 5 start
     = (Raise DivisionByZero, start).
Proof.
  assert (H1 : validate_side "buy" = Return "BUY") by reflexivity.
  assert (H2 : TradingBot.parse_decimal of_string "0.009"
               = Return (Fin false 9 (-3))) by reflexivity.
  split; [exact H1|]. split; [exact H2|].
  destruct (zero_parts_reach_the_division of_string nat nat stub_Client_new
              (stub_exchange []) stub_sleep_max "https://testnet"
              "BTCUSDT" "buy" "0.009" 5 "BUY" (Fin false 9 (-3)) start H1 H2)
    as (Hargs & Htwap & _).
  split; [exact Hargs | exact Htwap].
Defined.

(** C5, as stated, fails: [--parts 0] passes validation, [main] builds the
    bot and calls [twap], and the division by [parts = 0] is reached: it
    is what raises. *)
Lemma zero_parts_reach_the_division_counterexample :
  TradingBot.parse_args of_string (ArgvTwap "BTCUSDT" "buy" "1" 0 5)
  = Return (NsTwap "BTCUSDT" "BUY" (Fin false 1 0) 0 5)
  /\ ~ (exists e,
          TradingBot.parse_args of_string (ArgvTwap "BTCUSDT" "buy" "1" 0 5)
          = Raise e)
  /\ truediv (Fin false 1 0) (of_int 0) = Raise DivisionByZero
  /\ TradingBot.main of_string stub_Client_new (stub_exchange [])
       stub_sleep_max (Some "https://testnet") (ArgvTwap "BTCUSDT" "buy" "1" 0 5)
       start
     = (Raise DivisionByZero,
        {| world := 0%nat;
           trace := [EvLog INFO (LogInitialized "https://testnet")] |}).
Proof.
  split; [reflexivity|]. split; [|split; reflexivity].
  intros [e H]. vm_compute in H. discriminate H.
Qed.

(** The scenario [quantity = -1] of the specification. *)
Lemma parse_decimal_accepts_positive_only_witness :
  of_string "-1" = Some (Fin true 1 0)
  /\ nonpositive (Fin true 1 0)
  /\ TradingBot.parse_decimal of_string "-1"
     = Raise (ArgumentTypeError "Value must be positive")
  /\ TradingBot.main of_string stub_Client_new (stub_exchange [])
       stub_sleep_max (Some "https://testnet") (ArgvMarket "ethusdt" "sell" "-1")
       start
     = (Raise (SystemExit 2), start)
  /\ TradingBot.main of_string stub_Client_new (stub_exchange [])
       stub_sleep_max (Some "https://testnet")
       (ArgvLimit "ethusdt" "sell" "-1" "1800") start
     = (Raise (SystemExit 2), start).
Proof.
  assert (H1 : of_string "-1" = Some (Fin true 1 0)) by reflexivity.
  assert (H2 : nonpositive (Fin true 1 0)) by (vm_compute; discriminate).
  destruct (parse_decimal_accepts_positive_only of_string nat nat
              stub_Client_new (stub_exchange []) stub_sleep_max "-1")
    as (_ & Hneg & _ & Hmain).
  pose proof (Hneg (Fin true 1 0) H1 H2) as H3.
  split; [exact H1|]. split; [exact H2|]. split; [exact H3|].
  destruct (Hmain "Value must be positive" (Some "https://testnet")
              "ethusdt" "sell" "1800" 3 5 start H3)
    as (Hmarket & _ & _ & Hlimit).
  split; [exact Hmarket|].
  apply Hlimit. intros c H. vm_compute in H. discriminate H.
Defined.



End TradingBotFacts.

(* ================================================================== *)
(** ** Facts about the desktop variant *)

Module TradingBotUIFacts.
Import PyStr PyDecimal TradingBotUI Spec PyDecimalFacts.

Local Open Scope list_scope.

Section Facts.

Variable Decimal_new : string -> option Decimal.

Local Abbreviation parse_decimal := (parse_decimal Decimal_new).
Local Abbreviation adjust_quantity := (adjust_quantity Decimal_new).
Local Abbreviation adjust_price := (adjust_price Decimal_new).

(** Rounding [x] down to the increment [inc]: the integer quotient, then
    the product, which is exact when it fits the precision. *)
Lemma floor_to_increment (cx ci : N) (ex ei : Z) (k : N) :
  (cx <> 0)%N -> (ci <> 0)%N ->
  (inject_Z (Z.of_N k) * Qval false ci ei <= Qval false cx ex)%Q ->
  (Qval false cx ex < inject_Z (Z.of_N k + 1) * Qval false ci ei)%Q ->
  (k * ci < pow10 prec)%N ->
  Etiny <= ei <= Etop ->
  result_bind (floordiv (Fin false cx ex) (Fin false ci ei))
    (fun q => mul q (Fin false ci ei))
  = Return (Fin false (k * ci) ei).
Proof.
  intros Hcx Hci Hle Hlt Hfit Hei.
  assert (Hk : (k < pow10 prec)%N) by nia.
  rewrite (floordiv_floor cx ci ex ei k Hcx Hci Hle Hlt Hk).
  cbn [result_bind]. apply mul_fits; assumption.
Qed.

(** C9 (amended).  [adjust_quantity] and [adjust_price] round down, not to
    the nearest increment: for a positive quantity (price) [x] and a
    positive step (tick) [inc], with [k] the integer such that
    [k * inc <= x < (k + 1) * inc], the result is exactly [k * inc], the
    largest multiple of the increment that does not exceed [x], whenever
    that product fits the 28 digits of the decimal context and the
    exponent of the increment is in the context's range. *)
Theorem adjust_rounds_down
    (lot_size price_filter : Filter) (v : string)
    (cx ci : N) (ex ei : Z) (k : N) :
  Decimal_new v = Some (Fin false ci ei) ->
  (cx <> 0)%N -> (ci <> 0)%N ->
  (inject_Z (Z.of_N k) * Qval false ci ei <= Qval false cx ex)%Q ->
  (Qval false cx ex < inject_Z (Z.of_N k + 1) * Qval false ci ei)%Q ->
  (k * ci < pow10 prec)%N ->
  Etiny <= ei <= Etop ->
  (getitem lot_size "stepSize" = Return v ->
   adjust_quantity (Fin false cx ex) lot_size = Return (Fin false (k * ci) ei))
  /\ (getitem price_filter "tickSize" = Return v ->
      adjust_price (Fin false cx ex) price_filter
      = Return (Fin false (k * ci) ei))
  /\ floor_multiple (Qval false ci ei) (Qval false cx ex)
       (Qval false (k * ci) ei).
Proof.
  intros Hv Hcx Hci Hle Hlt Hfit Hei.
  pose proof (floor_to_increment cx ci ex ei k Hcx Hci Hle Hlt Hfit Hei)
    as Hfloor.
  split; [|split].
  - intros Hget. unfold TradingBotUI.adjust_quantity, Decimal_.
    rewrite Hget. cbn [result_bind]. rewrite Hv. cbn [result_bind].
    exact Hfloor.
  - intros Hget. unfold TradingBotUI.adjust_price, Decimal_.
    rewrite Hget. cbn [result_bind]. rewrite Hv. cbn [result_bind].
    exact Hfloor.
  - exists (Z.of_N k). split; [apply Qval_mul|]. split; assumption.
Qed.

(** C10.  The parser of the desktop variant raises exactly when the text
    is not a decimal: whatever [Decimal] accepts is returned as it is,
    zero and negative values included, where the validator of the command
    line raises. *)
Theorem ui_parse_decimal_checks_syntax_only (value : string) :
  ((exists e, parse_decimal value = Raise e) <-> Decimal_new value = None)
  /\ (Decimal_new value = None ->
      parse_decimal value = Raise (ValueError "Invalid number"))
  /\ (forall d, Decimal_new value = Some d -> parse_decimal value = Return d)
  /\ (forall d, Decimal_new value = Some d -> nonpositive d ->
      parse_decimal value = Return d
      /\ TradingBot.parse_decimal Decimal_new value
         = Raise (ArgumentTypeError "Value must be positive")).
Proof.
  unfold TradingBotUI.parse_decimal, TradingBot.parse_decimal.
  destruct (Decimal_new value) as [d|].
  - split; [|split; [|split]].
    + split; [intros [e H]; discriminate H | discriminate].
    + discriminate.
    + intros d' [= <-]. reflexivity.
    + intros d' [= <-] Hn. rewrite (le_zero_nonpositive d Hn).
      split; reflexivity.
  - split; [|split; [|split]].
    + split; [reflexivity | intros _; eexists; reflexivity].
    + reflexivity.
    + discriminate.
    + discriminate.
Qed.

End Facts.

(** *** The properties on concrete inputs *)

Lemma adjust_rounds_down_witness :
  of_string "0.001" = Some (Fin false 1 (-3))
  /\ (inject_Z (Z.of_N 3) * Qval false 1 (-3) <= Qval false 39 (-4))%Q
  /\ (Qval false 39 (-4) < inject_Z (Z.of_N 3 + 1) * Qval false 1 (-3))%Q
  /\ adjust_quantity of_string (Fin false 39 (-4))
       [("filterType", "LOT_SIZE"); ("stepSize", "0.001")]
     = Return (Fin false 3 (-3))
  /\ adjust_price of_string (Fin false 39 (-4))
       [("filterType", "PRICE_FILTER"); ("tickSize", "0.001")]
     = Return (Fin false 3 (-3)).
Proof.
  assert (H1 : of_string "0.001" = Some (Fin false 1 (-3))) by reflexivity.
  assert (H2 : (inject_Z (Z.of_N 3) * Qval false 1 (-3)
                <= Qval false 39 (-4))%Q)
    by (vm_compute; discriminate).
  assert (H3 : (Qval false 39 (-4)
                < inject_Z (Z.of_N 3 + 1) * Qval false 1 (-3))%Q)
    by (vm_compute; reflexivity).
  assert (H4 : (3 * 1 < pow10 prec)%N) by (vm_compute; reflexivity).
  assert (H5 : Etiny <= -3 <= Etop) by (unfold Etiny, Etop, Emin, Emax, prec; lia).
  destruct (adjust_rounds_down of_string
              [("filterType", "LOT_SIZE"); ("stepSize", "0.001")]
              [("filterType", "PRICE_FILTER"); ("tickSize", "0.001")]
              "0.001" 39 1 (-4) (-3) 3 H1
              ltac:(discriminate) ltac:(discriminate) H2 H3 H4 H5)
    as (Hq & Hp & _).
  split; [exact H1|]. split; [exact H2|]. split; [exact H3|].
  split; [exact (Hq eq_refl) | exact (Hp eq_refl)].
Defined.

(** C9, as stated, fails: 0.0039 with the step 0.001 is adjusted to 0.003,
    and 0.004 is a nearer multiple of the step. *)
Lemma adjust_rounds_down_counterexample :
  adjust_quantity of_string (Fin false 39 (-4))
    [("filterType", "LOT_SIZE"); ("stepSize", "0.001")]
  = Return (Fin false 3 (-3))
  /\ ~ nearest_multiple (Qval false 1 (-3)) (Qval false 39 (-4))
        (Qval false 3 (-3)).
Proof.
  split; [reflexivity|].
  intros [_ H]. specialize (H 4). vm_compute in H. apply H. reflexivity.
Qed.

Lemma ui_parse_decimal_checks_syntax_only_witness :
  of_string "-1" = Some (Fin true 1 0)
  /\ nonpositive (Fin true 1 0)
  /\ parse_decimal of_string "-1" = Return (Fin true 1 0)
  /\ TradingBot.parse_decimal of_string "-1"
     = Raise (ArgumentTypeError "Value must be positive")
  /\ parse_decimal of_string "abc" = Raise (ValueError "Invalid number").
Proof.
  assert (H1 : of_string "-1" = Some (Fin true 1 0)) by reflexivity.
  assert (H2 : nonpositive (Fin true 1 0)) by (vm_compute; discriminate).
  destruct (ui_parse_decimal_checks_syntax_only of_string "-1")
    as (_ & _ & _ & Hneg).
  destruct (ui_parse_decimal_checks_syntax_only of_string "abc")
    as (_ & Hbad & _).
  destruct (Hneg (Fin true 1 0) H1 H2) as [H3 H4].
  split; [exact H1|]. split; [exact H2|]. split; [exact H3|].
  split; [exact H4 | exact (Hbad eq_refl)].
Defined.

End TradingBotUIFacts.

(* ================================================================== *)
(** ** More facts about strings: upper case is idempotent *)

Module MoreStrFacts.
Import PyStr.

Lemma upper_char_idem (c : ascii) : upper_char (upper_char c) = upper_char c.
Proof. destruct c as [[] [] [] [] [] [] [] []]; reflexivity. Qed.

Lemma upper_idem (s : string) : upper (upper s) = upper s.
Proof.
  unfold upper. induction s as [|c s IH]; [reflexivity|].
  cbn [map_chars]. now rewrite upper_char_idem, IH.
Qed.

End MoreStrFacts.

(* ================================================================== *)
(** ** More facts about Decimal: a division that comes out even *)

Module MoreDecimalFacts.
Import PyDecimal Spec PyDecimalFacts.

Lemma ndigits_mul_le (a b : N) :
  (a <> 0)%N -> (b <> 0)%N -> ndigits (a * b) <= ndigits a + ndigits b.
Proof.
  intros Ha Hb.
  destruct (ndigits_bounds a Ha) as (Ha1 & _ & Hahi).
  destruct (ndigits_bounds b Hb) as (Hb1 & _ & Hbhi).
  apply ndigits_le; [lia|].
  rewrite N2Z.inj_mul, Z.pow_add_r by lia. nia.
Qed.

Lemma div_eucl_pair (a b : N) : N.div_eucl a b = ((a / b)%N, (a mod b)%N).
Proof.
  unfold N.div, N.modulo. destruct (N.div_eucl a b). reflexivity.
Qed.

(** Stripping the [j] zeros a multiplication by [10^j] added. *)
Lemma strip_zeros_pow10 (k : N) (j : nat) :
  forall x : Z,
    strip_zeros j (k * 10 ^ N.of_nat j)%N x = (k, x + Z.of_nat j).
Proof.
  induction j as [|j IH]; intros x.
  - simpl. rewrite N.mul_1_r, Z.add_0_r. reflexivity.
  - cbn [strip_zeros].
    rewrite Nat2N.inj_succ, N.pow_succ_r'.
    replace (k * (10 * 10 ^ N.of_nat j))%N
      with ((k * 10 ^ N.of_nat j) * 10)%N by lia.
    rewrite N.Div0.mod_mul, N.div_mul by discriminate.
    cbn [N.eqb]. rewrite IH. f_equal. lia.
Qed.

(** A finite number of at most [prec] digits, with its exponent in range,
    is left as it is. *)
Lemma _fix_finite_exact (sg : bool) (k : N) (e : Z) :
  (k <> 0)%N -> ndigits k <= prec -> Etiny <= e -> adjusted k e <= Emax ->
  _fix_finite sg k e = Return (Fin sg k e).
Proof.
  intros Hk Hd He Hadj. unfold _fix_finite, adjusted in *.
  unfold Etiny, Etop, Emin, Emax, prec in *.
  destruct (N.eqb_spec k 0) as [|_]; [contradiction|].
  destruct (Z.ltb_spec (999999 - 28 + 1) (ndigits k + e - 28)); [lia|].
  destruct (Z.ltb_spec (ndigits k + e - 28) (-999999 - 28 + 1));
    match goal with
    | |- context [e <? ?x] => destruct (Z.ltb_spec e x); [lia|reflexivity]
    end.
Qed.

(** A coefficient that is a multiple of the divisor divides exactly. *)
Lemma truediv_exact (sg : bool) (k n : N) (e : Z) :
  (k <> 0)%N -> (n <> 0)%N ->
  ndigits k <= prec -> Etiny <= e -> adjusted k e <= Emax ->
  truediv (Fin sg (k * n) e) (of_int (Z.of_N n)) = Return (Fin sg k e).
Proof.
  intros Hk Hn Hd He Hadj.
  unfold of_int. destruct (Z.ltb_spec (Z.of_N n) 0) as [|_]; [lia|].
  rewrite Zabs2N.id.
  unfold truediv. cbv beta iota delta [_check_nans].
  destruct (N.eqb_spec n 0) as [|_]; [contradiction|].
  destruct (N.eqb_spec (k * n) 0) as [|_]; [lia|].
  rewrite xorb_false_r, !Z.sub_0_r.
  pose proof (ndigits_mul_le k n Hk Hn) as Hmul.
  destruct (ndigits_bounds n Hn) as (Hn1 & _ & _).
  set (shift := ndigits n - ndigits (k * n) + prec + 1).
  assert (Hs : 0 <= shift) by (unfold shift; lia).
  destruct (Z.leb_spec 0 shift) as [_|]; [|lia].
  assert (Hp : pow10 shift = (10 ^ N.of_nat (Z.to_nat shift))%N).
  { unfold pow10. f_equal. lia. }
  rewrite div_eucl_pair.
  replace (k * n * pow10 shift)%N with ((k * pow10 shift) * n)%N by lia.
  rewrite N.Div0.mod_mul, N.div_mul by exact Hn.
  cbn [N.eqb].
  replace (Z.to_nat (e - (e - shift))) with (Z.to_nat shift) by lia.
  rewrite Hp, strip_zeros_pow10.
  replace (e - shift + Z.of_nat (Z.to_nat shift)) with e by lia.
  now apply _fix_finite_exact.
Qed.

Lemma Qval_mul_r (sg : bool) (k n : N) (e : Z) :
  (Qval sg (k * n) e == inject_Z (Z.of_N n) * Qval sg k e)%Q.
Proof.
  unfold Qval. rewrite N2Z.inj_mul, inject_Z_mult. ring.
Qed.

End MoreDecimalFacts.

(* ================================================================== *)
(** ** More facts about the command line bot: [main] end to end *)

Module MoreFacts.
Import PyStr PyDecimal TradingBot Spec Observed PyStrFacts PyDecimalFacts.
Import TradingBotFacts MoreStrFacts MoreDecimalFacts.
Local Open Scope list_scope.

Lemma validate_side_returns (s s2 : string) :
  validate_side s = Return s2 ->
  upper (strip s) = s2 /\ (s2 = "BUY" \/ s2 = "SELL").
Proof.
  unfold validate_side.
  destruct (String.eqb_spec (upper (strip s)) "BUY") as [->|_].
  - intros [= <-]. split; [reflexivity | now left].
  - destruct (String.eqb_spec (upper (strip s)) "SELL") as [->|_].
    + intros [= <-]. split; [reflexivity | now right].
    + discriminate.
Qed.

(** X1.  What [validate_side] returns is one of the two strings BUY and
    SELL, and validating it again returns it unchanged. *)
Theorem validate_side_fixed_point (s s2 : string) :
  validate_side s = Return s2 ->
  (s2 = "BUY" \/ s2 = "SELL") /\ validate_side s2 = Return s2.
Proof.
  intros H. destruct (validate_side_returns _ _ H) as [_ [-> | ->]];
    (split; [auto | reflexivity]).
Qed.

Section Facts.

Variable Decimal_new : string -> option Decimal.
Variable World : Type.
Variable Resp : Type.
Variable Client_new : World -> option string * World.
Variable futures_create_order : OrderArgs -> World -> reply Resp * World.
Variable sleep_max : Z.

Local Abbreviation market := (market futures_create_order).
Local Abbreviation limit := (limit futures_create_order).
Local Abbreviation twap_loop := (twap_loop futures_create_order sleep_max).
Local Abbreviation twap := (twap futures_create_order sleep_max).
Local Abbreviation submit_all := (submit_all futures_create_order).
Local Abbreviation State := (State World Resp).
Local Abbreviation parse_decimal := (parse_decimal Decimal_new).
Local Abbreviation parse_args := (parse_args Decimal_new).
Local Abbreviation main :=
  (main Decimal_new Client_new futures_create_order sleep_max).

Implicit Types st : State.


(** [main] from the dispatch on, once the command line is accepted and
    the client is built. *)
Lemma main_accepted url argv ns st w0 :
  parse_args argv = Return ns ->
  Client_new (world st) = (None, w0) ->
  main (Some url) argv st
  = let st0 := {| world := w0;
                  trace := trace st ++ [EvLog INFO (LogInitialized url)] |} in
    match ns with
    | NsMarket symbol side quantity =>
        bind (market symbol side quantity) (fun r => print (OutResult r)) st0
    | NsLimit symbol side quantity price =>
        bind (limit symbol side quantity price)
          (fun r => print (OutResult r)) st0
    | NsTwap symbol side quantity parts interval =>
        bind (twap symbol side quantity parts interval)
          (fun o => print (OutTwap o)) st0
    end.
Proof.
  intros Hargs Hw. unfold TradingBot.main, bind at 1, lift. rewrite Hargs.
  unfold bind at 1, FuturesBot_init, bind at 1, new_Client. rewrite Hw.
  unfold logger_info, emit. cbn [world trace]. destruct ns; reflexivity.
Qed.

Lemma positive_not_snan (d : Decimal) : positive d -> is_snan d = false.
Proof.
  destruct d as [| |sg [] p]; simpl; intros H; try reflexivity. destruct H.
Qed.

Lemma parse_decimal_positive value d :
  parse_decimal value = Return d -> positive d.
Proof.
  unfold TradingBot.parse_decimal.
  destruct (Decimal_new value) as [d'|]; [|discriminate].
  destruct (le_zero d') as [[]|] eqn:Hle; try discriminate.
  intros [= <-]. now apply le_zero_false_positive.
Qed.

(** X3.  The command [market], end to end.  With a side and a quantity
    that validation accepts, a base URL and a client that can be built,
    [main] logs the initialization, submits one MARKET order for the
    symbol in upper case, the validated side and the quantity, logs the
    reply and prints the result (the acknowledgment, or the error of a
    failed order), and returns normally in both cases. *)
Theorem main_market_returns url symbol side quantity s q st w0 :
  validate_side side = Return s ->
  parse_decimal quantity = Return q ->
  Client_new (world st) = (None, w0) ->
  exists r w,
    futures_create_order (market_order symbol s q) w0 = (r, w)
    /\ main (Some url) (ArgvMarket symbol side quantity) st
       = (Return tt,
          {| world := w;
             trace := trace st ++
               [EvLog INFO (LogInitialized url);
                EvOrder (market_order symbol s q);
                market_log s q symbol r;
                EvPrint (OutResult (result_of r))] |}).
Proof.
  intros Hs Hq Hw.
  rewrite (main_accepted url _ (NsMarket symbol s q) st w0);
    [|unfold TradingBot.parse_args; rewrite Hs, Hq; reflexivity | exact Hw].
  cbv zeta. unfold bind.
  rewrite (market_run World Resp futures_create_order symbol s q _
             (positive_not_snan q (parse_decimal_positive _ _ Hq))).
  cbn [world trace].
  destruct (futures_create_order (market_order symbol s q) w0) as [r w].
  exists r, w. split; [reflexivity|].
  unfold print, emit. cbn [world trace]. rewrite <- !app_assoc. reflexivity.
Qed.

(** X4.  The command [limit], end to end.  The price goes through the
    same validation as the quantity: a price that is refused ends the
    program with exit status 2 before anything happens; with an accepted
    one [main] submits one LIMIT order, good till cancelled, for the
    validated side, quantity and price, logs the reply and prints the
    result. *)
Theorem main_limit_checks_price url symbol side quantity price s q st :
  validate_side side = Return s ->
  parse_decimal quantity = Return q ->
  (forall msg,
      parse_decimal price = Raise (ArgumentTypeError msg) ->
      main (Some url) (ArgvLimit symbol side quantity price) st
      = (Raise (SystemExit 2), st))
  /\ (forall p w0,
        parse_decimal price = Return p ->
        Client_new (world st) = (None, w0) ->
        exists r w,
          futures_create_order (limit_order symbol s q p) w0 = (r, w)
          /\ main (Some url) (ArgvLimit symbol side quantity price) st
             = (Return tt,
                {| world := w;
                   trace := trace st ++
                     [EvLog INFO (LogInitialized url);
                      EvOrder (limit_order symbol s q p);
                      limit_log s q p symbol r;
                      EvPrint (OutResult (result_of r))] |})).
Proof.
  intros Hs Hq. split.
  - intros msg Hp. apply main_refused.
    unfold TradingBot.parse_args. rewrite Hs, Hq, Hp. reflexivity.
  - intros p w0 Hp Hw.
    rewrite (main_accepted url _ (NsLimit symbol s q p) st w0);
      [|unfold TradingBot.parse_args; rewrite Hs, Hq, Hp; reflexivity
       | exact Hw].
    cbv zeta. unfold bind.
    rewrite (limit_run World Resp futures_create_order symbol s q p _
               (positive_not_snan q (parse_decimal_positive _ _ Hq))).
    cbn [world trace].
    destruct (futures_create_order (limit_order symbol s q p) w0) as [r w].
    exists r, w. split; [reflexivity|].
    unfold print, emit. cbn [world trace]. rewrite <- !app_assoc. reflexivity.
Qed.

Lemma main_client_fails base_url argv ns st w0 descr :
  parse_args argv = Return ns ->
  Client_new (world st) = (Some descr, w0) ->
  main base_url argv st
  = (Raise (ClientError descr), {| world := w0; trace := trace st |}).
Proof.
  intros Hargs Hw. unfold TradingBot.main, bind at 1, lift. rewrite Hargs.
  unfold bind at 1, FuturesBot_init, bind at 1, new_Client. rewrite Hw.
  reflexivity.
Qed.

Lemma main_no_base_url argv ns st w0 :
  parse_args argv = Return ns ->
  Client_new (world st) = (None, w0) ->
  exists msg,
    main None argv st
    = (Raise (TypeError msg), {| world := w0; trace := trace st |}).
Proof.
  intros Hargs Hw. unfold TradingBot.main, bind at 1, lift. rewrite Hargs.
  unfold bind at 1, FuturesBot_init, bind at 1, new_Client. rewrite Hw.
  unfold raise. eexists. reflexivity.
Qed.

(** X5.  The bot is built after the command line is accepted and before
    any order, and building it is not guarded.  When the client library
    fails to build the client, its exception leaves [main]; when no base
    URL is given (no [--base-url] and no BASE_URL in the environment),
    the client is built and the concatenation [base_url + "/fapi"]
    raises TypeError.  In both cases nothing is logged, submitted or
    printed. *)
Theorem main_without_client base_url argv ns st w0 :
  parse_args argv = Return ns ->
  (forall descr,
      Client_new (world st) = (Some descr, w0) ->
      main base_url argv st
      = (Raise (ClientError descr), {| world := w0; trace := trace st |}))
  /\ (Client_new (world st) = (None, w0) ->
      base_url = None ->
      exists msg,
        main base_url argv st
        = (Raise (TypeError msg), {| world := w0; trace := trace st |})).
Proof.
  intros Hargs. split.
  - intros descr Hw. now apply (main_client_fails base_url argv ns).
  - intros Hw ->. now apply (main_no_base_url argv ns).
Qed.

(** X6.  A quantity that is a NaN is not refused with a usage error.
    [Decimal] accepts the text, the comparison [d <= 0] in
    [parse_decimal] raises InvalidOperation, which is no
    ArgumentTypeError: with a valid side it leaves [parse_args] and
    [main] as it is, before the bot is built, for the commands market
    and twap, and for the command limit when the price is not one that
    is refused with a usage error (such a price, standing before the
    quantity on the command line, ends the program with exit status 2
    first). *)
Theorem main_nan_quantity base_url symbol side quantity price parts interval
    s sg signaling payload st :
  validate_side side = Return s ->
  Decimal_new quantity = Some (NaN sg signaling payload) ->
  main base_url (ArgvMarket symbol side quantity) st
  = (Raise (InvalidOperation "InvalidOperation"), st)
  /\ main base_url (ArgvTwap symbol side quantity parts interval) st
     = (Raise (InvalidOperation "InvalidOperation"), st)
  /\ ((forall msg, parse_decimal price <> Raise (ArgumentTypeError msg)) ->
      main base_url (ArgvLimit symbol side quantity price) st
      = (Raise (InvalidOperation "InvalidOperation"), st)).
Proof.
  intros Hs Hq.
  assert (Hp : parse_decimal quantity
               = Raise (InvalidOperation "InvalidOperation")).
  { unfold TradingBot.parse_decimal. rewrite Hq. reflexivity. }
  split; [|split; [|intros _]]; apply main_refused;
    unfold TradingBot.parse_args; rewrite Hs, Hp; reflexivity.
Qed.

(** X7.  The command [twap] with a negative number of parts succeeds
    with nothing done: the count is not validated, the division returns,
    the loop body never runs, and [main] prints an outcome with an empty
    list of results after the initialization is logged.  No order is
    submitted. *)
Theorem main_twap_negative_parts
    url symbol side quantity parts interval s q piece st w0 :
  validate_side side = Return s ->
  parse_decimal quantity = Return q ->
  parts < 0 ->
  truediv q (of_int parts) = Return piece ->
  Client_new (world st) = (None, w0) ->
  main (Some url) (ArgvTwap symbol side quantity parts interval) st
  = (Return tt,
     {| world := w0;
        trace := trace st ++
          [EvLog INFO (LogInitialized url);
           EvPrint (OutTwap {| twap_results := [] |})] |}).
Proof.
  intros Hs Hq Hparts Hdiv Hw.
  rewrite (main_accepted url _ (NsTwap symbol s q parts interval) st w0);
    [|unfold TradingBot.parse_args; rewrite Hs, Hq; reflexivity | exact Hw].
  cbv zeta. unfold bind at 1, TradingBot.twap, bind at 1, lift.
  rewrite Hdiv. unfold range. replace (Z.to_nat parts) with 0%nat by lia.
  cbn [seq map TradingBot.twap_loop]. unfold bind, ret, print, emit.
  cbn [world trace]. rewrite <- app_assoc. reflexivity.
Qed.

(** X8.  The two order methods log every call exactly once: [market]
    and [limit] return normally, having logged one record, at level INFO
    when the result is the acknowledgment and at level ERROR when it is
    an error, and having submitted at most one order. *)
Theorem gateway_logs_once symbol side qty price st :
  (exists r st' tr,
      market symbol side qty st = (Return r, st')
      /\ trace st' = trace st ++ tr
      /\ logs_of tr = [level_of r]
      /\ (List.length (orders_of tr) <= 1)%nat)
  /\ (exists r st' tr,
        limit symbol side qty price st = (Return r, st')
        /\ trace st' = trace st ++ tr
        /\ logs_of tr = [level_of r]
        /\ (List.length (orders_of tr) <= 1)%nat).
Proof.
  destruct (is_snan qty) eqn:Hq.
  - rewrite (market_snan World Resp futures_create_order symbol side qty st Hq),
      (limit_snan World Resp futures_create_order symbol side qty price st Hq).
    split; do 3 eexists; (split; [reflexivity|]); cbn [trace];
      (split; [reflexivity|]); (split; [reflexivity | simpl; lia]).
  - rewrite (market_run World Resp futures_create_order symbol side qty st Hq),
      (limit_run World Resp futures_create_order symbol side qty price st Hq).
    destruct (futures_create_order (market_order _ _ _) _) as [[rm|dm] wm];
      destruct (futures_create_order (limit_order _ _ _ _) _) as [[rl|dl] wl];
      split; do 3 eexists; (split; [reflexivity|]); cbn [trace];
      (split; [reflexivity|]); (split; [reflexivity | simpl; lia]).
Qed.

(** Every order of a run of [twap], whatever becomes of the run, is a
    market order for the symbol and the side it was given. *)
Lemma twap_orders symbol side total parts interval st r st' :
  twap symbol side total parts interval st = (r, st') ->
  exists tr,
    trace st' = trace st ++ tr
    /\ forall args, In args (orders_of tr) ->
                    exists piece, args = market_order symbol side piece.
Proof.
  unfold TradingBot.twap, bind at 1, lift.
  destruct (truediv total (of_int parts)) as [piece|e] eqn:Hdiv.
  - unfold bind.
    destruct (twap_loop symbol side piece parts interval (range parts) [] st)
      as [r1 st1] eqn:Hloop.
    apply (twap_loop_orders World Resp futures_create_order sleep_max
             symbol side piece parts interval
             (truediv_not_snan _ _ _ Hdiv)) in Hloop.
    destruct Hloop as (tr & Htr & Hall).
    intros Hrun. exists tr.
    assert (st' = st1) as -> by (destruct r1; inversion Hrun; reflexivity).
    split; [exact Htr|]. intros args Hin. exists piece. now apply Hall.
  - intros [= <- <-]. exists []. rewrite app_nil_r. split; [reflexivity|].
    intros args [].
Qed.

Lemma argparse_bind_inv {A B} (x : result A) (k : A -> result B) (b : B) :
  result_bind (argparse_type x) k = Return b ->
  exists a, x = Return a /\ k a = Return b.
Proof.
  destruct x as [a|[]]; cbn; try discriminate. eauto.
Qed.

Lemma normalized_market_order symbol side s q :
  validate_side side = Return s -> normalized_order (market_order symbol s q).
Proof.
  intros Hs. destruct (validate_side_returns _ _ Hs) as [_ Hside].
  repeat split; [exact Hside | apply upper_idem | now left].
Qed.

Lemma normalized_limit_order symbol side s q p :
  validate_side side = Return s -> normalized_order (limit_order symbol s q p).
Proof.
  intros Hs. destruct (validate_side_returns _ _ Hs) as [_ Hside].
  repeat split; [exact Hside | apply upper_idem | now right].
Qed.

(** X9.  Whatever the command line and however the run ends, every
    order [main] submits is normalized: its side is BUY or SELL, its
    symbol is in upper case, its type is MARKET or LIMIT. *)
Theorem main_orders_are_normalized base_url argv st r st' :
  main base_url argv st = (r, st') ->
  exists tr,
    trace st' = trace st ++ tr
    /\ forall args, In args (orders_of tr) -> normalized_order args.
Proof.
  assert (Hnone : forall e, (r, st') = (Raise e, st) ->
            exists tr, trace st' = trace st ++ tr
              /\ forall args, In args (orders_of tr) ->
                              normalized_order args).
  { intros e [= -> ->]. exists []. rewrite app_nil_r.
    split; [reflexivity | intros args []]. }
  destruct (parse_args argv) as [ns|e] eqn:Hargs;
    [|rewrite (main_refused _ _ _ _ _ _ _ _ _ _ Hargs); intros H;
      symmetry in H; eauto].
  destruct (Client_new (world st)) as [[descr|] w0] eqn:Hw.
  { rewrite (main_client_fails base_url argv ns st w0 descr Hargs Hw).
    intros [= <- <-]. exists [].
    rewrite app_nil_r. split; [reflexivity | intros args []]. }
  destruct base_url as [url|].
  2:{ destruct (main_no_base_url argv ns st w0 Hargs Hw) as [msg ->].
      intros [= <- <-]. exists [].
      rewrite app_nil_r. split; [reflexivity | intros args []]. }
  rewrite (main_accepted url argv ns st w0 Hargs Hw). cbv zeta.
  unfold TradingBot.parse_args in Hargs.
  destruct argv as [symbol side quantity | symbol side quantity price
                   | symbol side quantity parts interval].
  - apply argparse_bind_inv in Hargs. destruct Hargs as (s & Hs & Hargs).
    apply argparse_bind_inv in Hargs. destruct Hargs as (q & Hq & Hargs).
    inversion Hargs; subst ns. unfold bind.
    pose proof (parse_decimal_positive _ _ Hq) as Hpos.
    rewrite (market_run World Resp futures_create_order symbol s q _
               (positive_not_snan q Hpos)).
    cbn [world trace].
    destruct (futures_create_order (market_order symbol s q) w0) as [rep w].
    unfold print, emit. cbn [world trace]. intros [= <- <-]. cbn [trace].
    eexists. rewrite <- !app_assoc. split; [reflexivity|].
    rewrite (orders_of_app Resp [_]), (orders_of_step Resp).
    intros args [<-|[]]. now apply (normalized_market_order symbol side).
  - apply argparse_bind_inv in Hargs. destruct Hargs as (s & Hs & Hargs).
    apply argparse_bind_inv in Hargs. destruct Hargs as (q & Hq & Hargs).
    apply argparse_bind_inv in Hargs. destruct Hargs as (p & Hp & Hargs).
    inversion Hargs; subst ns. unfold bind.
    pose proof (parse_decimal_positive _ _ Hq) as Hpos.
    rewrite (limit_run World Resp futures_create_order symbol s q p _
               (positive_not_snan q Hpos)).
    cbn [world trace].
    destruct (futures_create_order (limit_order symbol s q p) w0) as [rep w].
    unfold print, emit. cbn [world trace]. intros [= <- <-]. cbn [trace].
    eexists. rewrite <- !app_assoc. split; [reflexivity|].
    assert (Ho : orders_of
                   ([EvLog INFO (LogInitialized url)] ++
                    [EvOrder (limit_order symbol s q p);
                     limit_log s q p symbol rep] ++
                    [EvPrint (OutResult (result_of rep))])
                 = [limit_order symbol s q p]) by (destruct rep; reflexivity).
    rewrite Ho.
    intros args [<-|[]]. now apply (normalized_limit_order symbol side).
  - apply argparse_bind_inv in Hargs. destruct Hargs as (s & Hs & Hargs).
    apply argparse_bind_inv in Hargs. destruct Hargs as (q & Hq & Hargs).
    inversion Hargs; subst ns. unfold bind.
    destruct (twap symbol s q parts interval _) as [r1 st1] eqn:Hrun.
    apply twap_orders in Hrun. cbn [trace] in Hrun.
    destruct Hrun as (tr & Htr & Hall).
    assert (Hnorm : forall args, In args (orders_of tr) ->
                                 normalized_order args).
    { intros args Hin. destruct (Hall args Hin) as [piece ->].
      now apply (normalized_market_order symbol side). }
    destruct r1 as [o|e].
    + unfold print, emit. intros [= <- <-]. cbn [trace]. rewrite Htr.
      eexists. rewrite <- !app_assoc. split; [reflexivity|].
      intros args. rewrite !orders_of_app. simpl. rewrite app_nil_r.
      apply Hnorm.
    + intros [= <- <-]. rewrite Htr.
      eexists. rewrite <- !app_assoc. split; [reflexivity|].
      intros args. rewrite !orders_of_app. simpl. apply Hnorm.
Qed.

(** X10.  A total that divides evenly is split without loss.  For the
    total [k * n] (times a power of ten) in [n >= 1] parts, with [k] of
    at most 28 digits and in the exponent range, and an interval
    [time.sleep] accepts, [twap] returns, every one of the [n] orders is
    for the piece [k] exactly, and the pieces sum to the total. *)
Theorem twap_even_split symbol side sg k n e interval st :
  (k <> 0)%N -> (n <> 0)%N ->
  ndigits k <= prec -> Etiny <= e -> adjusted k e <= Emax ->
  0 <= interval <= sleep_max ->
  exists out st' tr,
    twap symbol side (Fin sg (k * n) e) (Z.of_N n) interval st
    = (Return out, st')
    /\ trace st' = trace st ++ tr
    /\ map piece_of (orders_of tr) = repeat (Fin sg k e) (N.to_nat n)
    /\ (Qsum (map piece_of (orders_of tr)) == Qval sg (k * n) e)%Q.
Proof.
  intros Hk Hn Hd He Hadj Hi.
  pose proof (truediv_exact sg k n e Hk Hn Hd He Hadj) as Hdiv.
  rewrite (twap_run World Resp futures_create_order sleep_max
             symbol side _ (Z.of_N n) interval (Fin sg k e) st)
    by (auto; lia).
  pose proof (submit_all_length World Resp futures_create_order
                (market_order symbol side (Fin sg k e))
                (Z.to_nat (Z.of_N n)) (world st)) as Hlen.
  destruct (submit_all _ _ _) as [rs w]. cbn [fst] in Hlen.
  do 3 eexists. split; [reflexivity|]. cbn [trace]. split; [reflexivity|].
  assert (Hpieces :
    map piece_of
      (orders_of (run_events (market_order symbol side (Fin sg k e))
                    (market_log side (Fin sg k e) symbol) interval rs))
    = repeat (Fin sg k e) (N.to_nat n)).
  { rewrite orders_of_run_events, Hlen, map_repeat;
      [|intros r; apply market_log_is_log].
    f_equal. lia. }
  split; [exact Hpieces|].
  rewrite Hpieces, Qsum_repeat, Qval_mul_r, N_nat_Z. reflexivity.
Qed.

End Facts.

(** *** The properties on concrete inputs *)

Lemma validate_side_fixed_point_witness :
  validate_side " sell " = Return "SELL"
  /\ ("SELL" = "BUY" \/ "SELL" = "SELL")
  /\ validate_side "SELL" = Return "SELL".
Proof.
  assert (H : validate_side " sell " = Return "SELL") by reflexivity.
  split; [exact H|].
  exact (validate_side_fixed_point " sell " "SELL" H).
Defined.


Lemma main_market_returns_witness :
  exists r w,
    stub_exchange [] (market_order "btcusdt" "BUY" (Fin false 1 (-2))) 0%nat
    = (r, w)
    /\ main of_string stub_Client_new (stub_exchange []) stub_sleep_max
         (Some "https://testnet.binancefuture.com")
         (ArgvMarket "btcusdt" "buy" "0.01") start
       = (Return tt,
          {| world := w;
             trace := trace start ++
               [EvLog INFO (LogInitialized "https://testnet.binancefuture.com");
                EvOrder (market_order "btcusdt" "BUY" (Fin false 1 (-2)));
                market_log "BUY" (Fin false 1 (-2)) "btcusdt" r;
                EvPrint (OutResult (result_of r))] |}).
Proof.
  apply (main_market_returns of_string nat nat stub_Client_new
           (stub_exchange []) stub_sleep_max
           "https://testnet.binancefuture.com" "btcusdt" "buy" "0.01" "BUY"
           (Fin false 1 (-2)) start 0%nat); reflexivity.
Defined.

Lemma main_limit_checks_price_witness :
  main of_string stub_Client_new (stub_exchange []) stub_sleep_max
    (Some "https://testnet.binancefuture.com")
    (ArgvLimit "btcusdt" "buy" "0.01" "-5") start
  = (Raise (SystemExit 2), start)
  /\ exists r w,
       stub_exchange []
         (limit_order "btcusdt" "BUY" (Fin false 1 (-2)) (Fin false 25000 0))
         0%nat = (r, w)
       /\ main of_string stub_Client_new (stub_exchange []) stub_sleep_max
            (Some "https://testnet.binancefuture.com")
            (ArgvLimit "btcusdt" "buy" "0.01" "25000") start
          = (Return tt,
             {| world := w;
                trace := trace start ++
                  [EvLog INFO
                     (LogInitialized "https://testnet.binancefuture.com");
                   EvOrder (limit_order "btcusdt" "BUY" (Fin false 1 (-2))
                              (Fin false 25000 0));
                   limit_log "BUY" (Fin false 1 (-2)) (Fin false 25000 0)
                     "btcusdt" r;
                   EvPrint (OutResult (result_of r))] |}).
Proof.
  split.
  - apply (main_limit_checks_price of_string nat nat stub_Client_new
             (stub_exchange []) stub_sleep_max
             "https://testnet.binancefuture.com" "btcusdt" "buy" "0.01" "-5"
             "BUY" (Fin false 1 (-2)) start eq_refl eq_refl)
      with (msg := "Value must be positive"%string).
    reflexivity.
  - apply (main_limit_checks_price of_string nat nat stub_Client_new
             (stub_exchange []) stub_sleep_max
             "https://testnet.binancefuture.com" "btcusdt" "buy" "0.01"
             "25000" "BUY" (Fin false 1 (-2)) start eq_refl eq_refl);
      reflexivity.
Defined.

Lemma main_without_client_witness :
  main of_string (fun w : nat => (Some "no API key", w)) (stub_exchange [])
    stub_sleep_max (Some "https://testnet.binancefuture.com")
    (ArgvMarket "btcusdt" "buy" "0.01") start
  = (Raise (ClientError "no API key"), {| world := 0%nat; trace := [] |})
  /\ exists msg,
       main of_string stub_Client_new (stub_exchange []) stub_sleep_max
         None (ArgvMarket "btcusdt" "buy" "0.01") start
       = (Raise (TypeError msg), {| world := 0%nat; trace := [] |}).
Proof.
  split.
  - apply (main_without_client of_string nat nat
             (fun w : nat => (Some "no API key"%string, w)) (stub_exchange [])
             stub_sleep_max (Some "https://testnet.binancefuture.com"%string)
             (ArgvMarket "btcusdt" "buy" "0.01")
             (NsMarket "btcusdt" "BUY" (Fin false 1 (-2))) start 0%nat
             eq_refl).
    reflexivity.
  - apply (main_without_client of_string nat nat stub_Client_new
             (stub_exchange []) stub_sleep_max None
             (ArgvMarket "btcusdt" "buy" "0.01")
             (NsMarket "btcusdt" "BUY" (Fin false 1 (-2))) start 0%nat
             eq_refl); reflexivity.
Defined.

Lemma main_nan_quantity_witness :
  of_string "NaN" = Some (NaN false false 0)
  /\ main of_string stub_Client_new (stub_exchange []) stub_sleep_max
       (Some "https://testnet.binancefuture.com")
       (ArgvMarket "btcusdt" "buy" "NaN") start
     = (Raise (InvalidOperation "InvalidOperation"), start)
  /\ main of_string stub_Client_new (stub_exchange []) stub_sleep_max
       (Some "https://testnet.binancefuture.com")
       (ArgvTwap "btcusdt" "buy" "NaN" 3 5) start
     = (Raise (InvalidOperation "InvalidOperation"), start)
  /\ main of_string stub_Client_new (stub_exchange []) stub_sleep_max
       (Some "https://testnet.binancefuture.com")
       (ArgvLimit "btcusdt" "buy" "NaN" "25000") start
     = (Raise (InvalidOperation "InvalidOperation"), start).
Proof.
  assert (H : of_string "NaN" = Some (NaN false false 0)) by reflexivity.
  split; [exact H|].
  destruct (main_nan_quantity of_string nat nat stub_Client_new
              (stub_exchange []) stub_sleep_max
              (Some "https://testnet.binancefuture.com"%string)
              "btcusdt" "buy" "NaN" "25000" 3 5 "BUY" false false 0%N start
              eq_refl H) as (Hmarket & Htwap & Hlimit).
  split; [exact Hmarket|]. split; [exact Htwap|].
  apply Hlimit. intros msg Hp. vm_compute in Hp. discriminate Hp.
Defined.

Lemma main_twap_negative_parts_witness :
  truediv (Fin false 9 (-3)) (of_int (-3)) = Return (Fin true 3 (-3))
  /\ main of_string stub_Client_new (stub_exchange []) stub_sleep_max
       (Some "https://testnet.binancefuture.com")
       (ArgvTwap "btcusdt" "buy" "0.009" (-3) 5) start
     = (Return tt,
        {| world := 0%nat;
           trace := trace start ++
             [EvLog INFO (LogInitialized "https://testnet.binancefuture.com");
              EvPrint (OutTwap {| twap_results := [] |})] |}).
Proof.
  assert (H : truediv (Fin false 9 (-3)) (of_int (-3))
              = Return (Fin true 3 (-3))) by reflexivity.
  split; [exact H|].
  apply (main_twap_negative_parts of_string nat nat stub_Client_new
           (stub_exchange []) stub_sleep_max
           "https://testnet.binancefuture.com" "btcusdt" "buy" "0.009"
           (-3) 5 "BUY" (Fin false 9 (-3)) (Fin true 3 (-3)) start 0%nat);
    [reflexivity | reflexivity | lia | exact H | reflexivity].
Defined.

Lemma main_orders_are_normalized_witness :
  exists tr,
    trace (snd (main of_string stub_Client_new (stub_exchange [])
                  stub_sleep_max (Some "https://testnet.binancefuture.com")
                  (ArgvMarket "btcusdt" " buy " "0.01") start))
    = trace start ++ tr
    /\ forall args, In args (orders_of tr) -> normalized_order args.
Proof.
  apply (main_orders_are_normalized of_string nat nat stub_Client_new
           (stub_exchange []) stub_sleep_max
           (Some "https://testnet.binancefuture.com"%string)
           (ArgvMarket "btcusdt" " buy " "0.01") start (Return tt)).
  reflexivity.
Defined.

Lemma twap_even_split_witness :
  exists out st' tr,
    twap (stub_exchange []) stub_sleep_max
      "BTCUSDT" "BUY" (Fin false (3 * 3) (-3)) (Z.of_N 3) 5 start
    = (Return out, st')
    /\ trace st' = trace start ++ tr
    /\ map piece_of (orders_of tr) = repeat (Fin false 3 (-3)) (N.to_nat 3)
    /\ (Qsum (map piece_of (orders_of tr)) == Qval false (3 * 3) (-3))%Q.
Proof.
  apply (twap_even_split nat nat (stub_exchange []) stub_sleep_max
           "BTCUSDT" "BUY" false 3%N 3%N (-3) 5 start);
    [discriminate | discriminate | vm_compute; discriminate
     | vm_compute; discriminate | vm_compute; discriminate
     | unfold stub_sleep_max; lia].
Defined.

End MoreFacts.

(* ================================================================== *)
(** ** More facts about Decimal: what an operation can raise *)

Module DecimalRaises.
Import PyDecimal Observed.

Lemma _fix_finite_raises (s : bool) (c : N) (e : Z) (x : exn) :
  _fix_finite s c e = Raise x -> x = Overflow.
Proof.
  unfold _fix_finite.
  destruct (c =? 0)%N; [discriminate|].
  destruct (Etop <? _); [intros [= <-]; reflexivity|].
  destruct (e <? _); [|discriminate].
  destruct (if _ <? 0 then _ else _) as [c1 e1].
  destruct (if prec <? _ then _ else _) as [c2 e2].
  destruct (Etop <? e2); [intros [= <-]; reflexivity | discriminate].
Qed.

Lemma decimal_signal_is_Exception (x : exn) :
  decimal_signal x -> is_Exception x = true.
Proof. intros [[c ->]|[->| ->]]; reflexivity. Qed.

Ltac signal :=
  match goal with
  | |- Raise (InvalidOperation _) = Raise _ -> _ =>
      intros [= <-]; left; eexists; reflexivity
  | |- Raise DivisionByZero = Raise _ -> _ =>
      intros [= <-]; right; left; reflexivity
  | |- Raise Overflow = Raise _ -> _ =>
      intros [= <-]; right; right; reflexivity
  | |- _fix_finite _ _ _ = Raise _ -> _ =>
      let H := fresh in
      intros H; apply _fix_finite_raises in H; right; right; exact H
  | |- Return _ = Raise _ -> _ => discriminate
  end.

Lemma truediv_raises (a b : Decimal) (x : exn) :
  truediv a b = Raise x -> decimal_signal x.
Proof.
  unfold truediv.
  destruct a as [sa ca ea | sa | sa [] pa], b as [sb cb eb | sb | sb [] pb];
    cbv beta iota delta [_check_nans]; try signal.
  destruct (cb =? 0)%N; [destruct (ca =? 0)%N; signal|].
  destruct (ca =? 0)%N; [signal|].
  destruct (if 0 <=? _ then _ else _) as [coeff rem].
  destruct (rem =? 0)%N; [|signal].
  destruct (strip_zeros _ _ _) as [c' e']. signal.
Qed.

Lemma floordiv_raises (a b : Decimal) (x : exn) :
  floordiv a b = Raise x -> decimal_signal x.
Proof.
  unfold floordiv.
  destruct a as [sa ca ea | sa | sa [] pa], b as [sb cb eb | sb | sb [] pb];
    cbv beta iota delta [_check_nans]; try signal.
  destruct (cb =? 0)%N; [destruct (ca =? 0)%N; signal|].
  unfold _divide.
  destruct (_ || _); [signal|].
  destruct (_ <=? prec); [|signal].
  destruct (if eb <=? ea then _ else _) as [i1 i2].
  destruct (_ <? _)%N; signal.
Qed.

Lemma mul_raises (a b : Decimal) (x : exn) :
  mul a b = Raise x -> decimal_signal x.
Proof.
  unfold mul.
  destruct a as [sa ca ea | sa | sa [] pa], b as [sb cb eb | sb | sb [] pb];
    cbv beta iota delta [_check_nans]; try signal.
  - destruct (ca =? 0)%N; signal.
  - destruct (cb =? 0)%N; signal.
Qed.

Lemma mul_not_snan (a b d : Decimal) :
  mul a b = Return d -> is_snan d = false.
Proof.
  unfold mul.
  destruct a as [sa ca ea | sa | sa [] pa], b as [sb cb eb | sb | sb [] pb];
    cbv beta iota delta [_check_nans];
    try discriminate;
    try (intros [= <-]; reflexivity);
    try apply PyDecimalFacts._fix_finite_not_snan.
  - destruct (ca =? 0)%N; [discriminate | intros [= <-]; reflexivity].
  - destruct (cb =? 0)%N; [discriminate | intros [= <-]; reflexivity].
Qed.

End DecimalRaises.

(* ================================================================== *)
(** ** Facts about the order functions of the desktop variant *)

Module TradingBotGUIFacts.
Import PyStr PyDecimal TradingBotUI TradingBotGUI Spec Observed ObservedGUI.
Import PyDecimalFacts TradingBotUIFacts MoreStrFacts DecimalRaises.

Local Open Scope list_scope.

(** *** Looking a filter up *)

Lemma next_filter_done (filters : list Filter) (ty : string) (f : Filter) :
  next_filter filters ty = Done f -> first_of_type filters ty f.
Proof.
  induction filters as [|g rest IH]; [discriminate|].
  cbn [next_filter].
  destruct (getitem g "filterType") as [t|e] eqn:Hg; [|discriminate].
  destruct (String.eqb_spec t ty) as [->|Hne].
  - intros [= <-]. exists [], rest. repeat split; [exact Hg | intros ? []].
  - intros H. destruct (IH H) as (before & after & -> & Hf & Hb).
    exists (g :: before), after. repeat split; [exact Hf|].
    intros h [<-|Hin]; [eauto | now apply Hb].
Qed.

Lemma next_filter_exhausted (filters : list Filter) (ty : string) :
  (forall g, In g filters ->
             exists t, getitem g "filterType" = Return t /\ t <> ty) ->
  next_filter filters ty = Thrown StopIteration.
Proof.
  induction filters as [|g rest IH]; intros H; [reflexivity|].
  cbn [next_filter].
  destruct (H g (or_introl eq_refl)) as (t & -> & Hne).
  destruct (String.eqb_spec t ty); [contradiction|].
  apply IH. intros h Hin. apply H. now right.
Qed.

Lemma getitem_raises (d : Filter) (key : string) (e : exn) :
  getitem d key = Raise e -> e = KeyError key.
Proof.
  induction d as [|[k v] d IH]; cbn [getitem]; [now intros [= <-]|].
  destruct (String.eqb k key); [discriminate | exact IH].
Qed.

Lemma next_filter_thrown (filters : list Filter) (ty : string) (e : gui_exn) :
  next_filter filters ty = Thrown e ->
  e = StopIteration \/ e = Py (KeyError "filterType").
Proof.
  induction filters as [|g rest IH]; cbn [next_filter].
  - intros [= <-]. now left.
  - destruct (getitem g "filterType") as [t|x] eqn:Hg.
    + destruct (String.eqb t ty); [discriminate | exact IH].
    + intros [= <-]. right. now rewrite (getitem_raises _ _ _ Hg).
Qed.

Lemma first_of_type_next (filters : list Filter) (ty : string) (f : Filter) :
  first_of_type filters ty f -> next_filter filters ty = Done f.
Proof.
  intros (before & after & -> & Hf & Hb).
  induction before as [|g before IH]; cbn [app next_filter].
  - rewrite Hf, String.eqb_refl. reflexivity.
  - destruct (Hb g (or_introl eq_refl)) as (t & -> & Hne).
    destruct (String.eqb_spec t ty); [contradiction|].
    apply IH. intros h Hin. apply Hb. now right.
Qed.

(** *** Reading a trace *)

Section TraceFacts.

Variable Resp : Type.

Local Abbreviation orders_sent := (orders_sent (Resp := Resp)).
Local Abbreviation errors_shown := (errors_shown (Resp := Resp)).
Local Abbreviation texts_shown := (texts_shown (Resp := Resp)).

Lemma orders_sent_app (a b : list (gui_event Resp)) :
  orders_sent (a ++ b) = orders_sent a ++ orders_sent b.
Proof.
  induction a as [|[] a IH]; cbn; rewrite ?IH; reflexivity.
Qed.

Lemma errors_shown_app (a b : list (gui_event Resp)) :
  errors_shown (a ++ b) = errors_shown a ++ errors_shown b.
Proof.
  induction a as [|[] a IH]; cbn; rewrite ?IH; reflexivity.
Qed.

Lemma texts_shown_app (a b : list (gui_event Resp)) :
  texts_shown (a ++ b) = texts_shown a ++ texts_shown b.
Proof.
  induction a as [|[] a IH]; cbn; rewrite ?IH; reflexivity.
Qed.

Lemma twap_events_orders args parts interval first orders failure :
  orders_sent (twap_events args parts interval first orders failure)
  = repeat args (List.length orders
                 + match failure with Some _ => 1 | None => 0 end).
Proof.
  revert first. induction orders as [|order rest IH]; intros first.
  - destruct failure; reflexivity.
  - cbn [twap_events List.length Nat.add repeat].
    rewrite !orders_sent_app. cbn [ObservedGUI.orders_sent app].
    rewrite IH. now destruct (first <? parts).
Qed.

Lemma twap_events_texts args parts interval first orders failure :
  texts_shown (twap_events args parts interval first orders failure)
  = steps_from first orders.
Proof.
  revert first. induction orders as [|order rest IH]; intros first.
  - destruct failure; reflexivity.
  - cbn [twap_events steps_from].
    rewrite !texts_shown_app. cbn [ObservedGUI.texts_shown app].
    rewrite IH. now destruct (first <? parts).
Qed.

Lemma twap_events_errors args parts interval first orders failure :
  errors_shown (twap_events args parts interval first orders failure) = [].
Proof.
  revert first. induction orders as [|order rest IH]; intros first.
  - destruct failure; reflexivity.
  - cbn [twap_events].
    rewrite !errors_shown_app. cbn [ObservedGUI.errors_shown app].
    rewrite IH. now destruct (first <? parts).
Qed.

Lemma steps_from_not_completed first (orders : list Resp) :
  ~ In ShownCompleted (steps_from first orders).
Proof.
  revert first. induction orders as [|order rest IH]; intros first; cbn.
  - tauto.
  - intros [H|H]; [discriminate | exact (IH _ H)].
Qed.

End TraceFacts.

Lemma next_filter_typed (filters : list Filter) (ty : string) :
  (forall g, In g filters -> exists t, getitem g "filterType" = Return t) ->
  next_filter filters ty <> Thrown (Py (KeyError "filterType")).
Proof.
  induction filters as [|g rest IH]; intros H; [discriminate|].
  cbn [next_filter].
  destruct (H g (or_introl eq_refl)) as (t & ->).
  destruct (String.eqb t ty); [discriminate|].
  apply IH. intros h Hin. apply H. now right.
Qed.

Section Facts.

Variable Decimal_new : string -> option Decimal.
Variable int_new : string -> Z + string.
Variable World : Type.
Variable Resp : Type.
Variable client_get_symbol_info :
  string -> World -> TradingBot.reply (option (list Filter)) * World.
Variable client_create_order :
  TradingBot.OrderArgs -> World -> TradingBot.reply Resp * World.
Variable root_update : World -> World.
Variable sleep_max : Z.

Local Abbreviation State := (State World Resp).
Local Abbreviation get_symbol_info :=
  (get_symbol_info (Resp := Resp) client_get_symbol_info).
Local Abbreviation place_market :=
  (place_market Decimal_new client_get_symbol_info client_create_order).
Local Abbreviation place_limit :=
  (place_limit Decimal_new client_get_symbol_info client_create_order).
Local Abbreviation place_twap :=
  (place_twap Decimal_new int_new client_get_symbol_info
     client_create_order root_update sleep_max).
Local Abbreviation place_twap_loop :=
  (place_twap_loop client_create_order root_update sleep_max).
Local Abbreviation submit_until_failure :=
  (submit_until_failure client_create_order root_update).

Implicit Types st : State.

(** [get_symbol_info] asks the client once, for the symbol in upper case,
    and then only reads the answer. *)
Lemma get_symbol_info_run symbol st :
  get_symbol_info symbol st =
    let '(r, w) := client_get_symbol_info (upper symbol) (world st) in
    (match r with
     | TradingBot.Failed descr => Thrown (Py (ClientError descr))
     | TradingBot.Acknowledged None =>
         Thrown (Py (ValueError ("Symbol " ++ symbol ++ " not found")%string))
     | TradingBot.Acknowledged (Some filters) =>
         match next_filter filters "LOT_SIZE" with
         | Thrown e => Thrown e
         | Done lot_size =>
             match next_filter filters "PRICE_FILTER" with
             | Thrown e => Thrown e
             | Done price_filter => Done (lot_size, price_filter)
             end
         end
     end,
     {| world := w;
        trace := trace st ++ [GetSymbolInfo (upper symbol)] |}).
Proof.
  unfold TradingBotGUI.get_symbol_info, bind at 1, call_get_symbol_info.
  destruct (client_get_symbol_info (upper symbol) (world st))
    as [[[filters|]|descr] w]; try reflexivity.
  unfold bind, ret.
  destruct (next_filter filters "LOT_SIZE"); [|reflexivity].
  destruct (next_filter filters "PRICE_FILTER"); reflexivity.
Qed.

(** X11.  When [get_symbol_info] returns, the client was asked once, for
    the symbol in upper case, it answered with filters, and the two
    filters returned are the first of type LOT_SIZE and the first of type
    PRICE_FILTER among them, wherever they stand in the list. *)
Theorem get_symbol_info_finds_first symbol st lot_size price_filter st' :
  get_symbol_info symbol st = (Done (lot_size, price_filter), st') ->
  exists filters w,
    client_get_symbol_info (upper symbol) (world st)
    = (TradingBot.Acknowledged (Some filters), w)
    /\ st' = {| world := w;
                trace := trace st ++ [GetSymbolInfo (upper symbol)] |}
    /\ first_of_type filters "LOT_SIZE" lot_size
    /\ first_of_type filters "PRICE_FILTER" price_filter.
Proof.
  rewrite get_symbol_info_run.
  destruct (client_get_symbol_info (upper symbol) (world st))
    as [[[filters|]|descr] w]; try discriminate.
  destruct (next_filter filters "LOT_SIZE") as [l|] eqn:Hl; [|discriminate].
  destruct (next_filter filters "PRICE_FILTER") as [p|] eqn:Hp;
    [|discriminate].
  intros H. inversion H; subst. exists filters, w.
  repeat split; now apply next_filter_done.
Qed.


(** *** Steps of the monad *)

Lemma bind_lift {A B} (r : result A) (k : A -> M World Resp B) st :
  bind (lift r) k st
  = match r with
    | Return a => k a st
    | Raise e => (Thrown (Py e), st)
    end.
Proof. destruct r; reflexivity. Qed.

Lemma bind_emit {B} (ev : gui_event Resp) (k : unit -> M World Resp B) st :
  bind (emit ev) k st
  = k tt {| world := world st; trace := trace st ++ [ev] |}.
Proof. reflexivity. Qed.

Lemma bind_call_create_order {B} args (k : Resp -> M World Resp B) st :
  bind (call_create_order client_create_order args) k st
  = let '(r, w) := client_create_order args (world st) in
    let st' := {| world := w; trace := trace st ++ [CreateOrder args] |} in
    match r with
    | TradingBot.Acknowledged order => k order st'
    | TradingBot.Failed descr => (Thrown (Py (ClientError descr)), st')
    end.
Proof.
  unfold bind, call_create_order.
  destruct (client_create_order args (world st)) as [[order|descr] w];
    reflexivity.
Qed.

Lemma get_symbol_info_found symbol st filters w lot_size price_filter :
  client_get_symbol_info (upper symbol) (world st)
  = (TradingBot.Acknowledged (Some filters), w) ->
  next_filter filters "LOT_SIZE" = Done lot_size ->
  next_filter filters "PRICE_FILTER" = Done price_filter ->
  get_symbol_info symbol st
  = (Done (lot_size, price_filter),
     {| world := w; trace := trace st ++ [GetSymbolInfo (upper symbol)] |}).
Proof.
  intros Hc Hl Hp. rewrite get_symbol_info_run, Hc, Hl, Hp. reflexivity.
Qed.

(** Whatever [get_symbol_info] throws is an [Exception], and it leaves
    one request in the trace. *)
Lemma get_symbol_info_effect symbol st r st' :
  get_symbol_info symbol st = (r, st') ->
  trace st' = trace st ++ [GetSymbolInfo (upper symbol)]
  /\ forall e, r = Thrown e -> is_Exception_gui e = true.
Proof.
  rewrite get_symbol_info_run.
  destruct (client_get_symbol_info (upper symbol) (world st))
    as [[[filters|]|descr] w]; intros [= <- <-]; (split; [reflexivity|]).
  - destruct (next_filter filters "LOT_SIZE") as [l|x] eqn:Hl.
    + destruct (next_filter filters "PRICE_FILTER") as [p|y] eqn:Hp;
        intros e [= <-].
      destruct (next_filter_thrown _ _ _ Hp) as [-> | ->]; reflexivity.
    + intros e [= <-].
      destruct (next_filter_thrown _ _ _ Hl) as [-> | ->]; reflexivity.
  - intros e [= <-]. reflexivity.
  - intros e [= <-]. reflexivity.
Qed.

(** *** What the arithmetic of the adjustment can raise *)

Lemma adjust_raises (qty : Decimal) (f : Filter) (key : string) (e : exn) :
  result_bind (getitem f key) (fun v =>
  result_bind (Decimal_ Decimal_new v) (fun step =>
  result_bind (floordiv qty step) (fun q => mul q step))) = Raise e ->
  e = KeyError key \/ decimal_signal e.
Proof.
  destruct (getitem f key) as [v|x] eqn:Hg; cbn [result_bind].
  - unfold Decimal_. destruct (Decimal_new v) as [step|]; cbn [result_bind].
    + destruct (floordiv qty step) as [q|x] eqn:Hq; cbn [result_bind].
      * intros H. right. exact (mul_raises _ _ _ H).
      * intros [= <-]. right. exact (floordiv_raises _ _ _ Hq).
    + intros [= <-]. right. left. eauto.
  - intros [= <-]. left. exact (getitem_raises _ _ _ Hg).
Qed.

Lemma adjust_raises_Exception (qty : Decimal) (f : Filter) (key : string)
    (e : exn) :
  result_bind (getitem f key) (fun v =>
  result_bind (Decimal_ Decimal_new v) (fun step =>
  result_bind (floordiv qty step) (fun q => mul q step))) = Raise e ->
  is_Exception e = true.
Proof.
  intros H. destruct (adjust_raises _ _ _ _ H) as [-> | Hs];
    [reflexivity | now apply decimal_signal_is_Exception].
Qed.


(** The adjusted value is a product, so never a signaling NaN:
    [float] converts it. *)
Lemma adjust_not_snan (qty : Decimal) (f : Filter) (key : string)
    (d : Decimal) :
  result_bind (getitem f key) (fun v =>
  result_bind (Decimal_ Decimal_new v) (fun step =>
  result_bind (floordiv qty step) (fun q => mul q step))) = Return d ->
  TradingBot.float_ d = Return (TradingBot.float_of d).
Proof.
  destruct (getitem f key) as [v|x]; cbn [result_bind]; [|discriminate].
  destruct (Decimal_ Decimal_new v) as [step|x]; cbn [result_bind];
    [|discriminate].
  destruct (floordiv qty step) as [q|x]; cbn [result_bind]; [|discriminate].
  intros H. unfold TradingBot.float_. now rewrite (mul_not_snan _ _ _ H).
Qed.

(** *** The two single orders *)

Ltac run_trace :=
  unfold log_and_display, showerror, bind, emit, ret; cbn [world trace];
  rewrite <- ?app_assoc; reflexivity.

Lemma parse_decimal_cases (value : string) :
  (exists d, Decimal_new value = Some d
             /\ parse_decimal Decimal_new value = Return d)
  \/ (Decimal_new value = None
      /\ parse_decimal Decimal_new value
         = Raise (ValueError "Invalid number")).
Proof.
  unfold parse_decimal. destruct (Decimal_new value) as [d|]; eauto.
Qed.

(** A quantity that [Decimal] refuses ends [place_market] at once. *)
Lemma place_market_refused form st :
  Decimal_new (qty_var form) = None ->
  place_market form st
  = (Done tt, {| world := world st;
                 trace := trace st ++ [ShowError "Invalid number"] |}).
Proof.
  intros Hq. unfold TradingBotGUI.place_market, try_except.
  rewrite bind_lift. unfold parse_decimal. rewrite Hq. reflexivity.
Qed.

(** So does a symbol whose filters are not found. *)
Lemma place_market_no_info form st qty e st1 :
  Decimal_new (qty_var form) = Some qty ->
  get_symbol_info (upper (symbol_var form)) st = (Thrown e, st1) ->
  place_market form st
  = (Done tt, {| world := world st1;
                 trace := trace st1 ++ [ShowError (str_gui_exn e)] |}).
Proof.
  intros Hq Hg. unfold TradingBotGUI.place_market, try_except.
  rewrite bind_lift. unfold parse_decimal. rewrite Hq.
  unfold bind at 1. rewrite Hg.
  destruct (get_symbol_info_effect _ _ _ _ Hg) as [_ He].
  rewrite (He e eq_refl). reflexivity.
Qed.

(** The course of [place_market] once the quantity is read and the
    symbol's filters are found. *)
Lemma place_market_run form st qty lot_size price_filter st1 :
  Decimal_new (qty_var form) = Some qty ->
  get_symbol_info (upper (symbol_var form)) st
  = (Done (lot_size, price_filter), st1) ->
  place_market form st
  = match adjust_quantity Decimal_new qty lot_size with
    | Raise e =>
        (Done tt, {| world := world st1;
                     trace := trace st1 ++ [ShowError (str_exn e)] |})
    | Return qty_adj =>
        let args := spot_market_order form qty_adj in
        let '(r, w2) := client_create_order args (world st1) in
        (Done tt,
         {| world := w2;
            trace := trace st1 ++ CreateOrder args ::
              match r with
              | TradingBot.Acknowledged order =>
                  [OutputDelete;
                   OutputInsert (ShownOrder "Market Order" order);
                   LoggingInfo (LoggedOrder "Market Order" order)]
              | TradingBot.Failed descr => [ShowError descr]
              end |})
    end.
Proof.
  intros Hq Hg.
  unfold TradingBotGUI.place_market, try_except.
  rewrite bind_lift. unfold parse_decimal. rewrite Hq.
  unfold bind at 1. rewrite Hg.
  cbn [fst]. rewrite bind_lift.
  destruct (adjust_quantity Decimal_new qty lot_size) as [qty_adj|e] eqn:Ha.
  - rewrite bind_lift, (adjust_not_snan _ _ _ _ Ha).
    rewrite bind_call_create_order.
    unfold spot_market_order.
    destruct (client_create_order _ (world st1)) as [[order|descr] w2].
    + run_trace.
    + cbn [is_Exception_gui is_Exception str_gui_exn str_exn]. run_trace.
  - cbn [is_Exception_gui]. rewrite (adjust_raises_Exception _ _ _ _ Ha).
    cbn [str_gui_exn]. run_trace.
Qed.

Lemma place_limit_refused form st :
  Decimal_new (qty_var form) = None
  \/ Decimal_new (price_var form) = None ->
  place_limit form st
  = (Done tt, {| world := world st;
                 trace := trace st ++ [ShowError "Invalid number"] |}).
Proof.
  intros H. unfold TradingBotGUI.place_limit, try_except.
  rewrite bind_lift. unfold parse_decimal.
  destruct (Decimal_new (qty_var form)) as [qty|]; [|reflexivity].
  destruct H as [H|H]; [discriminate|].
  rewrite bind_lift, H. reflexivity.
Qed.

Lemma place_limit_no_info form st qty price e st1 :
  Decimal_new (qty_var form) = Some qty ->
  Decimal_new (price_var form) = Some price ->
  get_symbol_info (upper (symbol_var form)) st = (Thrown e, st1) ->
  place_limit form st
  = (Done tt, {| world := world st1;
                 trace := trace st1 ++ [ShowError (str_gui_exn e)] |}).
Proof.
  intros Hq Hpr Hg. unfold TradingBotGUI.place_limit, try_except.
  rewrite bind_lift. unfold parse_decimal. rewrite Hq.
  rewrite bind_lift, Hpr.
  unfold bind at 1. rewrite Hg.
  destruct (get_symbol_info_effect _ _ _ _ Hg) as [_ He].
  rewrite (He e eq_refl). reflexivity.
Qed.

Lemma place_limit_run form st qty price lot_size price_filter st1 :
  Decimal_new (qty_var form) = Some qty ->
  Decimal_new (price_var form) = Some price ->
  get_symbol_info (upper (symbol_var form)) st
  = (Done (lot_size, price_filter), st1) ->
  place_limit form st
  = match adjust_quantity Decimal_new qty lot_size with
    | Raise e =>
        (Done tt, {| world := world st1;
                     trace := trace st1 ++ [ShowError (str_exn e)] |})
    | Return qty_adj =>
        match adjust_price Decimal_new price price_filter with
        | Raise e =>
            (Done tt, {| world := world st1;
                         trace := trace st1 ++ [ShowError (str_exn e)] |})
        | Return price_adj =>
            let args := spot_limit_order form qty_adj price_adj in
            let '(r, w2) := client_create_order args (world st1) in
            (Done tt,
             {| world := w2;
                trace := trace st1 ++ CreateOrder args ::
                  match r with
                  | TradingBot.Acknowledged order =>
                      [OutputDelete;
                       OutputInsert (ShownOrder "Limit Order" order);
                       LoggingInfo (LoggedOrder "Limit Order" order)]
                  | TradingBot.Failed descr => [ShowError descr]
                  end |})
        end
    end.
Proof.
  intros Hq Hpr Hg.
  unfold TradingBotGUI.place_limit, try_except.
  rewrite bind_lift. unfold parse_decimal. rewrite Hq.
  rewrite bind_lift, Hpr.
  unfold bind at 1. rewrite Hg.
  rewrite bind_lift.
  destruct (adjust_quantity Decimal_new qty lot_size) as [qty_adj|e] eqn:Ha.
  - rewrite bind_lift.
    destruct (adjust_price Decimal_new price price_filter)
      as [price_adj|e] eqn:Hb.
    + rewrite bind_lift, (adjust_not_snan _ _ _ _ Ha).
      rewrite bind_call_create_order.
      unfold spot_limit_order.
      destruct (client_create_order _ (world st1)) as [[order|descr] w2].
      * run_trace.
      * cbn [is_Exception_gui is_Exception str_gui_exn str_exn]. run_trace.
    + cbn [is_Exception_gui]. rewrite (adjust_raises_Exception _ _ _ _ Hb).
      cbn [str_gui_exn]. run_trace.
  - cbn [is_Exception_gui]. rewrite (adjust_raises_Exception _ _ _ _ Ha).
    cbn [str_gui_exn]. run_trace.
Qed.

(** *** The TWAP order *)

Lemma state_eta st :
  {| world := world st; trace := trace st ++ [] |} = st.
Proof. destruct st as [w tr]. cbn. now rewrite app_nil_r. Qed.

(** The loop of [place_twap] from step [i + 1] on, [n] steps being left,
    when [time.sleep] accepts the interval or is not called: it follows
    [submit_until_failure]. *)
Lemma place_twap_loop_run form piece parts interval :
  TradingBot.float_ piece = Return (TradingBot.float_of piece) ->
  0 <= interval <= sleep_max \/ parts <= 1 ->
  forall (n i : nat) results st,
    (n <> 0%nat -> parts = Z.of_nat (i + n)) ->
    place_twap_loop (upper (symbol_var form)) (upper (side_var form)) piece
      parts interval (map Z.of_nat (seq i n)) results st
    = let args := spot_market_order form piece in
      let '(orders, failure, w) := submit_until_failure args n (world st) in
      (match failure with
       | None => Done (results ++ orders)
       | Some descr => Thrown (Py (ClientError descr))
       end,
       {| world := w;
          trace := trace st ++ twap_events args parts interval
                                 (Z.of_nat i + 1) orders failure |}).
Proof.
  intros Hfloat Hint. induction n as [|k IH]; intros i results st Hparts.
  - cbn. now rewrite app_nil_r, state_eta.
  - specialize (Hparts ltac:(discriminate)).
    cbn [seq map TradingBotGUI.place_twap_loop].
    rewrite bind_lift, Hfloat, bind_call_create_order.
    cbn [ObservedGUI.submit_until_failure]. fold (spot_market_order form piece).
    destruct (client_create_order (spot_market_order form piece) (world st))
      as [[order|descr] w1]; [|reflexivity].
    rewrite !bind_emit. cbn [world trace].
    destruct k as [|k'].
    + replace (Z.of_nat i <? parts - 1) with false by lia.
      cbn. replace (Z.of_nat i + 1 <? parts) with false by lia.
      rewrite <- !app_assoc. reflexivity.
    + replace (Z.of_nat i <? parts - 1) with true by lia.
      unfold bind at 1. unfold bind at 1. unfold update. cbn [world trace].
      unfold sleep.
      replace (interval <? 0) with false by lia.
      replace (sleep_max <? interval) with false by lia.
      unfold emit at 1. cbn [world trace].
      rewrite (IH (S i)) by (intros _; lia).
      cbn [world trace].
      destruct (submit_until_failure (spot_market_order form piece) (S k')
                  (root_update w1)) as [[orders failure] w2].
      cbn [twap_events].
      replace (Z.of_nat i + 1 <? parts) with true by lia.
      replace (Z.of_nat (S i) + 1) with (Z.of_nat i + 1 + 1) by lia.
      destruct failure; rewrite <- !app_assoc; reflexivity.
Qed.

(** A text that [Decimal] or [int] refuses ends [place_twap] at once. *)
Lemma place_twap_refused form st :
  place_twap form st
  = match Decimal_new (qty_var form) with
    | None => (Done tt, {| world := world st;
                           trace := trace st ++ [ShowError "Invalid number"] |})
    | Some qty =>
        match int_new (parts_var form) with
        | inr msg => (Done tt, {| world := world st;
                                  trace := trace st ++ [ShowError msg] |})
        | inl parts =>
            match int_new (interval_var form) with
            | inr msg => (Done tt, {| world := world st;
                                      trace := trace st ++ [ShowError msg] |})
            | inl interval => place_twap form st
            end
        end
    end.
Proof.
  destruct (Decimal_new (qty_var form)) as [qty|] eqn:Hq.
  - destruct (int_new (parts_var form)) as [parts|msg] eqn:Hp.
    + destruct (int_new (interval_var form)) as [interval|msg] eqn:Hi;
        [reflexivity|].
      unfold TradingBotGUI.place_twap, try_except.
      rewrite bind_lift. unfold parse_decimal. rewrite Hq.
      rewrite bind_lift. unfold int_ at 1. rewrite Hp.
      rewrite bind_lift. unfold int_ at 1. rewrite Hi. reflexivity.
    + unfold TradingBotGUI.place_twap, try_except.
      rewrite bind_lift. unfold parse_decimal. rewrite Hq.
      rewrite bind_lift. unfold int_ at 1. rewrite Hp. reflexivity.
  - unfold TradingBotGUI.place_twap, try_except.
    rewrite bind_lift. unfold parse_decimal. rewrite Hq. reflexivity.
Qed.

Section Twap.

Variables (form : Form) (st : State) (qty : Decimal) (parts interval : Z).
Hypothesis Hqty : Decimal_new (qty_var form) = Some qty.
Hypothesis Hparts : int_new (parts_var form) = inl parts.
Hypothesis Hinterval : int_new (interval_var form) = inl interval.

Lemma place_twap_no_info e st1 :
  get_symbol_info (upper (symbol_var form)) st = (Thrown e, st1) ->
  place_twap form st
  = (Done tt, {| world := world st1;
                 trace := trace st1 ++ [ShowError (str_gui_exn e)] |}).
Proof.
  intros Hg. unfold TradingBotGUI.place_twap, try_except.
  rewrite bind_lift. unfold parse_decimal. rewrite Hqty.
  rewrite bind_lift. unfold int_ at 1. rewrite Hparts.
  rewrite bind_lift. unfold int_ at 1. rewrite Hinterval.
  unfold bind at 1. rewrite Hg.
  destruct (get_symbol_info_effect _ _ _ _ Hg) as [_ He].
  rewrite (He e eq_refl). reflexivity.
Qed.

Variables (lot_size price_filter : Filter) (st1 : State).
Hypothesis Hinfo :
  get_symbol_info (upper (symbol_var form)) st
  = (Done (lot_size, price_filter), st1).

(** The piece cannot be computed: the division or the adjustment
    raises. *)
Lemma place_twap_no_piece e :
  result_bind (truediv qty (of_int parts))
    (fun share => adjust_quantity Decimal_new share lot_size) = Raise e ->
  place_twap form st
  = (Done tt, {| world := world st1;
                 trace := trace st1 ++ [ShowError (str_exn e)] |}).
Proof.
  intros He. unfold TradingBotGUI.place_twap, try_except.
  rewrite bind_lift. unfold parse_decimal. rewrite Hqty.
  rewrite bind_lift. unfold int_ at 1. rewrite Hparts.
  rewrite bind_lift. unfold int_ at 1. rewrite Hinterval.
  unfold bind at 1. rewrite Hinfo. cbn [fst]. rewrite bind_lift.
  destruct (truediv qty (of_int parts)) as [share|x] eqn:Hd;
    cbn [result_bind] in He.
  - rewrite bind_lift, He. cbn [is_Exception_gui].
    rewrite (adjust_raises_Exception _ _ _ _ He). reflexivity.
  - injection He as ->. cbn [is_Exception_gui].
    rewrite (decimal_signal_is_Exception _ (truediv_raises _ _ _ Hd)).
    reflexivity.
Qed.

(** The course of [place_twap] once the piece is computed, when
    [time.sleep] accepts the interval or is not called. *)
Lemma place_twap_run share piece :
  truediv qty (of_int parts) = Return share ->
  adjust_quantity Decimal_new share lot_size = Return piece ->
  0 <= interval <= sleep_max \/ parts <= 1 ->
  place_twap form st
  = let args := spot_market_order form piece in
    let '(orders, failure, w) :=
      submit_until_failure args (Z.to_nat parts) (world st1) in
    (Done tt,
     {| world := w;
        trace := trace st1 ++ OutputDelete ::
                 twap_events args parts interval 1 orders failure
                 ++ [match failure with
                     | None => OutputInsert ShownCompleted
                     | Some descr => ShowError descr
                     end] |}).
Proof.
  intros Hd Ha Hint. unfold TradingBotGUI.place_twap, try_except.
  rewrite bind_lift. unfold parse_decimal. rewrite Hqty.
  rewrite bind_lift. unfold int_ at 1. rewrite Hparts.
  rewrite bind_lift. unfold int_ at 1. rewrite Hinterval.
  unfold bind at 1. rewrite Hinfo. cbn [fst].
  rewrite bind_lift, Hd, bind_lift, Ha, bind_emit.
  unfold bind at 1. unfold TradingBot.range.
  rewrite (place_twap_loop_run form piece parts interval
             (adjust_not_snan _ _ _ _ Ha) Hint (Z.to_nat parts) 0)
    by (intros Hn; lia).
  cbn [world trace Z.of_nat Z.add].
  destruct (submit_until_failure (spot_market_order form piece)
              (Z.to_nat parts) (world st1)) as [[orders failure] w].
  destruct failure as [descr|].
  - cbn [is_Exception_gui is_Exception str_gui_exn str_exn].
    unfold showerror, emit. cbn [world trace].
    rewrite <- !app_assoc. reflexivity.
  - unfold emit. cbn [world trace]. rewrite <- !app_assoc. reflexivity.
Qed.

(** When [time.sleep] refuses the interval and a second step is due,
    the first order is still sent before anything is reported. *)
Lemma place_twap_interval_refused share piece :
  truediv qty (of_int parts) = Return share ->
  adjust_quantity Decimal_new share lot_size = Return piece ->
  2 <= parts ->
  interval < 0 \/ sleep_max < interval ->
  exists msg,
    place_twap form st
    = let args := spot_market_order form piece in
      match client_create_order args (world st1) with
      | (TradingBot.Acknowledged order, w1) =>
          (Done tt,
           {| world := root_update w1;
              trace := trace st1
                       ++ [OutputDelete; CreateOrder args;
                           OutputInsert (ShownStep 1 order);
                           LoggingInfo (LoggedStep 1 order);
                           RootUpdate; ShowError msg] |})
      | (TradingBot.Failed descr, w1) =>
          (Done tt,
           {| world := w1;
              trace := trace st1
                       ++ [OutputDelete; CreateOrder args;
                           ShowError descr] |})
      end.
Proof.
  intros Hd Ha Hparts2 Hint.
  assert (Hsleep : exists e,
             is_Exception e = true
             /\ sleep (World := World) (Resp := Resp) sleep_max interval
                = raise (Py e)).
  { unfold sleep. destruct (Z.ltb_spec interval 0) as [Hneg|Hneg].
    - eexists. split; [|reflexivity]. reflexivity.
    - destruct (Z.ltb_spec sleep_max interval); [|lia].
      eexists. split; [|reflexivity]. reflexivity. }
  destruct Hsleep as (e & He & Hsleep). exists (str_exn e).
  unfold TradingBotGUI.place_twap, try_except.
  rewrite bind_lift. unfold parse_decimal. rewrite Hqty.
  rewrite bind_lift. unfold int_ at 1. rewrite Hparts.
  rewrite bind_lift. unfold int_ at 1. rewrite Hinterval.
  unfold bind at 1. rewrite Hinfo. cbn [fst].
  rewrite bind_lift, Hd, bind_lift, Ha, bind_emit.
  unfold bind at 1. unfold TradingBot.range.
  destruct (Z.to_nat parts) as [|k] eqn:Hk; [lia|].
  cbn [seq map TradingBotGUI.place_twap_loop].
  rewrite bind_lift, (adjust_not_snan _ _ _ _ Ha), bind_call_create_order.
  cbn [world trace]. fold (spot_market_order form piece).
  destruct (client_create_order (spot_market_order form piece) (world st1))
    as [[order|descr] w1].
  - rewrite !bind_emit. cbn [world trace Z.of_nat Z.add].
    replace (0 <? parts - 1) with true by lia.
    rewrite Hsleep. unfold bind, update, raise. cbn [world trace].
    cbn [is_Exception_gui]. rewrite He.
    cbn [str_gui_exn]. unfold showerror, emit. cbn [world trace].
    rewrite <- !app_assoc. reflexivity.
  - cbn [is_Exception_gui is_Exception str_gui_exn str_exn].
    unfold showerror, emit. cbn [world trace].
    rewrite <- !app_assoc. reflexivity.
Qed.

End Twap.

Lemma submit_until_failure_length args n w orders failure w' :
  submit_until_failure args n w = (orders, failure, w') ->
  match failure with
  | None => List.length orders = n
  | Some _ => (List.length orders < n)%nat
  end.
Proof.
  revert w orders failure w'.
  induction n as [|k IH]; intros w orders failure w'.
  - intros [= <- <- <-]. reflexivity.
  - cbn [ObservedGUI.submit_until_failure].
    destruct (client_create_order args w) as [[order|descr] w1].
    + destruct k as [|k'].
      * intros [= <- <- <-]. reflexivity.
      * destruct (submit_until_failure args (S k') (root_update w1))
          as [[orders1 failure1] w2] eqn:Hs.
        intros [= <- <- <-]. specialize (IH _ _ _ _ Hs).
        destruct failure1; cbn [List.length]; lia.
    + intros [= <- <- <-]. cbn. lia.
Qed.

(** *** What the adjustment does *)

(** X12.  [adjust_quantity] and [adjust_price] raise nothing but a
    [KeyError] for the missing ['stepSize'] (['tickSize']) entry, or one
    of the signals the decimal context traps: InvalidOperation (also for
    a step text that is no number), DivisionByZero, Overflow. *)
Theorem adjust_raises_only qty price lot_size price_filter e :
  (adjust_quantity Decimal_new qty lot_size = Raise e ->
   e = KeyError "stepSize" \/ decimal_signal e)
  /\ (adjust_price Decimal_new price price_filter = Raise e ->
      e = KeyError "tickSize" \/ decimal_signal e).
Proof. split; apply adjust_raises. Qed.

(** X13.  A step of zero is not taken as the absence of a constraint:
    with a finite quantity the adjustment raises, DivisionByZero for a
    quantity that is not zero and InvalidOperation (DivisionUndefined)
    for zero. *)
Theorem adjust_zero_step lot_size v sg e sq cq xq :
  getitem lot_size "stepSize" = Return v ->
  Decimal_new v = Some (Fin sg 0 e) ->
  adjust_quantity Decimal_new (Fin sq cq xq) lot_size
  = Raise (if (cq =? 0)%N then InvalidOperation "DivisionUndefined"
           else DivisionByZero).
Proof.
  intros Hg Hv. unfold adjust_quantity, Decimal_. rewrite Hg.
  cbn [result_bind]. rewrite Hv. cbn [result_bind].
  unfold floordiv. cbv beta iota delta [_check_nans].
  change (0 =? 0)%N with true. cbv iota.
  destruct (cq =? 0)%N; reflexivity.
Qed.

(** X14.  A multiple of the step is left as it is: for a positive step
    [inc] and [k >= 0], [adjust_quantity] and [adjust_price] return
    [k * inc] unchanged, when it fits the precision and the exponent of
    the step is in the context's range. *)
Theorem adjust_fixed_point lot_size price_filter v ci ei k :
  Decimal_new v = Some (Fin false ci ei) ->
  (ci <> 0)%N ->
  (k * ci < pow10 prec)%N ->
  Etiny <= ei <= Etop ->
  (getitem lot_size "stepSize" = Return v ->
   adjust_quantity Decimal_new (Fin false (k * ci) ei) lot_size
   = Return (Fin false (k * ci) ei))
  /\ (getitem price_filter "tickSize" = Return v ->
      adjust_price Decimal_new (Fin false (k * ci) ei) price_filter
      = Return (Fin false (k * ci) ei)).
Proof.
  intros Hv Hci Hfit Hei.
  assert (Hfix :
    result_bind (floordiv (Fin false (k * ci) ei) (Fin false ci ei))
      (fun q => mul q (Fin false ci ei))
    = Return (Fin false (k * ci) ei)).
  { destruct (N.eq_dec k 0) as [->|Hk].
    - unfold floordiv. cbv beta iota delta [_check_nans].
      destruct (N.eqb_spec ci 0) as [|_]; [contradiction|].
      unfold _divide. change (0 * ci =? 0)%N with true.
      cbn [orb result_bind]. unfold mul. cbv beta iota delta [_check_nans].
      unfold _fix_finite. change (0 * ci =? 0)%N with true. cbv iota.
      unfold Etop, Etiny, Emax, Emin, prec in *.
      do 2 f_equal. lia.
    - apply floor_to_increment; try assumption.
      + lia.
      + rewrite Qval_mul. apply Qle_refl.
      + rewrite Qval_mul.
        assert (Hpos : (0 < Qval false ci ei)%Q)
          by (apply Qval_false_pos; lia).
        rewrite inject_Z_plus. setoid_replace
          ((inject_Z (Z.of_N k) + inject_Z 1) * Qval false ci ei)%Q
          with (inject_Z (Z.of_N k) * Qval false ci ei
                + Qval false ci ei)%Q by ring.
        rewrite <- (Qplus_0_r (inject_Z (Z.of_N k) * Qval false ci ei)) at 1.
        apply Qplus_lt_r. exact Hpos. }
  split; intros Hg.
  - unfold adjust_quantity, Decimal_. rewrite Hg. cbn [result_bind].
    rewrite Hv. cbn [result_bind]. exact Hfix.
  - unfold adjust_price, Decimal_. rewrite Hg. cbn [result_bind].
    rewrite Hv. cbn [result_bind]. exact Hfix.
Qed.

(** *** The single orders, end to end *)

Ltac read_events :=
  cbn [ObservedGUI.orders_sent ObservedGUI.errors_shown
       ObservedGUI.texts_shown];
  rewrite ?texts_shown_app, ?errors_shown_app, ?orders_sent_app.

(** X15.  [place_market] and [place_limit] never raise an [Exception]:
    each ends normally, having either submitted one order and written it
    to the output box under its label, without any dialog, or shown
    exactly one error dialog, with nothing written to the box and at most
    one order submitted. *)
Theorem single_orders_always_report form st :
  (exists st' tr,
      place_market form st = (Done tt, st')
      /\ trace st' = trace st ++ tr
      /\ reported "Market Order" tr)
  /\ (exists st' tr,
        place_limit form st = (Done tt, st')
        /\ trace st' = trace st ++ tr
        /\ reported "Limit Order" tr).
Proof.
  assert (Hlocal : forall label msg,
            reported (Resp := Resp) label [ShowError msg]).
  { intros label msg. right. exists msg. cbn. auto. }
  assert (Hmsg : forall label info msg,
            reported (Resp := Resp) label
              [GetSymbolInfo info; ShowError msg]).
  { intros label info msg. right. exists msg. cbn. auto. }
  assert (Hsent : forall label info args (r : TradingBot.reply Resp),
            reported label
              (GetSymbolInfo info :: CreateOrder args ::
               match r with
               | TradingBot.Acknowledged order =>
                   [OutputDelete; OutputInsert (ShownOrder label order);
                    LoggingInfo (LoggedOrder label order)]
               | TradingBot.Failed descr => [ShowError descr]
               end)).
  { intros label info args [order|descr]; [left; exists order
                                          | right; exists descr];
      cbn; auto. }
  destruct (Decimal_new (qty_var form)) as [qty|] eqn:Hq.
  2:{ split.
      - rewrite (place_market_refused form st Hq).
        do 2 eexists. split; [reflexivity|]. split; [reflexivity|].
        apply Hlocal.
      - rewrite (place_limit_refused form st (or_introl Hq)).
        do 2 eexists. split; [reflexivity|]. split; [reflexivity|].
        apply Hlocal. }
  destruct (get_symbol_info (upper (symbol_var form)) st)
    as [[[lot_size price_filter]|e] st1] eqn:Hg;
    destruct (get_symbol_info_effect _ _ _ _ Hg) as [Htr _].
  - split.
    + rewrite (place_market_run form st qty lot_size price_filter st1 Hq Hg).
      destruct (adjust_quantity Decimal_new qty lot_size) as [qty_adj|e].
      * cbv zeta. destruct (client_create_order _ (world st1)) as [r w2].
        do 2 eexists. split; [reflexivity|]. cbn [trace]. rewrite Htr.
        rewrite <- app_assoc. split; [reflexivity|]. apply Hsent.
      * do 2 eexists. split; [reflexivity|]. cbn [trace]. rewrite Htr.
        rewrite <- app_assoc. split; [reflexivity|]. apply Hmsg.
    + destruct (Decimal_new (price_var form)) as [price|] eqn:Hp.
      2:{ rewrite (place_limit_refused form st (or_intror Hp)).
          do 2 eexists. split; [reflexivity|]. split; [reflexivity|].
          apply Hlocal. }
      rewrite (place_limit_run form st qty price lot_size price_filter st1
                 Hq Hp Hg).
      destruct (adjust_quantity Decimal_new qty lot_size) as [qty_adj|e].
      * destruct (adjust_price Decimal_new price price_filter)
          as [price_adj|e].
        -- cbv zeta. destruct (client_create_order _ (world st1)) as [r w2].
           do 2 eexists. split; [reflexivity|]. cbn [trace]. rewrite Htr.
           rewrite <- app_assoc. split; [reflexivity|]. apply Hsent.
        -- do 2 eexists. split; [reflexivity|]. cbn [trace]. rewrite Htr.
           rewrite <- app_assoc. split; [reflexivity|]. apply Hmsg.
      * do 2 eexists. split; [reflexivity|]. cbn [trace]. rewrite Htr.
        rewrite <- app_assoc. split; [reflexivity|]. apply Hmsg.
  - split.
    + rewrite (place_market_no_info form st qty e st1 Hq Hg).
      do 2 eexists. split; [reflexivity|]. cbn [trace]. rewrite Htr.
      rewrite <- app_assoc. split; [reflexivity|]. apply Hmsg.
    + destruct (Decimal_new (price_var form)) as [price|] eqn:Hp.
      2:{ rewrite (place_limit_refused form st (or_intror Hp)).
          do 2 eexists. split; [reflexivity|]. split; [reflexivity|].
          apply Hlocal. }
      rewrite (place_limit_no_info form st qty price e st1 Hq Hp Hg).
      do 2 eexists. split; [reflexivity|]. cbn [trace]. rewrite Htr.
      rewrite <- app_assoc. split; [reflexivity|]. apply Hmsg.
Qed.

(** X16.  A number [Decimal] refuses is reported before anything is
    asked of the exchange: [place_limit] with such a quantity or price,
    and [place_market] and [place_twap] with such a quantity, only show
    the dialog [Invalid number]; the world is untouched. *)
Theorem refused_number_stays_local form st :
  Decimal_new (qty_var form) = None
  \/ Decimal_new (price_var form) = None ->
  let local :=
    (Done tt, {| world := world st;
                 trace := trace st ++ [ShowError "Invalid number"] |}) in
  place_limit form st = local
  /\ (Decimal_new (qty_var form) = None ->
      place_market form st = local /\ place_twap form st = local).
Proof.
  intros H local. split; [now apply place_limit_refused|].
  intros Hq. split; [now apply place_market_refused|].
  rewrite place_twap_refused, Hq. reflexivity.
Qed.

(** X17.  [place_twap] reads its two counts before it asks anything of
    the exchange: once the quantity is read, a text for the parts, or
    else for the interval, that [int] refuses ends the function with the
    message of that [ValueError] in a dialog; the symbol is not looked
    up and the world is untouched. *)
Theorem place_twap_checks_counts_first form st qty msg :
  Decimal_new (qty_var form) = Some qty ->
  int_new (parts_var form) = inr msg
  \/ (exists parts, int_new (parts_var form) = inl parts
                    /\ int_new (interval_var form) = inr msg) ->
  place_twap form st
  = (Done tt, {| world := world st; trace := trace st ++ [ShowError msg] |}).
Proof.
  intros Hq [Hp | (parts & Hp & Hi)]; rewrite place_twap_refused, Hq, Hp;
    [|rewrite Hi]; reflexivity.
Qed.

(** X18.  [place_market] end to end.  For a positive quantity [x] and
    the positive step [inc] of the symbol's lot size filter, with
    [k * inc <= x < (k + 1) * inc], the one order submitted is a MARKET
    order for the symbol and the side of the form in upper case (the
    side is not checked against BUY and SELL) and for the quantity
    [k * inc]; acknowledged, it is written to the box and logged; failed,
    its message is shown in a dialog. *)
Theorem place_market_sends_floor
    form st lot_size price_filter st1 v cx ci ex ei k r w2 :
  Decimal_new (qty_var form) = Some (Fin false cx ex) ->
  get_symbol_info (upper (symbol_var form)) st
  = (Done (lot_size, price_filter), st1) ->
  getitem lot_size "stepSize" = Return v ->
  Decimal_new v = Some (Fin false ci ei) ->
  (cx <> 0)%N -> (ci <> 0)%N ->
  (inject_Z (Z.of_N k) * Qval false ci ei <= Qval false cx ex)%Q ->
  (Qval false cx ex < inject_Z (Z.of_N k + 1) * Qval false ci ei)%Q ->
  (k * ci < pow10 prec)%N ->
  Etiny <= ei <= Etop ->
  client_create_order (spot_market_order form (Fin false (k * ci) ei))
    (world st1) = (r, w2) ->
  place_market form st
  = (Done tt,
     {| world := w2;
        trace := trace st1 ++
          CreateOrder (spot_market_order form (Fin false (k * ci) ei)) ::
          match r with
          | TradingBot.Acknowledged order =>
              [OutputDelete; OutputInsert (ShownOrder "Market Order" order);
               LoggingInfo (LoggedOrder "Market Order" order)]
          | TradingBot.Failed descr => [ShowError descr]
          end |}).
Proof.
  intros Hq Hg Hget Hv Hcx Hci Hle Hlt Hfit Hei Hc.
  rewrite (place_market_run form st _ lot_size price_filter st1 Hq Hg).
  unfold adjust_quantity, Decimal_. rewrite Hget. cbn [result_bind].
  rewrite Hv. cbn [result_bind].
  rewrite (floor_to_increment cx ci ex ei k Hcx Hci Hle Hlt Hfit Hei).
  cbv zeta. rewrite Hc. reflexivity.
Qed.

(** X19.  [place_limit] end to end.  The quantity is rounded down to
    the step of the lot size filter and the price to the tick of the
    price filter, and the one order submitted is a LIMIT order, good till
    cancelled, for these two values. *)
Theorem place_limit_sends_floors
    form st lot_size price_filter st1 v t
    cx ci ex ei k cp ct ep et j r w2 :
  Decimal_new (qty_var form) = Some (Fin false cx ex) ->
  Decimal_new (price_var form) = Some (Fin false cp ep) ->
  get_symbol_info (upper (symbol_var form)) st
  = (Done (lot_size, price_filter), st1) ->
  getitem lot_size "stepSize" = Return v ->
  Decimal_new v = Some (Fin false ci ei) ->
  getitem price_filter "tickSize" = Return t ->
  Decimal_new t = Some (Fin false ct et) ->
  (cx <> 0)%N -> (ci <> 0)%N -> (cp <> 0)%N -> (ct <> 0)%N ->
  (inject_Z (Z.of_N k) * Qval false ci ei <= Qval false cx ex)%Q ->
  (Qval false cx ex < inject_Z (Z.of_N k + 1) * Qval false ci ei)%Q ->
  (inject_Z (Z.of_N j) * Qval false ct et <= Qval false cp ep)%Q ->
  (Qval false cp ep < inject_Z (Z.of_N j + 1) * Qval false ct et)%Q ->
  (k * ci < pow10 prec)%N -> (j * ct < pow10 prec)%N ->
  Etiny <= ei <= Etop -> Etiny <= et <= Etop ->
  client_create_order
    (spot_limit_order form (Fin false (k * ci) ei) (Fin false (j * ct) et))
    (world st1) = (r, w2) ->
  place_limit form st
  = (Done tt,
     {| world := w2;
        trace := trace st1 ++
          CreateOrder (spot_limit_order form (Fin false (k * ci) ei)
                         (Fin false (j * ct) et)) ::
          match r with
          | TradingBot.Acknowledged order =>
              [OutputDelete; OutputInsert (ShownOrder "Limit Order" order);
               LoggingInfo (LoggedOrder "Limit Order" order)]
          | TradingBot.Failed descr => [ShowError descr]
          end |}).
Proof.
  intros Hq Hp Hg Hget Hv Hgett Ht Hcx Hci Hcp Hct Hle Hlt Hlep Hltp
    Hfit Hfitp Hei Het Hc.
  rewrite (place_limit_run form st _ _ lot_size price_filter st1 Hq Hp Hg).
  unfold adjust_quantity, adjust_price, Decimal_.
  rewrite Hget, Hgett. cbn [result_bind]. rewrite Hv, Ht. cbn [result_bind].
  rewrite (floor_to_increment cx ci ex ei k Hcx Hci Hle Hlt Hfit Hei).
  rewrite (floor_to_increment cp ct ep et j Hcp Hct Hlep Hltp Hfitp Het).
  cbv zeta. rewrite Hc. reflexivity.
Qed.

(** X20.  Nothing in [place_market] stops a quantity that is no number:
    for the text of an infinity or of a quiet NaN, and a step that is
    finite and not zero, the adjustment returns the quantity as it is,
    [float] converts it, and the order is submitted with it. *)
Theorem special_quantity_is_submitted
    form st qty lot_size price_filter st1 v si ci ei r w2 :
  Decimal_new (qty_var form) = Some qty ->
  special qty ->
  get_symbol_info (upper (symbol_var form)) st
  = (Done (lot_size, price_filter), st1) ->
  getitem lot_size "stepSize" = Return v ->
  Decimal_new v = Some (Fin si ci ei) ->
  (ci <> 0)%N ->
  client_create_order (spot_market_order form qty) (world st1) = (r, w2) ->
  place_market form st
  = (Done tt,
     {| world := w2;
        trace := trace st1 ++ CreateOrder (spot_market_order form qty) ::
          match r with
          | TradingBot.Acknowledged order =>
              [OutputDelete; OutputInsert (ShownOrder "Market Order" order);
               LoggingInfo (LoggedOrder "Market Order" order)]
          | TradingBot.Failed descr => [ShowError descr]
          end |}).
Proof.
  intros Hq Hs Hg Hget Hv Hci Hc.
  rewrite (place_market_run form st _ lot_size price_filter st1 Hq Hg).
  assert (Ha : adjust_quantity Decimal_new qty lot_size = Return qty).
  { unfold adjust_quantity, Decimal_. rewrite Hget. cbn [result_bind].
    rewrite Hv. cbn [result_bind].
    destruct qty as [sq cq eq | sq | sq [] pq];
      cbv beta iota delta [special] in Hs; try contradiction.
    - unfold floordiv. cbv beta iota delta [_check_nans]. cbn [result_bind].
      unfold mul. cbv beta iota delta [_check_nans].
      destruct (N.eqb_spec ci 0) as [|_]; [contradiction|].
      now destruct sq, si.
    - unfold floordiv. cbv beta iota delta [_check_nans]. cbn [result_bind].
      unfold mul. cbv beta iota delta [_check_nans].
      unfold _fix_nan. rewrite !(N.mod_small _ _ Hs). reflexivity. }
  rewrite Ha. cbv zeta. rewrite Hc. reflexivity.
Qed.

(** X21.  [place_market] needs more of the symbol than it uses.  When
    the client knows no such symbol the dialog says so, naming the symbol
    in upper case; when the symbol has no filter of type LOT_SIZE, or
    none of type PRICE_FILTER (which a market order does not use), the
    dialog is shown with an empty message, [str] of a StopIteration.  No
    order is submitted in either case. *)
Theorem place_market_without_filters form st qty info w :
  Decimal_new (qty_var form) = Some qty ->
  client_get_symbol_info (upper (symbol_var form)) (world st)
  = (TradingBot.Acknowledged info, w) ->
  match info with
  | None => True
  | Some filters =>
      exists ty,
        (ty = "LOT_SIZE" \/ ty = "PRICE_FILTER")
        /\ forall g, In g filters ->
             exists t, getitem g "filterType" = Return t /\ t <> ty
  end ->
  place_market form st
  = (Done tt,
     {| world := w;
        trace := trace st ++
          [GetSymbolInfo (upper (symbol_var form));
           ShowError
             match info with
             | None => "Symbol " ++ upper (symbol_var form) ++ " not found"
             | Some _ => ""
             end] |}).
Proof.
  intros Hq Hc Hinfo.
  assert (Hg : exists e,
             get_symbol_info (upper (symbol_var form)) st
             = (Thrown e,
                {| world := w;
                   trace := trace st
                            ++ [GetSymbolInfo (upper (symbol_var form))] |})
             /\ str_gui_exn e
                = match info with
                  | None => ("Symbol " ++ upper (symbol_var form)
                             ++ " not found")%string
                  | Some _ => ""%string
                  end).
  { rewrite get_symbol_info_run, upper_idem, Hc.
    destruct info as [filters|]; [|eexists; split; reflexivity].
    destruct Hinfo as (ty & Hty & Hnone).
    exists StopIteration. split; [|reflexivity].
    destruct Hty as [-> | ->].
    - now rewrite (next_filter_exhausted _ _ Hnone).
    - rewrite (next_filter_exhausted _ _ Hnone).
      destruct (next_filter filters "LOT_SIZE") as [l|e] eqn:Hl;
        [reflexivity|].
      destruct (next_filter_thrown _ _ _ Hl) as [-> | ->]; [reflexivity|].
      exfalso. revert Hl. apply next_filter_typed.
      intros g Hin. destruct (Hnone g Hin) as (t & Ht & _). eauto. }
  destruct Hg as (e & Hg & Hstr).
  rewrite (place_market_no_info form st qty e _ Hq Hg), Hstr.
  cbn [world trace]. rewrite <- app_assoc. reflexivity.
Qed.

(** *** The TWAP order, end to end *)

(** X22.  [place_twap] never raises an [Exception] either.  It ends
    normally, and the output box holds the steps 1, 2, ... of the orders
    acknowledged, followed either by the completion line, with no dialog
    and no other order submitted, or by nothing more, with exactly one
    error dialog and at most one order submitted besides those shown. *)
Theorem place_twap_always_reports form st :
  exists st' tr,
    place_twap form st = (Done tt, st')
    /\ trace st' = trace st ++ tr
    /\ twap_reported tr.
Proof.
  assert (Hlocal : forall msg, twap_reported (Resp := Resp) [ShowError msg]).
  { intros msg. exists []. right. exists msg. cbn. auto. }
  assert (Hmsg : forall info msg,
            twap_reported (Resp := Resp) [GetSymbolInfo info; ShowError msg]).
  { intros info msg. exists []. right. exists msg. cbn. auto. }
  rewrite place_twap_refused.
  destruct (Decimal_new (qty_var form)) as [qty|] eqn:Hq;
    [|do 2 eexists; split; [reflexivity|]; split; [reflexivity|];
      apply Hlocal].
  destruct (int_new (parts_var form)) as [parts|msg] eqn:Hp;
    [|do 2 eexists; split; [reflexivity|]; split; [reflexivity|];
      apply Hlocal].
  destruct (int_new (interval_var form)) as [interval|msg] eqn:Hi;
    [|do 2 eexists; split; [reflexivity|]; split; [reflexivity|];
      apply Hlocal].
  destruct (get_symbol_info (upper (symbol_var form)) st)
    as [[[lot_size price_filter]|e] st1] eqn:Hg;
    destruct (get_symbol_info_effect _ _ _ _ Hg) as [Htr _].
  2:{ rewrite (place_twap_no_info form st qty parts interval Hq Hp Hi
                 e st1 Hg).
      do 2 eexists. split; [reflexivity|]. cbn [trace]. rewrite Htr.
      rewrite <- app_assoc. split; [reflexivity|]. apply Hmsg. }
  destruct (result_bind (truediv qty (of_int parts))
              (fun share => adjust_quantity Decimal_new share lot_size))
    as [piece|e] eqn:Hpiece.
  2:{ rewrite (place_twap_no_piece form st qty parts interval Hq Hp Hi
                 lot_size price_filter st1 Hg e Hpiece).
      do 2 eexists. split; [reflexivity|]. cbn [trace]. rewrite Htr.
      rewrite <- app_assoc. split; [reflexivity|]. apply Hmsg. }
  destruct (truediv qty (of_int parts)) as [share|] eqn:Hd;
    cbn [result_bind] in Hpiece; [|discriminate].
  set (args := spot_market_order form piece).
  assert (Hcase : (0 <= interval <= sleep_max \/ parts <= 1)
                  \/ (2 <= parts /\ (interval < 0 \/ sleep_max < interval)))
    by lia.
  destruct Hcase as [Hint | [Hparts2 Hint]].
  - rewrite (place_twap_run form st qty parts interval Hq Hp Hi
               lot_size price_filter st1 Hg share piece Hd Hpiece Hint).
    cbv zeta. fold args.
    destruct (submit_until_failure args (Z.to_nat parts) (world st1))
      as [[orders failure] w].
    do 2 eexists. split; [reflexivity|]. cbn [trace]. rewrite Htr.
    rewrite <- app_assoc. split; [reflexivity|].
    exists orders. cbn [app]. read_events.
    rewrite twap_events_texts, twap_events_errors, twap_events_orders.
    rewrite !length_app, repeat_length.
    destruct failure as [descr|]; [right; exists descr | left]; cbn;
      repeat split; rewrite ?app_nil_r; try reflexivity; lia.
  - destruct (place_twap_interval_refused form st qty parts interval
                Hq Hp Hi lot_size price_filter st1 Hg share piece
                Hd Hpiece Hparts2 Hint) as [msg Hrun].
    rewrite Hrun. cbv zeta. fold args.
    destruct (client_create_order args (world st1)) as [[order|descr] w1].
    + do 2 eexists. split; [reflexivity|]. cbn [trace]. rewrite Htr.
      rewrite <- app_assoc. split; [reflexivity|].
      exists [order]. right. exists msg. cbn. repeat split; lia.
    + do 2 eexists. split; [reflexivity|]. cbn [trace]. rewrite Htr.
      rewrite <- app_assoc. split; [reflexivity|].
      exists []. right. exists descr. cbn. repeat split; lia.
Qed.

(** X23.  [place_twap] stops at the first order that fails.  When the
    piece is computed and [time.sleep] accepts the interval, the orders
    are submitted one after the other, the window being updated in
    between, until one fails or all the parts are placed: every order is
    the same MARKET order for the piece; after a failure the parts left
    are never submitted, the steps acknowledged stay in the box and the
    message of the failure is shown in a dialog; without one the
    completion line follows the last step. *)
Theorem place_twap_stops_at_first_failure
    form st qty parts interval lot_size price_filter st1 share piece
    orders failure w2 :
  Decimal_new (qty_var form) = Some qty ->
  int_new (parts_var form) = inl parts ->
  int_new (interval_var form) = inl interval ->
  get_symbol_info (upper (symbol_var form)) st
  = (Done (lot_size, price_filter), st1) ->
  truediv qty (of_int parts) = Return share ->
  adjust_quantity Decimal_new share lot_size = Return piece ->
  0 <= interval <= sleep_max ->
  submit_until_failure (spot_market_order form piece) (Z.to_nat parts)
    (world st1) = (orders, failure, w2) ->
  exists tr,
    place_twap form st
    = (Done tt, {| world := w2; trace := trace st1 ++ tr |})
    /\ texts_shown tr
       = steps_from 1 orders
         ++ match failure with
            | Some _ => []
            | None => [ShownCompleted]
            end
    /\ match failure with
       | Some descr =>
           orders_sent tr
           = repeat (spot_market_order form piece) (S (List.length orders))
           /\ (List.length orders < Z.to_nat parts)%nat
           /\ errors_shown tr = [descr]
       | None =>
           orders_sent tr
           = repeat (spot_market_order form piece) (Z.to_nat parts)
           /\ List.length orders = Z.to_nat parts
           /\ errors_shown tr = []
       end.
Proof.
  intros Hq Hp Hi Hg Hd Ha Hint Hs.
  rewrite (place_twap_run form st qty parts interval Hq Hp Hi
             lot_size price_filter st1 Hg share piece Hd Ha
             (or_introl Hint)).
  cbv zeta. rewrite Hs.
  pose proof (submit_until_failure_length _ _ _ _ _ _ Hs) as Hlen.
  eexists. split; [reflexivity|]. read_events.
  rewrite twap_events_texts, twap_events_errors, twap_events_orders.
  destruct failure as [descr|]; cbn [ObservedGUI.texts_shown
    ObservedGUI.errors_shown ObservedGUI.orders_sent app].
  - rewrite !app_nil_r. split; [reflexivity|].
    split; [|split; [exact Hlen | reflexivity]].
    f_equal. lia.
  - rewrite !app_nil_r. split; [reflexivity|].
    split; [|split; [exact Hlen | reflexivity]].
    f_equal. lia.
Qed.

(** X24.  A TWAP order in zero parts.  [place_twap] accepts the count,
    looks the symbol up, and only then divides: for a finite quantity
    that is not zero, the division raises DivisionByZero, whose name is
    all the dialog shows; no order is submitted. *)
Theorem place_twap_zero_parts
    form st sg c e interval lot_size price_filter st1 :
  Decimal_new (qty_var form) = Some (Fin sg c e) ->
  (c <> 0)%N ->
  int_new (parts_var form) = inl 0 ->
  int_new (interval_var form) = inl interval ->
  get_symbol_info (upper (symbol_var form)) st
  = (Done (lot_size, price_filter), st1) ->
  place_twap form st
  = (Done tt,
     {| world := world st1;
        trace := trace st ++
          [GetSymbolInfo (upper (symbol_var form));
           ShowError "[<class 'decimal.DivisionByZero'>]"] |}).
Proof.
  intros Hq Hc Hp Hi Hg.
  rewrite (place_twap_no_piece form st _ 0 interval Hq Hp Hi
             lot_size price_filter st1 Hg DivisionByZero).
  - destruct (get_symbol_info_effect _ _ _ _ Hg) as [-> _].
    rewrite upper_idem, <- app_assoc. reflexivity.
  - unfold truediv, of_int. cbv beta iota delta [_check_nans].
    change (Z.abs_N 0 =? 0)%N with true. cbv iota.
    destruct (N.eqb_spec c 0); [contradiction | reflexivity].
Qed.

(** X25.  A TWAP order in a negative number of parts is reported as
    completed: when the division and the adjustment return, the loop
    body never runs, the box is cleared and the completion line is
    written, though no order was submitted. *)
Theorem place_twap_negative_parts
    form st qty parts interval lot_size price_filter st1 share piece :
  Decimal_new (qty_var form) = Some qty ->
  int_new (parts_var form) = inl parts ->
  int_new (interval_var form) = inl interval ->
  get_symbol_info (upper (symbol_var form)) st
  = (Done (lot_size, price_filter), st1) ->
  truediv qty (of_int parts) = Return share ->
  adjust_quantity Decimal_new share lot_size = Return piece ->
  parts < 0 ->
  place_twap form st
  = (Done tt,
     {| world := world st1;
        trace := trace st1 ++ [OutputDelete; OutputInsert ShownCompleted] |}).
Proof.
  intros Hq Hp Hi Hg Hd Ha Hneg.
  rewrite (place_twap_run form st qty parts interval Hq Hp Hi
             lot_size price_filter st1 Hg share piece Hd Ha)
    by (right; lia).
  replace (Z.to_nat parts) with 0%nat by lia. reflexivity.
Qed.

(** X26.  An interval that [time.sleep] refuses (a negative one, or one
    too large) is found out only at the first pause.  With two parts or
    more the first order is submitted before; acknowledged, it is shown
    and logged and the window is updated, then the refusal is shown in a
    dialog and the parts left are dropped. *)
Theorem place_twap_bad_interval
    form st qty parts interval lot_size price_filter st1 share piece r w1 :
  Decimal_new (qty_var form) = Some qty ->
  int_new (parts_var form) = inl parts ->
  int_new (interval_var form) = inl interval ->
  get_symbol_info (upper (symbol_var form)) st
  = (Done (lot_size, price_filter), st1) ->
  truediv qty (of_int parts) = Return share ->
  adjust_quantity Decimal_new share lot_size = Return piece ->
  2 <= parts ->
  interval < 0 \/ sleep_max < interval ->
  client_create_order (spot_market_order form piece) (world st1) = (r, w1) ->
  exists msg,
    place_twap form st
    = (Done tt,
       match r with
       | TradingBot.Acknowledged order =>
           {| world := root_update w1;
              trace := trace st1
                       ++ [OutputDelete;
                           CreateOrder (spot_market_order form piece);
                           OutputInsert (ShownStep 1 order);
                           LoggingInfo (LoggedStep 1 order);
                           RootUpdate; ShowError msg] |}
       | TradingBot.Failed descr =>
           {| world := w1;
              trace := trace st1
                       ++ [OutputDelete;
                           CreateOrder (spot_market_order form piece);
                           ShowError descr] |}
       end).
Proof.
  intros Hq Hp Hi Hg Hd Ha Hparts2 Hint Hc.
  destruct (place_twap_interval_refused form st qty parts interval
              Hq Hp Hi lot_size price_filter st1 Hg share piece
              Hd Ha Hparts2 Hint) as [msg Hrun].
  exists msg. rewrite Hrun. cbv zeta. rewrite Hc.
  destruct r; reflexivity.
Qed.

End Facts.

(** *** The properties on concrete inputs *)

Local Abbreviation stub_place_market failing :=
  (place_market of_string stub_get_symbol_info (stub_create_order failing)).
Local Abbreviation stub_place_limit failing :=
  (place_limit of_string stub_get_symbol_info (stub_create_order failing)).
Local Abbreviation stub_place_twap failing :=
  (place_twap of_string stub_int stub_get_symbol_info
     (stub_create_order failing) stub_update stub_sleep_max).

Lemma get_symbol_info_finds_first_witness :
  exists filters w,
    stub_get_symbol_info (upper "btcusdt") (world gui_start)
    = (TradingBot.Acknowledged (Some filters), w)
    /\ asked = {| world := w;
                  trace := trace gui_start
                           ++ [GetSymbolInfo (upper "btcusdt")] |}
    /\ first_of_type filters "LOT_SIZE" stub_lot_size
    /\ first_of_type filters "PRICE_FILTER" stub_price_filter.
Proof.
  apply (get_symbol_info_finds_first nat nat stub_get_symbol_info
           "btcusdt" gui_start stub_lot_size stub_price_filter asked).
  reflexivity.
Defined.

Lemma adjust_zero_step_witness :
  of_string "0.000" = Some (Fin false 0 (-3))
  /\ adjust_quantity of_string (Fin false 3 (-3)) [("stepSize", "0.000")]
     = Raise DivisionByZero.
Proof.
  assert (H : of_string "0.000" = Some (Fin false 0 (-3))) by reflexivity.
  split; [exact H|].
  exact (adjust_zero_step of_string [("stepSize", "0.000")] "0.000"
           false (-3) false 3%N (-3) eq_refl H).
Defined.

Lemma adjust_fixed_point_witness :
  adjust_quantity of_string (Fin false 3 (-3)) stub_lot_size
  = Return (Fin false 3 (-3))
  /\ adjust_price of_string (Fin false 3 (-3)) [("tickSize", "0.001")]
     = Return (Fin false 3 (-3)).
Proof.
  destruct (adjust_fixed_point of_string stub_lot_size
              [("tickSize", "0.001")] "0.001" 1%N (-3) 3%N eq_refl
              ltac:(discriminate) ltac:(vm_compute; reflexivity)
              ltac:(unfold Etiny, Etop, Emin, Emax, prec; lia))
    as [Hq Hp].
  split; [exact (Hq eq_refl) | exact (Hp eq_refl)].
Defined.

Lemma refused_number_stays_local_witness :
  of_string "abc" = None
  /\ stub_place_limit [] (stub_form "abc" "25000" "3" "5") gui_start
     = (Done tt,
        {| world := 0%nat; trace := [ShowError "Invalid number"] |})
  /\ stub_place_market [] (stub_form "abc" "25000" "3" "5") gui_start
     = (Done tt,
        {| world := 0%nat; trace := [ShowError "Invalid number"] |})
  /\ stub_place_twap [] (stub_form "abc" "25000" "3" "5") gui_start
     = (Done tt,
        {| world := 0%nat; trace := [ShowError "Invalid number"] |}).
Proof.
  assert (H : of_string "abc" = None) by reflexivity.
  pose proof (refused_number_stays_local of_string stub_int nat nat
                stub_get_symbol_info (stub_create_order []) stub_update
                stub_sleep_max (stub_form "abc" "25000" "3" "5") gui_start
                (or_introl H)) as Hall.
  cbv zeta in Hall. destruct Hall as [Hl Hmt].
  destruct (Hmt H) as [Hm Ht].
  split; [exact H|]. split; [exact Hl|]. split; [exact Hm | exact Ht].
Defined.

Lemma place_twap_checks_counts_first_witness :
  stub_place_twap [] (stub_form "0.01" "25000" "three" "5") gui_start
  = (Done tt,
     {| world := 0%nat;
        trace := trace gui_start ++
          [ShowError "invalid literal for int() with base 10: 'three'"] |}).
Proof.
  apply (place_twap_checks_counts_first of_string stub_int nat nat
           stub_get_symbol_info (stub_create_order []) stub_update
           stub_sleep_max (stub_form "0.01" "25000" "three" "5") gui_start
           (Fin false 1 (-2))); [reflexivity | left; reflexivity].
Defined.

Lemma place_market_sends_floor_witness :
  stub_place_market [] (stub_form "0.0035" "25000" "3" "5") gui_start
  = (Done tt,
     {| world := 1%nat;
        trace :=
          [GetSymbolInfo "BTCUSDT";
           CreateOrder
             (spot_market_order (stub_form "0.0035" "25000" "3" "5")
                (Fin false 3 (-3)));
           OutputDelete; OutputInsert (ShownOrder "Market Order" 1%nat);
           LoggingInfo (LoggedOrder "Market Order" 1%nat)] |}).
Proof.
  exact (place_market_sends_floor of_string nat nat stub_get_symbol_info
           (stub_create_order []) (stub_form "0.0035" "25000" "3" "5")
           gui_start stub_lot_size stub_price_filter asked "0.001"
           35%N 1%N (-4) (-3) 3%N (TradingBot.Acknowledged 1%nat) 1%nat
           eq_refl eq_refl eq_refl eq_refl
           ltac:(discriminate) ltac:(discriminate)
           ltac:(vm_compute; discriminate) ltac:(vm_compute; reflexivity)
           ltac:(vm_compute; reflexivity)
           ltac:(unfold Etiny, Etop, Emin, Emax, prec; lia)
           eq_refl).
Defined.

Lemma place_limit_sends_floors_witness :
  stub_place_limit [] (stub_form "0.0035" "25000.129" "3" "5") gui_start
  = (Done tt,
     {| world := 1%nat;
        trace :=
          [GetSymbolInfo "BTCUSDT";
           CreateOrder
             (spot_limit_order (stub_form "0.0035" "25000.129" "3" "5")
                (Fin false 3 (-3)) (Fin false 2500012 (-2)));
           OutputDelete; OutputInsert (ShownOrder "Limit Order" 1%nat);
           LoggingInfo (LoggedOrder "Limit Order" 1%nat)] |}).
Proof.
  exact (place_limit_sends_floors of_string nat nat stub_get_symbol_info
           (stub_create_order []) (stub_form "0.0035" "25000.129" "3" "5")
           gui_start stub_lot_size stub_price_filter asked "0.001" "0.01"
           35%N 1%N (-4) (-3) 3%N 25000129%N 1%N (-3) (-2) 2500012%N
           (TradingBot.Acknowledged 1%nat) 1%nat
           eq_refl eq_refl eq_refl eq_refl eq_refl eq_refl eq_refl
           ltac:(discriminate) ltac:(discriminate)
           ltac:(discriminate) ltac:(discriminate)
           ltac:(vm_compute; discriminate) ltac:(vm_compute; reflexivity)
           ltac:(vm_compute; discriminate) ltac:(vm_compute; reflexivity)
           ltac:(vm_compute; reflexivity) ltac:(vm_compute; reflexivity)
           ltac:(unfold Etiny, Etop, Emin, Emax, prec; lia)
           ltac:(unfold Etiny, Etop, Emin, Emax, prec; lia)
           eq_refl).
Defined.

Lemma special_quantity_is_submitted_witness :
  of_string "Infinity" = Some (Inf false)
  /\ stub_place_market [] (stub_form "Infinity" "25000" "3" "5") gui_start
     = (Done tt,
        {| world := 1%nat;
           trace :=
             [GetSymbolInfo "BTCUSDT";
              CreateOrder
                (spot_market_order (stub_form "Infinity" "25000" "3" "5")
                   (Inf false));
              OutputDelete; OutputInsert (ShownOrder "Market Order" 1%nat);
              LoggingInfo (LoggedOrder "Market Order" 1%nat)] |}).
Proof.
  assert (H : of_string "Infinity" = Some (Inf false)) by reflexivity.
  split; [exact H|].
  exact (special_quantity_is_submitted of_string nat nat
           stub_get_symbol_info (stub_create_order [])
           (stub_form "Infinity" "25000" "3" "5") gui_start
           (Inf false) stub_lot_size stub_price_filter asked "0.001"
           false 1%N (-3) (TradingBot.Acknowledged 1%nat) 1%nat
           H I eq_refl eq_refl eq_refl ltac:(discriminate) eq_refl).
Defined.

Lemma place_market_without_filters_witness :
  place_market of_string
    (fun (symbol : string) (w : nat) =>
       (TradingBot.Acknowledged (Some [stub_lot_size]), w))
    (stub_create_order []) (stub_form "0.0035" "25000" "3" "5") gui_start
  = (Done tt,
     {| world := 0%nat;
        trace := trace gui_start
                 ++ [GetSymbolInfo "BTCUSDT"; ShowError ""] |}).
Proof.
  apply (place_market_without_filters of_string nat nat
           (fun (symbol : string) (w : nat) =>
              (TradingBot.Acknowledged (Some [stub_lot_size]), w))
           (stub_create_order []) (stub_form "0.0035" "25000" "3" "5")
           gui_start (Fin false 35 (-4))
           (Some [stub_lot_size]) 0%nat eq_refl eq_refl).
  exists "PRICE_FILTER"%string. split; [right; reflexivity|].
  intros g [<-|[]]. exists "LOT_SIZE"%string.
  split; [reflexivity | discriminate].
Defined.

Lemma place_twap_stops_at_first_failure_witness :
  submit_until_failure (stub_create_order [2%nat]) stub_update
    (spot_market_order (stub_form "0.009" "25000" "3" "5")
       (Fin false 3 (-3))) 3 0%nat
  = ([1%nat], Some "rejected", 2%nat)
  /\ exists tr,
       stub_place_twap [2%nat] (stub_form "0.009" "25000" "3" "5") gui_start
       = (Done tt, {| world := 2%nat; trace := trace asked ++ tr |})
       /\ texts_shown tr = steps_from 1 [1%nat] ++ []
       /\ orders_sent tr
          = repeat (spot_market_order (stub_form "0.009" "25000" "3" "5")
                      (Fin false 3 (-3))) 2
       /\ (1 < 3)%nat
       /\ errors_shown tr = ["rejected"].
Proof.
  assert (H : submit_until_failure (stub_create_order [2%nat]) stub_update
                (spot_market_order (stub_form "0.009" "25000" "3" "5")
                   (Fin false 3 (-3))) 3 0%nat
              = ([1%nat], Some "rejected"%string, 2%nat))
    by reflexivity.
  split; [exact H|].
  exact (place_twap_stops_at_first_failure of_string stub_int nat nat
           stub_get_symbol_info (stub_create_order [2%nat]) stub_update
           stub_sleep_max (stub_form "0.009" "25000" "3" "5") gui_start
           (Fin false 9 (-3)) 3 5
           stub_lot_size stub_price_filter asked
           (Fin false 3 (-3)) (Fin false 3 (-3))
           [1%nat] (Some "rejected"%string) 2%nat
           eq_refl eq_refl eq_refl eq_refl eq_refl eq_refl
           ltac:(unfold stub_sleep_max; lia) H).
Defined.

Lemma place_twap_zero_parts_witness :
  stub_place_twap [] (stub_form "0.009" "25000" "0" "5") gui_start
  = (Done tt,
     {| world := 0%nat;
        trace :=
          [GetSymbolInfo "BTCUSDT";
           ShowError "[<class 'decimal.DivisionByZero'>]"] |}).
Proof.
  exact (place_twap_zero_parts of_string stub_int nat nat
           stub_get_symbol_info (stub_create_order []) stub_update
           stub_sleep_max (stub_form "0.009" "25000" "0" "5") gui_start
           false 9%N (-3) 5 stub_lot_size stub_price_filter asked
           eq_refl ltac:(discriminate) eq_refl eq_refl eq_refl).
Defined.

Lemma place_twap_negative_parts_witness :
  stub_place_twap [] (stub_form "0.009" "25000" "-3" "5") gui_start
  = (Done tt,
     {| world := 0%nat;
        trace :=
          [GetSymbolInfo "BTCUSDT"; OutputDelete;
           OutputInsert ShownCompleted] |}).
Proof.
  exact (place_twap_negative_parts of_string stub_int nat nat
           stub_get_symbol_info (stub_create_order []) stub_update
           stub_sleep_max (stub_form "0.009" "25000" "-3" "5") gui_start
           (Fin false 9 (-3)) (-3) 5 stub_lot_size stub_price_filter asked
           (Fin true 3 (-3)) (Fin true 3 (-3))
           eq_refl eq_refl eq_refl eq_refl eq_refl eq_refl ltac:(lia)).
Defined.

Lemma place_twap_bad_interval_witness :
  exists msg,
    stub_place_twap [] (stub_form "0.009" "25000" "3" "-1") gui_start
    = (Done tt,
       {| world := stub_update 1%nat;
          trace := trace asked
                   ++ [OutputDelete;
                       CreateOrder
                         (spot_market_order
                            (stub_form "0.009" "25000" "3" "-1")
                            (Fin false 3 (-3)));
                       OutputInsert (ShownStep 1 1%nat);
                       LoggingInfo (LoggedStep 1 1%nat);
                       RootUpdate; ShowError msg] |}).
Proof.
  exact (place_twap_bad_interval of_string stub_int nat nat
           stub_get_symbol_info (stub_create_order []) stub_update
           stub_sleep_max (stub_form "0.009" "25000" "3" "-1") gui_start
           (Fin false 9 (-3)) 3 (-1)
           stub_lot_size stub_price_filter asked
           (Fin false 3 (-3)) (Fin false 3 (-3))
           (TradingBot.Acknowledged 1%nat) 1%nat
           eq_refl eq_refl eq_refl eq_refl eq_refl eq_refl
           ltac:(lia) ltac:(left; lia) eq_refl).
Defined.

End TradingBotGUIFacts.
